(* ===== verification/_CoqProject ===== *)
-Q . S2P
Prelude.v
Loops.v
Builtins.v
Ledger.v
Persistence.v
World.v
Inventory.v
Sales.v
Profits.v
Main.v
Render.v
Json.v
