(* ===== verification/Prelude.v ===== *)
(** * Verification of SoftwareGestionaleProdottiVegani (src/main.py)

    The program is a terminal inventory and point-of-sale ledger for a
    shop.  Its single mutable object is the dictionary [data] with two
    entries: ['products'], a dict from lower-cased product name to a dict
    [{quantity, cost, price}], and ['sales'], a list of sales
    [{items, total}] whose items are [{name, quantity, price}].  [main]
    loads [data] from [store_data.json] ([load_data]), then loops: it reads
    a command, runs one of the handlers [add_product], [list_products],
    [register_sale], [show_profits], [show_help] on [data], and rewrites
    the whole file ([save_data]) after every command but [chiudi].

    ** Files, in dependency order
    - [Prelude] (this file): the state-and-exception monad [PyM] that
      models Python's sequential execution with exceptions (a raised
      exception keeps the state reached so far, as Python keeps the
      mutations done before a [raise]); the ordered association list
      [Dict] that models a Python dict (insertion order is observable in
      [list_products]); the hint database [ledger] and shared tactics.
    - [Loops]: [while True] in general: the fuelled loop [while_fuel]
      that the handlers use and its reference semantics [while_sem], a
      big-step relation (raise or [break] ends the loop, [continue] runs
      it again), with their equivalence under a measure that every
      [continue] decreases.
    - [Builtins]: the interface [PyText] of the Python builtins the code
      calls ([str.lower], [int(s)], [float(s)], [str(x)]) with its laws
      [PyTextLaws]; a concrete instance on ASCII text for the examples.
    - [Ledger]: the records [product], [item], [sale], [data]; the four
      mutations of [data] the source performs ([add_stock] line 32,
      [put_product] line 39, [take_stock] line 72, [append_sale] line
      80); the invariant [wf] (quantities >= 0, cost and price > 0, unique
      names, every sale well formed) with its boolean check [wfb]; the
      abstract transitions [lstep] of the spec's ledger, which preserve
      [wf], never remove a product or change its cost or price, and only
      append sales.
    - [Persistence]: [load_data] and the stored form of the ledger
      ([encode_data], [decode_products]); round trip of the two; the
      well-typed documents [stored_ok].
    - [Json] (after [Render]): the code of [load_data] and [save_data]
      on any JSON value ([load_value], [save_value], one [convert_data]
      for both), with the [KeyError], [TypeError] and [AttributeError]
      of a document of another shape; it refines the typed level of
      [Persistence].
    - [World]: the state a command runs in ([world]: ledger, remaining
      input lines, printed messages, file), the console builtins [input]
      and [print], and [save_data]; preorders on worlds ([reads],
      [writes], [file_kept], [ledger_moves]) used with the [preserves]
      library of this file.
    - [Inventory]: [add_product] and [list_products].
    - [Sales]: [register_sale] as its loop body [sale_step], the loop
      [sale_loop] and the final [record_sale].
    - [Profits]: [show_profits] and a second specification [hledger] of
      the ledger that records the cost of each item at the time of sale.
    - [Main]: [show_help], the loop body [main_step] (read a command,
      [chiudi], [dispatch] through the dict [commands], [save_data]),
      [main_loop], [main], the entry point [script] ([if __name__ ==
      "__main__": main()]), and the transition system [reachable] of the
      program between two commands.
    - [Render]: the text of each printed line and prompt ([render_line],
      [render], [transcript]): the f-strings, [:.2f] on money
      ([format_2f], rounding half to even) and [str(e)] of a
      [ValueError] with Python's [repr] of the rejected text.
    Each handler is a [Definition] in the monad of this file, written
    statement by statement after the source; the handlers receive the
    world and change its ledger in place, as the Python handlers mutate
    the shared dict [data].

    ** What is proved
    - Every handler and every iteration of the command loop, also one
      interrupted by an exception, moves the ledger by [lstep]s
      ([add_product_moves], [register_sale_moves], [main_step_run]); so
      the invariant [wf] holds after every command ([main_step_wf]), no
      product loses its cost or price ([main_step_keeps_products]) and
      sales are append-only ([main_step_sales_append_only]).
    - Functional behaviour of each handler on each branch: restock,
      creation and each rejection of [add_product]; a one-item sale, an
      unavailable quantity, a [no] after a product not found (the items
      accepted before are still recorded) and the end of input in the
      middle of a sale for [register_sale]; the rows of [list_products]; the printed
      profits of [show_profits] and its [KeyError] on a dangling item;
      [chiudi] and unknown commands in [main_step].
    - Stock conservation: a completed sale takes from every product
      exactly the units it records ([register_sale_conserves]); over any
      completed command, stock plus units sold is kept, and only
      [aggiungi] increases it ([main_step_accounted]).
    - Errors: only [EOFError] escapes a handler on a well-formed ledger;
      [main] started on a well-formed file ends only by [chiudi] or at the
      end of input ([main_ends_cleanly]).
    - Persistence: [load_data] after [save_data] gives the ledger back
      ([load_save_roundtrip]); between any two commands the file loads to
      exactly the ledger in memory ([reachable_consistent]); whatever way
      the program stops, the file holds a well-formed ledger
      ([main_durable]).
    - Equivalence: both [while True] loops, run with the fuel the model
      gives them, compute exactly the big-step semantics of [while True]
      over their bodies ([sale_loop_sem], [main_loop_while]).
    - Liveness: the program stops only after [Bye bye] or by [EOFError]
      with all input read ([main_stops_only_at_chiudi_or_eof]).
    - Bounds: stocks stay between 0 and their value before a sale
      ([register_sale_stock_bounds]); the printed gross profit is
      non-negative and the net profit at most the gross
      ([show_profits_bounds]).
    - Typing of the file: [load_data] accepts exactly the well-typed
      documents, [save_data] writes only such documents
      ([load_data_typed]); [main] on another
      document stops before the first prompt ([main_ill_typed_file]).
    - A whole session (add, sell, report, close) composed from the
      handlers ([main_add_sell_report]), the examples of the spec.
    - JSON level: [Persistence] is the code run on the documents it
      describes ([json_refines_persistence]); saving then loading gives
      back any data dict with float prices and costs, extra keys of a
      product included ([save_load_value]); a stored value raises only
      the [KeyError] of a key the code reads, a [TypeError] or
      [AttributeError] of a non-dict, or a [ValueError] of [float]
      ([load_value_errors]).
    - Output: a completed [register_sale] prints one item line per
      recorded item, in the order accepted, then [VENDITA REGISTRATA]
      and the total ([register_sale_printed]); commands and product
      names are case-insensitive ([main_step_case_insensitive],
      [names_case_insensitive]).
    - Output text: the printed total is rounded to the nearest cent,
      ties to even, as [:.2f] rounds ([total_line_rounding]).
    - Refinement: [show_profits], which charges the current cost, prints
      the net profit of the specification that charges the cost at the
      time of sale, along every run of the ledger ([show_profits_refines]).
    The proofs rest on three libraries of this file: [preserves] (a
    relation between the states before and after), [raises_only] (which
    exceptions can escape) and [raises_in] (which exceptions, and in
    which state), each with one lemma per monad operation and a tactic
    in [World].
    Each theorem with hypotheses has a witness that applies it to a
    concrete run on the ASCII builtins instance, evaluated by [vm_compute].

    ** Modelling choices
    - Python [int] is [Z] (unbounded, as in Python).  Python [float]
      money values are exact rationals [Q]: IEEE rounding of [+=] and [*]
      is not modelled, so money equalities are stated with [Qeq] ([==]).
    - Console input is the list of remaining lines [w_stdin]; [input]
      at end of input raises [EOFError], which the code never catches.
    - Output is the list of printed messages, one constructor per kind of
      [print] of the source; prompts of [input] are recorded too.
    - Loops that the source writes as [while True] are given fuel equal to
      one more than the number of remaining input lines: every iteration
      consumes a line, so the fuel is never exhausted (proved), and the
      extra exception [OutOfFuel] of the model never occurs
      ([register_sale_raises], [main_ends_cleanly]); any larger fuel
      gives the same run ([sale_loop_fuel], [while_fuel_irrelevant]).

    ** Not modelled
    - The text of the JSON file ([json.load], [json.dump] with
      [indent=2]) is library code: a file holds the value that was
      dumped ([Json]), and a failing [json.load] is [Corrupt] /
      [Unparsable].  [main] runs on the typed level of [Persistence]:
      a document that [load_data] accepts but whose values are not of
      the program's types (a quantity that is text, a sale of another
      shape) loads in [Json] but is outside the ledger [main] works on.
      Errors of [open] other than a missing file are not modelled.
    - Printed lines are messages that carry the numbers; [Render] gives
      their text.  [:.2f] is computed on the exact rational, not on the
      IEEE double the program holds, so a value whose double lies on the
      other side of a rounding boundary may print one cent apart.  Text
      is ASCII in the examples: [repr] of characters above 127 (which
      Python prints as they are, when printable) is not modelled beyond
      the ASCII instance.
    - IEEE floating point ([nan], [inf], rounding), see above; the
      builtins [str.lower], [int], [float], [str] are an interface
      ([Builtins.PyText]) whose laws are assumed of the instance. *)

From Stdlib Require Export List String ZArith QArith Lia Lqa Bool.
From Stdlib Require Export Setoid Morphisms.
Export ListNotations.

Create HintDb ledger.
Create Rewrite HintDb ledger_rw.

(** ** Python exceptions and the execution monad *)

(** The payload of a [ValueError]: a failed [int(s)] / [float(s)]
    conversion, or one raised by the code with a message. *)
Inductive value_error : Type :=
  | VE_int_literal (s : string)
  | VE_float_literal (s : string)
  | VE_message (m : string).

(** The exceptions that can reach the code: [TypeError] and
    [AttributeError] (with the name of the Python type at fault) arise
    only from a stored document of the wrong shape; [OutOfFuel] is the
    model's own, raised only when a loop's fuel is exhausted (never, by
    the termination theorems). *)
Inductive exc : Type :=
  | EOFError
  | ValueError (e : value_error)
  | KeyError (k : string)
  | TypeError (type_name : string)
  | AttributeError (type_name : string)
  | JSONDecodeError
  | OutOfFuel.

Inductive res (A : Type) : Type :=
  | Ok (a : A)
  | Raise (e : exc).
Arguments Ok {A} a.
Arguments Raise {A} e.

(** Sequencing of expressions that can raise but change no state, such
    as the conversions of a stored document. *)
Definition res_bind {A B} (m : res A) (k : A -> res B) : res B :=
  match m with
  | Ok a => k a
  | Raise e => Raise e
  end.

Definition res_map {A B} (f : A -> B) (m : res A) : res B := res_bind m (fun a => Ok (f a)).

Lemma res_bind_raise {A B} (m : res A) (k : A -> res B) e :
  res_bind m k = Raise e -> m = Raise e \/ exists a, m = Ok a /\ k a = Raise e.
Proof. destruct m as [a|e']; cbn; [eauto | intros [= ->]; auto]. Qed.

(** A statement run from state [s] returns a result and the state
    reached, also when it raises. *)
Definition PyM (S A : Type) : Type := S -> res A * S.

Section Monad.
Context {S : Type}.

Definition ret {A} (a : A) : PyM S A := fun s => (Ok a, s).

Definition bind {A B} (m : PyM S A) (k : A -> PyM S B) : PyM S B :=
  fun s =>
    match m s with
    | (Ok a, s') => k a s'
    | (Raise e, s') => (Raise e, s')
    end.

Definition throw {A} (e : exc) : PyM S A := fun s => (Raise e, s).

(** [try: m except ValueError as e: h e]; other exceptions propagate. *)
Definition try_value {A} (m : PyM S A) (h : value_error -> PyM S A) : PyM S A :=
  fun s =>
    match m s with
    | (Raise (ValueError v), s') => h v s'
    | r => r
    end.

Definition gets {A} (f : S -> A) : PyM S A := fun s => (Ok (f s), s).
Definition modify (f : S -> S) : PyM S unit := fun s => (Ok tt, f s).
End Monad.

Declare Scope py_scope.
Delimit Scope py_scope with py.
Notation "'let*' x := m 'in' k" := (bind m (fun x => k))
  (at level 61, x name, m at next level, right associativity) : py_scope.
Notation "m ;; k" := (bind m (fun _ => k))
  (at level 100, right associativity) : py_scope.
Notation "'let?' x := m 'in' k" := (res_bind m (fun x => k))
  (at level 61, x name, m at next level, right associativity) : py_scope.

(** ** Monad laws and the running of a statement *)

Section MonadLaws.
Context {S : Type}.

Lemma bind_ret_l {A B} (a : A) (k : A -> PyM S B) s :
  bind (ret a) k s = k a s.
Proof. reflexivity. Qed.

Lemma bind_assoc {A B C} (m : PyM S A) (k : A -> PyM S B) (k' : B -> PyM S C) s :
  bind (bind m k) k' s = bind m (fun a => bind (k a) k') s.
Proof. unfold bind. destruct (m s) as [[a|e] s']; reflexivity. Qed.

Lemma bind_ok {A B} (m : PyM S A) (k : A -> PyM S B) s a s' :
  m s = (Ok a, s') -> bind m k s = k a s'.
Proof. unfold bind. intros ->. reflexivity. Qed.

Lemma bind_raise {A B} (m : PyM S A) (k : A -> PyM S B) s e s' :
  m s = (Raise e, s') -> bind m k s = (Raise e, s').
Proof. unfold bind. intros ->. reflexivity. Qed.

(** The state reached by [bind m k] is reached from a state reached by
    [m]: the basis of every "each step preserves P" argument. *)
Lemma bind_inv {A B} (m : PyM S A) (k : A -> PyM S B) s r s'' :
  bind m k s = (r, s'') ->
  (exists e, m s = (Raise e, s'') /\ r = Raise e) \/
  (exists a s', m s = (Ok a, s') /\ k a s' = (r, s'')).
Proof.
  unfold bind. destruct (m s) as [[a|e] s']; intros H.
  - right. eauto.
  - left. inversion H; subst. eauto.
Qed.
End MonadLaws.

(** ** Statements that respect a preorder on states

    [preserves R m]: every run of [m], also one that raises, ends in a
    state related by [R] to the start state.  With [R] a preorder the
    property composes through [bind] and [try_value]; it is used with
    [R] = "the ledger moved by allowed steps", "no input line was
    produced", "the file was not touched". *)

Section Preserves.
Context {S : Type} (R : S -> S -> Prop) `{PreOrder S R}.

Definition preserves {A} (m : PyM S A) : Prop :=
  forall s r s', m s = (r, s') -> R s s'.

Lemma preserves_ret {A} (a : A) : preserves (ret a).
Proof. intros s r s' [= _ <-]. reflexivity. Qed.

Lemma preserves_throw {A} e : preserves (A := A) (throw e).
Proof. intros s r s' [= _ <-]. reflexivity. Qed.

Lemma preserves_gets {A} (f : S -> A) : preserves (gets f).
Proof. intros s r s' [= _ <-]. reflexivity. Qed.

Lemma preserves_modify f : (forall s, R s (f s)) -> preserves (modify f).
Proof. intros Hf s r s' [= _ <-]. apply Hf. Qed.

Lemma preserves_bind {A B} (m : PyM S A) (k : A -> PyM S B) :
  preserves m -> (forall a, preserves (k a)) -> preserves (bind m k).
Proof.
  intros Hm Hk s r s'' Hrun. apply bind_inv in Hrun as [(e & Hm' & _)|(a & s' & Hm' & Hk')].
  - exact (Hm _ _ _ Hm').
  - transitivity s'; [exact (Hm _ _ _ Hm') | exact (Hk _ _ _ _ Hk')].
Qed.

Lemma preserves_try_value {A} (m : PyM S A) (h : value_error -> PyM S A) :
  preserves m -> (forall v, preserves (h v)) -> preserves (try_value m h).
Proof.
  intros Hm Hh s r s'' Hrun. unfold try_value in Hrun.
  destruct (m s) as [[a|[| v | | | | |]] s'] eqn:E; try (inversion Hrun; subst; exact (Hm _ _ _ E)).
  transitivity s'; [exact (Hm _ _ _ E) | exact (Hh _ _ _ _ Hrun)].
Qed.

Lemma preserves_if {A} (b : bool) (m1 m2 : PyM S A) :
  preserves m1 -> preserves m2 -> preserves (if b then m1 else m2).
Proof. destruct b; auto. Qed.
End Preserves.

#[export] Hint Resolve preserves_ret preserves_throw preserves_gets
  preserves_bind preserves_try_value preserves_if : ledger.

(** ** Statements that raise only some exceptions

    [raises_only P m]: every exception that a run of [m] lets escape
    satisfies [P].  [try_value] stops the [ValueError]s of its body. *)

Definition is_value_error (e : exc) : Prop := exists v, e = ValueError v.

Section Raises.
Context {S : Type} (P : exc -> Prop).

Definition raises_only {A} (m : PyM S A) : Prop :=
  forall s e s', m s = (Raise e, s') -> P e.

Lemma raises_ret {A} (a : A) : raises_only (ret a).
Proof. intros s e s' [=]. Qed.

Lemma raises_throw {A} e : P e -> raises_only (A := A) (throw e).
Proof. intros He s e' s' [= <- _]. exact He. Qed.

Lemma raises_gets {A} (f : S -> A) : raises_only (gets f).
Proof. intros s e s' [=]. Qed.

Lemma raises_modify f : raises_only (modify f).
Proof. intros s e s' [=]. Qed.

Lemma raises_bind {A B} (m : PyM S A) (k : A -> PyM S B) :
  raises_only m -> (forall a, raises_only (k a)) -> raises_only (bind m k).
Proof.
  intros Hm Hk s e s'' Hrun. apply bind_inv in Hrun as [(e' & Hm' & [= ->])|(a & s' & _ & Hk')].
  - exact (Hm _ _ _ Hm').
  - exact (Hk _ _ _ _ Hk').
Qed.

Lemma raises_try_value_gen {A} (m : PyM S A) (h : value_error -> PyM S A) :
  (forall s e s', m s = (Raise e, s') -> P e \/ is_value_error e) ->
  (forall v, raises_only (h v)) -> raises_only (try_value m h).
Proof.
  intros Hm Hh s e s'' Hrun. unfold try_value in Hrun.
  destruct (m s) as [[a|e'] s'] eqn:E; [discriminate|].
  destruct e' as [| v | | | | |]; try (inversion Hrun; subst;
    destruct (Hm _ _ _ E) as [He|(v & [=])]; exact He).
  exact (Hh _ _ _ _ Hrun).
Qed.

Lemma raises_if {A} (b : bool) (m1 m2 : PyM S A) :
  raises_only m1 -> raises_only m2 -> raises_only (if b then m1 else m2).
Proof. destruct b; auto. Qed.
End Raises.

Lemma raises_try_value {S A} (P : exc -> Prop) (m : PyM S A) (h : value_error -> PyM S A) :
  raises_only (fun e => P e \/ is_value_error e) m -> (forall v, raises_only P (h v)) ->
  raises_only P (try_value m h).
Proof. apply raises_try_value_gen. Qed.

(** ** Exceptions together with the state they leave

    [raises_in Q m]: whenever [m] raises [e], [Q e s'] holds of the
    state [s'] it leaves.  [raises_only] is the case where [Q] ignores
    the state; this variant states where an exception can happen, for
    instance that [EOFError] leaves no input unread. *)
Section RaisesIn.
Context {S : Type} (Q : exc -> S -> Prop).

Definition raises_in {A} (m : PyM S A) : Prop :=
  forall s e s', m s = (Raise e, s') -> Q e s'.

Lemma raises_in_ret {A} (a : A) : raises_in (ret a).
Proof. intros s e s' [=]. Qed.

Lemma raises_in_throw {A} e : (forall s, Q e s) -> raises_in (A := A) (throw e).
Proof. intros He s e' s' [= <- <-]. apply He. Qed.

Lemma raises_in_gets {A} (f : S -> A) : raises_in (gets f).
Proof. intros s e s' [=]. Qed.

Lemma raises_in_modify f : raises_in (modify f).
Proof. intros s e s' [=]. Qed.

Lemma raises_in_bind {A B} (m : PyM S A) (k : A -> PyM S B) :
  raises_in m -> (forall a, raises_in (k a)) -> raises_in (bind m k).
Proof.
  intros Hm Hk s e s'' Hrun. apply bind_inv in Hrun as [(e' & Hm' & [= ->])|(a & s' & _ & Hk')].
  - exact (Hm _ _ _ Hm').
  - exact (Hk _ _ _ _ Hk').
Qed.

Lemma raises_in_if {A} (b : bool) (m1 m2 : PyM S A) :
  raises_in m1 -> raises_in m2 -> raises_in (if b then m1 else m2).
Proof. destruct b; auto. Qed.

Lemma raises_in_ext {A} (m m' : PyM S A) : (forall s, m s = m' s) -> raises_in m -> raises_in m'.
Proof. intros Hext Hm s e s' Hrun. rewrite <- Hext in Hrun. exact (Hm _ _ _ Hrun). Qed.
End RaisesIn.

Lemma raises_in_try_value {S A} (Q : exc -> S -> Prop) (m : PyM S A) (h : value_error -> PyM S A) :
  raises_in (fun e s => Q e s \/ is_value_error e) m -> (forall v, raises_in Q (h v)) ->
  raises_in Q (try_value m h).
Proof.
  intros Hm Hh s e s'' Hrun. unfold try_value in Hrun.
  destruct (m s) as [[a|e'] s'] eqn:E; [discriminate|].
  destruct e' as [| v | | | | |]; try (inversion Hrun; subst;
    destruct (Hm _ _ _ E) as [He|(v & [=])]; exact He).
  exact (Hh _ _ _ _ Hrun).
Qed.

Lemma raises_in_weaken {S A} (Q Q' : exc -> S -> Prop) (m : PyM S A) :
  raises_in Q m -> (forall e s, Q e s -> Q' e s) -> raises_in Q' m.
Proof. intros Hm HQ s e s' Hrun. exact (HQ _ _ (Hm _ _ _ Hrun)). Qed.

Lemma raises_only_weaken {S A} (P P' : exc -> Prop) (m : PyM S A) :
  (forall e, P e -> P' e) -> raises_only P m -> raises_only P' m.
Proof. intros HP Hm s e s' Hrun. exact (HP _ (Hm _ _ _ Hrun)). Qed.

(** ** Python dicts as ordered association lists *)

Module Dict.
Definition t (V : Type) : Type := list (string * V).

Section Ops.
Context {V : Type}.

(** [d.get(k)]: the value of the first binding of [k]. *)
Fixpoint lookup (k : string) (d : t V) : option V :=
  match d with
  | [] => None
  | (k', v) :: d' => if String.eqb k k' then Some v else lookup k d'
  end.

(** [k in d] *)
Definition mem (k : string) (d : t V) : bool :=
  match lookup k d with Some _ => true | None => false end.

(** [d[k] = f(d[k])] on a present key: the value changes in place,
    the key keeps its position. *)
Fixpoint update (k : string) (f : V -> V) (d : t V) : t V :=
  match d with
  | [] => []
  | (k', v) :: d' =>
      if String.eqb k k' then (k', f v) :: d' else (k', v) :: update k f d'
  end.

(** [d[k] = v]: in place when [k] is present, appended otherwise. *)
Definition setitem (k : string) (v : V) (d : t V) : t V :=
  if mem k d then update k (fun _ => v) d else d ++ [(k, v)].

Definition keys (d : t V) : list string := map fst d.
End Ops.
End Dict.

Section DictLemmas.
Context {V : Type}.
Implicit Types (d : Dict.t V) (k : string) (v : V).

Lemma lookup_In k d v : Dict.lookup k d = Some v -> In (k, v) d.
Proof.
  induction d as [|[k' v'] d IH]; cbn; [discriminate|].
  destruct (String.eqb_spec k k'); [intros [= <-]; subst; auto | auto].
Qed.

Lemma mem_keys k d : Dict.mem k d = true <-> In k (Dict.keys d).
Proof.
  unfold Dict.mem. induction d as [|[k' v'] d IH]; cbn; [split; easy|].
  destruct (String.eqb_spec k k'); [subst; tauto|].
  rewrite IH. intuition congruence.
Qed.

Lemma lookup_None k d : Dict.lookup k d = None <-> ~ In k (Dict.keys d).
Proof.
  rewrite <- mem_keys. unfold Dict.mem.
  destruct (Dict.lookup k d); intuition congruence.
Qed.

Lemma keys_update k f d : Dict.keys (Dict.update k f d) = Dict.keys d.
Proof.
  induction d as [|[k' v'] d IH]; cbn; [reflexivity|].
  destruct (String.eqb k k'); cbn; [reflexivity | f_equal; exact IH].
Qed.

Lemma lookup_update_eq k f d :
  Dict.lookup k (Dict.update k f d) = option_map f (Dict.lookup k d).
Proof.
  induction d as [|[k' v'] d IH]; cbn; [reflexivity|].
  destruct (String.eqb_spec k k'); cbn.
  - subst. now rewrite String.eqb_refl.
  - apply String.eqb_neq in n. now rewrite n.
Qed.

Lemma lookup_update_ne k k' f d :
  k <> k' -> Dict.lookup k' (Dict.update k f d) = Dict.lookup k' d.
Proof.
  intros Hne. induction d as [|[k'' v'] d IH]; cbn; [reflexivity|].
  destruct (String.eqb_spec k k''); cbn; [|now rewrite IH].
  subst. apply String.eqb_neq in Hne. rewrite String.eqb_sym, Hne. reflexivity.
Qed.

Lemma lookup_app_r k d d' :
  Dict.lookup k d = None -> Dict.lookup k (d ++ d') = Dict.lookup k d'.
Proof.
  induction d as [|[k' v'] d IH]; cbn; [reflexivity|].
  destruct (String.eqb k k'); [discriminate | exact IH].
Qed.

Lemma lookup_app_l k d d' v :
  Dict.lookup k d = Some v -> Dict.lookup k (d ++ d') = Some v.
Proof.
  induction d as [|[k' v'] d IH]; cbn; [discriminate|].
  destruct (String.eqb k k'); [exact id | exact IH].
Qed.

Lemma lookup_setitem k k' v d :
  Dict.lookup k' (Dict.setitem k v d) =
  if String.eqb k k' then Some v else Dict.lookup k' d.
Proof.
  unfold Dict.setitem, Dict.mem.
  destruct (String.eqb_spec k k') as [<-|Hne].
  - destruct (Dict.lookup k d) eqn:E.
    + now rewrite lookup_update_eq, E.
    + rewrite lookup_app_r by exact E. cbn. now rewrite String.eqb_refl.
  - destruct (Dict.lookup k d) eqn:E.
    + now apply lookup_update_ne.
    + destruct (Dict.lookup k' d) eqn:E'.
      * now apply lookup_app_l.
      * rewrite lookup_app_r by exact E'. cbn.
        apply not_eq_sym, String.eqb_neq in Hne. now rewrite Hne.
Qed.

Lemma keys_setitem k v d :
  Dict.keys (Dict.setitem k v d) =
  if Dict.mem k d then Dict.keys d else Dict.keys d ++ [k].
Proof.
  unfold Dict.setitem. destruct (Dict.mem k d).
  - apply keys_update.
  - unfold Dict.keys. now rewrite map_app.
Qed.

(** Keys stay unique: a Python dict never holds a key twice. *)
Lemma setitem_NoDup k v d :
  NoDup (Dict.keys d) -> NoDup (Dict.keys (Dict.setitem k v d)).
Proof.
  rewrite keys_setitem. destruct (Dict.mem k d) eqn:E; [exact id|].
  intros Hnd. apply NoDup_app; auto using NoDup_cons, NoDup_nil.
  - intros x Hx [Hk|[]]. subst x. apply (proj2 (mem_keys k d)) in Hx. congruence.
Qed.

Lemma update_NoDup k f d :
  NoDup (Dict.keys d) -> NoDup (Dict.keys (Dict.update k f d)).
Proof. now rewrite keys_update. Qed.

(** Every binding of an updated dict comes from one of the old dict,
    possibly with its value transformed. *)
Lemma In_update k f d k' v' :
  In (k', v') (Dict.update k f d) ->
  exists v, In (k', v) d /\ (v' = v \/ (k' = k /\ v' = f v)).
Proof.
  induction d as [|[k'' v''] d IH]; cbn; [easy|].
  destruct (String.eqb_spec k k''); cbn.
  - intros [[= <- <-]|H]; subst; eauto 6.
  - intros [[= <- <-]|H]; [eauto|]. destruct (IH H) as (v & ? & ?). eauto.
Qed.
End DictLemmas.

(** Updating the entry just appended for a new key. *)
Lemma update_app_new {V} k (f : V -> V) d v :
  ~ In k (Dict.keys d) -> Dict.update k f (d ++ [(k, v)]) = d ++ [(k, f v)].
Proof.
  induction d as [|[k' v'] d IH]; intros Hk; cbn; [now rewrite String.eqb_refl|].
  cbn in Hk. destruct (String.eqb_spec k k') as [->|_]; [tauto|]. rewrite IH; [reflexivity | tauto].
Qed.

(** Updating a value in place does not change which keys are present. *)
Lemma mem_update {V} k k' (f : V -> V) d : Dict.mem k (Dict.update k' f d) = Dict.mem k d.
Proof.
  apply Bool.eq_iff_eq_true. rewrite !mem_keys, keys_update. reflexivity.
Qed.

Section Assignments.
Context {V : Type}.
Implicit Types (d : Dict.t V) (k : string) (v : V).

Lemma update_update k f g d : Dict.update k f (Dict.update k g d) = Dict.update k (fun x => f (g x)) d.
Proof.
  induction d as [|[k' v'] d IH]; cbn; [reflexivity|].
  destruct (String.eqb k k') eqn:E; cbn; rewrite E; [reflexivity | now rewrite IH].
Qed.

Lemma update_comm k k' f g d :
  k <> k' -> Dict.update k f (Dict.update k' g d) = Dict.update k' g (Dict.update k f d).
Proof.
  intros Hne. induction d as [|[k'' v'] d IH]; cbn; [reflexivity|].
  destruct (String.eqb k' k'') eqn:E1, (String.eqb k k'') eqn:E2; cbn; rewrite ?E1, ?E2.
  - apply String.eqb_eq in E1, E2. congruence.
  - reflexivity.
  - reflexivity.
  - now rewrite IH.
Qed.

Lemma update_lookup k v d : Dict.lookup k d = Some v -> Dict.update k (fun _ => v) d = d.
Proof.
  induction d as [|[k' v'] d IH]; cbn; [reflexivity|].
  destruct (String.eqb_spec k k') as [<-|]; [now intros [= ->] | intros H; now rewrite IH].
Qed.

(** Of two assignments to the same key the last one wins. *)
Lemma setitem_setitem k a b d : Dict.setitem k a (Dict.setitem k b d) = Dict.setitem k a d.
Proof.
  unfold Dict.setitem at 2 3. destruct (Dict.mem k d) eqn:E; unfold Dict.setitem.
  - rewrite mem_update, E. apply update_update.
  - assert (Hk : ~ In k (Dict.keys d)) by (rewrite <- mem_keys; congruence).
    assert (Hm : Dict.mem k (d ++ [(k, b)]) = true)
      by (apply mem_keys; unfold Dict.keys; rewrite map_app; apply in_or_app; right; now left).
    rewrite Hm. now apply update_app_new.
Qed.

(** Assignments to two keys that are present commute. *)
Lemma setitem_comm k k' a b d :
  k <> k' -> Dict.mem k d = true -> Dict.mem k' d = true ->
  Dict.setitem k a (Dict.setitem k' b d) = Dict.setitem k' b (Dict.setitem k a d).
Proof.
  intros Hne Hk Hk'. unfold Dict.setitem. rewrite Hk, Hk', !mem_update, Hk, Hk'. now apply update_comm.
Qed.

(** Assigning to a key the value it has changes nothing. *)
Lemma setitem_lookup k v d : Dict.lookup k d = Some v -> Dict.setitem k v d = d.
Proof.
  intros Hv. unfold Dict.setitem, Dict.mem. rewrite Hv. now apply update_lookup.
Qed.
End Assignments.

#[export] Hint Resolve lookup_In setitem_NoDup update_NoDup : ledger.
#[export] Hint Rewrite @keys_update @mem_update @lookup_update_eq @lookup_setitem @keys_setitem : ledger_rw.

(** ** Shared tactics *)

(** [Qle_bool x y = false] means [y < x]. *)
Lemma Qle_bool_false x y : Qle_bool x y = false -> (y < x)%Q.
Proof. intros E. apply Qnot_le_lt. rewrite <- Qle_bool_iff. congruence. Qed.


(** Split the result of a statement run in the goal or a hypothesis. *)
Ltac destruct_run :=
  match goal with
  | |- context [match ?m ?s with (_, _) => _ end] =>
      let r := fresh "r" in let s' := fresh "s" in let E := fresh "E" in
      destruct (m s) as [r s'] eqn:E; try destruct r
  end.

(** Reflect the boolean tests of the code into propositions. *)
Ltac py_bool :=
  repeat match goal with
  | H : (_ <=? _)%Z = true |- _ => apply Z.leb_le in H
  | H : (_ <=? _)%Z = false |- _ => apply Z.leb_gt in H
  | H : (_ <? _)%Z = true |- _ => apply Z.ltb_lt in H
  | H : (_ <? _)%Z = false |- _ => apply Z.ltb_ge in H
  | H : Qle_bool _ _ = true |- _ => apply Qle_bool_iff in H
  | H : Qle_bool _ _ = false |- _ => apply Qle_bool_false in H
  | H : (_ >? _)%Z = true |- _ => rewrite Z.gtb_ltb, Z.ltb_lt in H
  | H : (_ >? _)%Z = false |- _ => rewrite Z.gtb_ltb, Z.ltb_ge in H
  | H : negb _ = true |- _ => apply negb_true_iff in H
  | H : negb _ = false |- _ => apply negb_false_iff in H
  | H : String.eqb _ _ = true |- _ => apply String.eqb_eq in H
  | H : String.eqb _ _ = false |- _ => apply String.eqb_neq in H
  | H : (_ || _)%bool = false |- _ => apply orb_false_iff in H as [? ?]
  | H : (_ || _)%bool = true |- _ => apply orb_true_iff in H
  end.

(** Two results of the same call are equal. *)
Ltac unify_some :=
  repeat match goal with
  | H1 : ?x = Some _, H2 : ?x = Some _ |- _ => rewrite H1 in H2; injection H2 as <-
  | H1 : ?x = Some _, H2 : ?x = None |- _ => rewrite H1 in H2; discriminate H2
  | H : Dict.mem ?k ?d = true, H' : Dict.lookup ?k ?d = None |- _ =>
      unfold Dict.mem in H; rewrite H' in H; discriminate H
  | H : Some _ = Some _ |- _ => injection H as H; subst
  | H : Some _ = None |- _ => discriminate H
  | H : None = Some _ |- _ => discriminate H
  end.

(** Symbolic execution of a statement run [H : m s = (r, s')]: reduce,
    and split on the first test that blocks the reduction. *)
Ltac case_match_in H :=
  match type of H with
  | context [match ?x with _ => _ end] =>
      lazymatch x with
      | context [match _ with _ => _ end] => fail
      | _ => destruct x eqn:?
      end
  end.

Ltac py_exec H :=
  unfold bind, ret, throw, try_value, gets, modify in H;
  repeat (first [progress cbn in H | case_match_in H]).
