(* ===== verification/Loops.v ===== *)
(** * [while True] loops: the fuelled loop and its reference semantics

    The two loops of src/main.py ([while True] in [register_sale] and in
    [main]) leave by [break] and go round by [continue] or by reaching the
    end of the body.  A loop body is here a computation [body a] of the
    monad that returns a [flow] and the new values [a] of the variables
    the loop carries.

    [while_sem] is the reference semantics of [while True: body], a
    big-step relation in the style of the [cexec_while_*] rules of the
    IMP semantics: a raise or a [break] ends the loop, a [continue] runs
    the loop again.  It has no fuel and holds only of terminating runs.
    [while_fuel] is the executable loop with fuel that the handlers use.
    Under a measure that every [continue] decreases (in the program: the
    number of input lines left), [while_fuel] with more fuel than the
    measure computes exactly [while_sem] ([while_fuel_equiv]), the
    reference semantics is deterministic and total, and any such fuel
    gives the same run. *)

From S2P Require Import Prelude.
Local Open Scope py_scope.

(** [break] and [continue] (or the end of the body). *)
Inductive flow : Type := Break | Continue.

Section While.
Context {St A : Type} (body : A -> PyM St (flow * A)).

Fixpoint while_fuel (fuel : nat) (a : A) : PyM St A :=
  match fuel with
  | O => throw OutOfFuel
  | S n =>
      let* r := body a in
      match r with
      | (Break, a') => ret a'
      | (Continue, a') => while_fuel n a'
      end
  end.

(** Big-step semantics of [while True: body]. *)
Inductive while_sem : A -> St -> res A -> St -> Prop :=
  | while_raise a s e s' :
      body a s = (Raise e, s') -> while_sem a s (Raise e) s'
  | while_break a s a' s' :
      body a s = (Ok (Break, a'), s') -> while_sem a s (Ok a') s'
  | while_continue a s a' s1 r s' :
      body a s = (Ok (Continue, a'), s1) -> while_sem a' s1 r s' -> while_sem a s r s'.

Lemma while_fuel_S n a s :
  while_fuel (S n) a s =
  match body a s with
  | (Raise e, s1) => (Raise e, s1)
  | (Ok (Break, a'), s1) => (Ok a', s1)
  | (Ok (Continue, a'), s1) => while_fuel n a' s1
  end.
Proof. cbn [while_fuel]. unfold bind. destruct (body a s) as [[[[|] a']|e] s1]; reflexivity. Qed.

Lemma while_sem_det a s r1 s1 r2 s2 :
  while_sem a s r1 s1 -> while_sem a s r2 s2 -> r1 = r2 /\ s1 = s2.
Proof.
  intros H1. revert r2 s2. induction H1 as [a s e s' E|a s a' s' E|a s a' s1' r s' E _ IH];
    intros r2 s2 H2; inversion H2 as [? ? ? ? E'|? ? ? ? E'|? ? ? ? ? ? E' H']; subst;
    rewrite E in E'; try discriminate; injection E'; intros; subst; auto.
Qed.

Section Measure.
Variable measure : St -> nat.
Hypothesis progress :
  forall a s a' s', body a s = (Ok (Continue, a'), s') -> (measure s' < measure s)%nat.

Lemma while_fuel_sound n a s r s' :
  (measure s < n)%nat -> while_fuel n a s = (r, s') -> while_sem a s r s'.
Proof.
  revert a s. induction n as [|n IH]; intros a s Hn Hrun; [lia|].
  rewrite while_fuel_S in Hrun. destruct (body a s) as [[[[|] a']|e] s1] eqn:E.
  - injection Hrun as <- <-. exact (while_break _ _ _ _ E).
  - pose proof (progress _ _ _ _ E). eapply while_continue; [exact E | apply IH; [lia | exact Hrun]].
  - injection Hrun as <- <-. exact (while_raise _ _ _ _ E).
Qed.

Lemma while_sem_fuel a s r s' :
  while_sem a s r s' -> forall n, (measure s < n)%nat -> while_fuel n a s = (r, s').
Proof.
  induction 1 as [a s e s' E|a s a' s' E|a s a' s1 r s' E _ IH]; intros [|n] Hn; try lia;
    rewrite while_fuel_S, E; [reflexivity | reflexivity |].
  pose proof (progress _ _ _ _ E). apply IH. lia.
Qed.

Theorem while_fuel_equiv n a s r s' :
  (measure s < n)%nat -> while_fuel n a s = (r, s') <-> while_sem a s r s'.
Proof.
  intros Hn. split; [apply while_fuel_sound, Hn|]. intros Hs. exact (while_sem_fuel _ _ _ _ Hs _ Hn).
Qed.

(** Every run of the loop terminates. *)
Lemma while_sem_total a s : exists r s', while_sem a s r s'.
Proof.
  destruct (while_fuel (S (measure s)) a s) as [r s'] eqn:E.
  exists r, s'. exact (while_fuel_sound (S (measure s)) a s r s' ltac:(lia) E).
Qed.

Lemma while_fuel_irrelevant n m a s :
  (measure s < n)%nat -> (measure s < m)%nat -> while_fuel n a s = while_fuel m a s.
Proof.
  intros Hn Hm. destruct (while_fuel n a s) as [r s'] eqn:E.
  symmetry. apply (while_sem_fuel a s r s'); [exact (while_fuel_sound _ _ _ _ _ Hn E) | exact Hm].
Qed.
End Measure.
End While.

(** Invariants of a loop by rule induction on its reference semantics:
    a property of the carried values and the state that every
    [continue] keeps, and that every exit establishes. *)
Lemma while_sem_ind_inv {St A} (body : A -> PyM St (flow * A)) (I : A -> St -> Prop)
      (Q : res A -> St -> Prop) :
  (forall a s a' s', I a s -> body a s = (Ok (Continue, a'), s') -> I a' s') ->
  (forall a s e s', I a s -> body a s = (Raise e, s') -> Q (Raise e) s') ->
  (forall a s a' s', I a s -> body a s = (Ok (Break, a'), s') -> Q (Ok a') s') ->
  forall a s r s', while_sem body a s r s' -> I a s -> Q r s'.
Proof.
  intros Hc Hr Hb a s r s' Hs. induction Hs as [a s e s' E|a s a' s' E|a s a' s1 r s' E _ IH]; intros HI; eauto.
Qed.
