(* ===== verification/Builtins.v ===== *)
(** * The Python builtins that src/main.py calls on text

    [str.lower], [int(s)], [float(s)] and [str(x)] are library code, not
    code of the repository: they are an interface [PyText] here, and the
    theorems of the other files hold for every instance.  [PyTextLaws]
    states the two facts about them that the code relies on: lower-casing
    is idempotent, and [float(str(x)) == x] (Python prints floats with
    the shortest text that reads back to the same value).  [ascii_text]
    is a concrete instance on ASCII text, used by the examples: integers
    in decimal with an optional minus sign, money values as an integer or
    a fraction [n/d]. *)

From S2P Require Import Prelude.
From Stdlib Require Import Ascii DecimalString DecimalZ.
Local Open Scope string_scope.
Local Open Scope list_scope.

Class PyText : Type := {
  py_lower : string -> string;
  py_int : string -> option Z;
  py_float : string -> option Q;
  py_str : Q -> string
}.

Class PyTextLaws `{PyText} : Prop := {
  lower_idem : forall s, py_lower (py_lower s) = py_lower s;
  float_str : forall q, py_float (py_str q) = Some q
}.

(** The conversions as statements: a failed conversion raises
    [ValueError], as [int()] and [float()] do. *)
Section Conversions.
Context `{PyText} {S : Type}.

Definition int_of (s : string) : PyM S Z :=
  match py_int s with
  | Some z => ret z
  | None => throw (ValueError (VE_int_literal s))
  end.

Definition float_of (s : string) : PyM S Q :=
  match py_float s with
  | Some q => ret q
  | None => throw (ValueError (VE_float_literal s))
  end.
End Conversions.

(** ** A concrete instance on ASCII text *)

Module AsciiText.

Definition lower_char (c : ascii) : ascii :=
  let n := nat_of_ascii c in
  if (65 <=? n)%nat && (n <=? 90)%nat then ascii_of_nat (n + 32) else c.

Fixpoint lower (s : string) : string :=
  match s with
  | EmptyString => EmptyString
  | String c s' => String (lower_char c) (lower s')
  end.

Definition string_of_Z (z : Z) : string := NilZero.string_of_int (Z.to_int z).

Definition Z_of_string (s : string) : option Z :=
  option_map Z.of_int (NilZero.int_of_string s).

(** Split at the first occurrence of [sep]. *)
Fixpoint split_at (sep : ascii) (s : string) : option (string * string) :=
  match s with
  | EmptyString => None
  | String c s' =>
      if Ascii.eqb c sep then Some (EmptyString, s')
      else option_map (fun '(a, b) => (String c a, b)) (split_at sep s')
  end.

Definition is_digit (c : ascii) : bool :=
  let n := nat_of_ascii c in (48 <=? n)%nat && (n <=? 57)%nat.

Definition float_of_string (s : string) : option Q :=
  match split_at "/" s with
  | Some (a, b) =>
      match Z_of_string a, Z_of_string b with
      | Some n, Some (Zpos d) => Some (Qmake n d)
      | _, _ => None
      end
  | None => option_map inject_Z (Z_of_string s)
  end.

Definition string_of_Q (q : Q) : string :=
  string_of_Z (Qnum q) ++ String "/" (string_of_Z (Zpos (Qden q))).

Lemma lower_char_idem c : lower_char (lower_char c) = lower_char c.
Proof. destruct c as [[] [] [] [] [] [] [] []]; reflexivity. Qed.

Lemma lower_idem' s : lower (lower s) = lower s.
Proof. induction s as [|c s IH]; cbn; [reflexivity|]. now rewrite lower_char_idem, IH. Qed.

Lemma to_int_not_nil z : Z.to_int z <> Decimal.Pos Decimal.Nil /\ Z.to_int z <> Decimal.Neg Decimal.Nil.
Proof.
  split; intros E; pose proof (DecimalZ.of_to z) as H; rewrite E in H;
    cbn in H; subst z; discriminate E.
Qed.

Lemma Z_of_to_string z : Z_of_string (string_of_Z z) = Some z.
Proof.
  unfold Z_of_string, string_of_Z. destruct (to_int_not_nil z).
  rewrite NilZero.isi by assumption. cbn. now rewrite DecimalZ.of_to.
Qed.

Lemma split_at_app sep a b :
  ~ In sep (list_ascii_of_string a) -> split_at sep (a ++ String sep b) = Some (a, b).
Proof.
  induction a as [|c a IH]; intros Hns; cbn; [now rewrite Ascii.eqb_refl|].
  destruct (Ascii.eqb_spec c sep) as [->|_]; [cbn in Hns; tauto|].
  rewrite IH; [reflexivity|]. cbn in Hns. tauto.
Qed.

Lemma uint_chars d c : In c (list_ascii_of_string (NilEmpty.string_of_uint d)) -> is_digit c = true.
Proof. induction d; cbn; intros Hc; try destruct Hc as [<-|Hc]; auto; contradiction. Qed.

Lemma nz_uint_chars d c : In c (list_ascii_of_string (NilZero.string_of_uint d)) -> is_digit c = true.
Proof. destruct d; try apply uint_chars. cbn. intros [<-|[]]. reflexivity. Qed.

(** [str(n)] is made of digits and a leading minus sign. *)
Lemma string_of_Z_chars z c :
  In c (list_ascii_of_string (string_of_Z z)) -> c = "-"%char \/ is_digit c = true.
Proof.
  unfold string_of_Z, NilZero.string_of_int.
  destruct (Z.to_int z); cbn; [|intros [<-|Hc]; [now left|]]; intros; right; eapply nz_uint_chars; eauto.
Qed.

Lemma string_of_Z_no_sep sep z :
  sep <> "-"%char -> is_digit sep = false -> ~ In sep (list_ascii_of_string (string_of_Z z)).
Proof. intros Hm Hd Hin. destruct (string_of_Z_chars z sep Hin); congruence. Qed.

Lemma float_of_string_Q q : float_of_string (string_of_Q q) = Some q.
Proof.
  unfold float_of_string, string_of_Q.
  rewrite split_at_app by (apply string_of_Z_no_sep; [discriminate | reflexivity]).
  rewrite !Z_of_to_string. destruct q; reflexivity.
Qed.
End AsciiText.

#[export] Instance ascii_text : PyText := {|
  py_lower := AsciiText.lower;
  py_int := AsciiText.Z_of_string;
  py_float := AsciiText.float_of_string;
  py_str := AsciiText.string_of_Q
|}.

#[export] Instance ascii_text_laws : PyTextLaws.
Proof. split; [exact AsciiText.lower_idem' | exact AsciiText.float_of_string_Q]. Qed.
