(* ===== verification/Ledger.v ===== *)
(** * The ledger: data model, mutations, invariant, abstract transitions

    [data] is the dict [{'products': ..., 'sales': ...}] of src/main.py,
    with products in insertion order.  The four mutations the handlers
    perform on it are definitions here ([add_stock], [put_product],
    [take_stock], [append_sale]), one per line of the source that mutates
    [data].  [lstep] is the abstract specification of the ledger: the
    changes the spec allows (restock an existing product, create a product
    with positive quantity, cost and price, reserve available stock,
    append a well-formed sale).  [wf] is the ledger invariant; every
    [lstep] preserves it (rule induction), never removes a product, never
    changes a cost or a price, and never edits a recorded sale.  [wfb]
    is the invariant as a boolean function, proved sound ([wfb_wf]), so
    that examples establish [wf] by evaluation. *)

From S2P Require Import Prelude.
Local Open Scope Z_scope.

Record product : Type := mkProduct { quantity : Z; cost : Q; price : Q }.
Record item : Type := mkItem { item_name : string; item_quantity : Z; item_price : Q }.
Record sale : Type := mkSale { items : list item; total : Q }.
Record data : Type := mkData { products : Dict.t product; sales : list sale }.

(** [{'products': {}, 'sales': []}] *)
Definition empty_data : data := mkData [] [].

(** [data['products'][name]['quantity'] += quantity] *)
Definition add_stock (name : string) (n : Z) (d : data) : data :=
  mkData (Dict.update name (fun p => mkProduct (quantity p + n) (cost p) (price p)) (products d))
         (sales d).

(** [data['products'][name] = {'quantity': quantity, 'cost': cost, 'price': price}] *)
Definition put_product (name : string) (p : product) (d : data) : data :=
  mkData (Dict.setitem name p (products d)) (sales d).

(** [data['products'][name]['quantity'] -= quantity] *)
Definition take_stock (name : string) (n : Z) (d : data) : data :=
  mkData (Dict.update name (fun p => mkProduct (quantity p - n) (cost p) (price p)) (products d))
         (sales d).

(** [data['sales'].append({'items': sale, 'total': total})] *)
Definition append_sale (s : sale) (d : data) : data :=
  mkData (products d) (sales d ++ [s]).

(** A ledger used by the examples: two products, one sale of two units. *)
Definition example_ledger : data :=
  mkData [("tofu"%string, mkProduct 3 (2#1) (7#2)); ("seitan"%string, mkProduct 0 (1#2) (3#4))]
         [mkSale [mkItem "tofu" 2 (7#2)] (7#1)].

(** ** The invariant *)

(** The sum of [price * quantity] over items, accumulated from [0] in
    item order. *)
Definition subtotal_sum (l : list item) : Q :=
  fold_left (fun t i => t + item_price i * inject_Z (item_quantity i))%Q l 0%Q.

Definition product_ok (p : product) : Prop :=
  0 <= quantity p /\ (0 < cost p)%Q /\ (0 < price p)%Q.

(** An item sells a positive quantity of a product that exists, at that
    product's sale price. *)
Definition item_ok (d : data) (i : item) : Prop :=
  0 < item_quantity i /\
  exists p, Dict.lookup (item_name i) (products d) = Some p /\ item_price i = price p.

Definition sale_ok (d : data) (s : sale) : Prop :=
  items s <> [] /\ Forall (item_ok d) (items s) /\ (total s == subtotal_sum (items s))%Q.

Record wf (d : data) : Prop := {
  wf_keys : NoDup (Dict.keys (products d));
  wf_products : forall k p, Dict.lookup k (products d) = Some p -> product_ok p;
  wf_sales : Forall (sale_ok d) (sales d)
}.

(** The invariant as a boolean check, evaluated on concrete ledgers. *)
Definition Q_eqb (a b : Q) : bool := Z.eqb (Qnum a) (Qnum b) && Pos.eqb (Qden a) (Qden b).

Fixpoint nodupb (l : list string) : bool :=
  match l with
  | [] => true
  | k :: l' => negb (existsb (String.eqb k) l') && nodupb l'
  end.

Definition product_okb (p : product) : bool :=
  (0 <=? quantity p) && negb (Qle_bool (cost p) 0) && negb (Qle_bool (price p) 0).

Definition item_okb (d : data) (i : item) : bool :=
  (0 <? item_quantity i) &&
  match Dict.lookup (item_name i) (products d) with
  | Some p => Q_eqb (item_price i) (price p)
  | None => false
  end.

Definition sale_okb (d : data) (s : sale) : bool :=
  negb (List.length (items s) =? 0)%nat && forallb (item_okb d) (items s) &&
  Qeq_bool (total s) (subtotal_sum (items s)).

Definition wfb (d : data) : bool :=
  nodupb (Dict.keys (products d)) && forallb (fun kp => product_okb (snd kp)) (products d) &&
  forallb (sale_okb d) (sales d).

(** ** The abstract transitions of the ledger *)

Inductive lstep : data -> data -> Prop :=
  | lstep_restock d k n :
      Dict.mem k (products d) = true -> 0 < n -> lstep d (add_stock k n d)
  | lstep_create d k p :
      Dict.mem k (products d) = false -> 0 < quantity p -> (0 < cost p)%Q -> (0 < price p)%Q ->
      lstep d (put_product k p d)
  | lstep_take d k n p :
      Dict.lookup k (products d) = Some p -> 0 < n <= quantity p -> lstep d (take_stock k n d)
  | lstep_record d s :
      sale_ok d s -> lstep d (append_sale s d).

Inductive lsteps : data -> data -> Prop :=
  | lsteps_refl d : lsteps d d
  | lsteps_step d1 d2 d3 : lstep d1 d2 -> lsteps d2 d3 -> lsteps d1 d3.

#[export] Hint Constructors lstep lsteps : ledger.

Lemma lsteps_one d d' : lstep d d' -> lsteps d d'.
Proof. eauto with ledger. Qed.

Lemma lsteps_trans d1 d2 d3 : lsteps d1 d2 -> lsteps d2 d3 -> lsteps d1 d3.
Proof. induction 1; eauto with ledger. Qed.

#[export] Instance lsteps_preorder : PreOrder lsteps.
Proof. split; [exact lsteps_refl | exact lsteps_trans]. Qed.

#[export] Hint Resolve lsteps_one lsteps_trans : ledger.

(** ** Products are never removed and keep their cost and price *)

Definition keeps (p p' : product) : Prop := cost p' = cost p /\ price p' = price p.

Definition products_kept (d d' : data) : Prop :=
  forall k p, Dict.lookup k (products d) = Some p ->
  exists p', Dict.lookup k (products d') = Some p' /\ keeps p p'.

Lemma update_kept k f (ps : Dict.t product) :
  (forall p, keeps p (f p)) ->
  forall k' p, Dict.lookup k' ps = Some p ->
  exists p', Dict.lookup k' (Dict.update k f ps) = Some p' /\ keeps p p'.
Proof.
  intros Hf k' p Hp. destruct (String.eqb_spec k k') as [<-|Hne].
  - rewrite lookup_update_eq, Hp. exists (f p). split; [reflexivity | apply Hf].
  - rewrite lookup_update_ne by exact Hne. exists p. split; [exact Hp | split; reflexivity].
Qed.

Lemma lstep_kept d d' : lstep d d' -> products_kept d d'.
Proof.
  intros Hs k' p0 Hp0. destruct Hs as [d k n _ _|d k p Hnew _ _ _|d k n p _ _|d s _]; cbn.
  - apply update_kept; [intros; split; reflexivity | exact Hp0].
  - rewrite lookup_setitem. destruct (String.eqb_spec k k') as [<-|_].
    + unfold Dict.mem in Hnew. rewrite Hp0 in Hnew. discriminate.
    + exists p0. split; [exact Hp0 | split; reflexivity].
  - apply update_kept; [intros; split; reflexivity | exact Hp0].
  - exists p0. split; [exact Hp0 | split; reflexivity].
Qed.

Lemma products_kept_trans d1 d2 d3 :
  products_kept d1 d2 -> products_kept d2 d3 -> products_kept d1 d3.
Proof.
  intros H12 H23 k p Hp. destruct (H12 k p Hp) as (p2 & Hp2 & [Hc2 Hr2]).
  destruct (H23 k p2 Hp2) as (p3 & Hp3 & [Hc3 Hr3]).
  exists p3. split; [exact Hp3 | split; congruence].
Qed.

Lemma lsteps_kept d d' : lsteps d d' -> products_kept d d'.
Proof.
  induction 1 as [d|d1 d2 d3 Hs _ IH].
  - intros k p Hp. exists p. split; [exact Hp | split; reflexivity].
  - exact (products_kept_trans _ _ _ (lstep_kept _ _ Hs) IH).
Qed.

(** ** Every transition preserves the invariant *)

Lemma item_ok_kept d d' i : products_kept d d' -> item_ok d i -> item_ok d' i.
Proof.
  intros Hk [Hq (p & Hp & Hpr)]. destruct (Hk _ _ Hp) as (p' & Hp' & [_ Hr]).
  split; [exact Hq|]. exists p'. split; [exact Hp' | congruence].
Qed.

Lemma sale_ok_kept d d' s : products_kept d d' -> sale_ok d s -> sale_ok d' s.
Proof.
  intros Hk (Hne & Hall & Ht). split; [exact Hne|]. split; [|exact Ht].
  eapply Forall_impl; [|exact Hall]. intros i. apply item_ok_kept, Hk.
Qed.

Lemma lstep_products_ok d d' :
  wf d -> lstep d d' ->
  forall k p, Dict.lookup k (products d') = Some p -> product_ok p.
Proof.
  intros Hwf Hs k' p'. pose proof (wf_products d Hwf) as Hok.
  destruct Hs as [d k n _ Hn|d k p _ Hq Hc Hr|d k n p Hp Hn|d s _]; cbn.
  - destruct (String.eqb_spec k k') as [<-|Hne].
    + rewrite lookup_update_eq. destruct (Dict.lookup k (products d)) as [p|] eqn:E; [|discriminate].
      intros [= <-]. destruct (Hok _ _ E) as (? & ? & ?). unfold product_ok; cbn. split; [lia | auto].
    + rewrite lookup_update_ne by exact Hne. apply Hok.
  - rewrite lookup_setitem. destruct (String.eqb k k'); [|apply Hok].
    intros [= <-]. unfold product_ok. split; [lia | auto].
  - destruct (String.eqb_spec k k') as [<-|Hne].
    + rewrite lookup_update_eq, Hp. intros [= <-].
      destruct (Hok _ _ Hp) as (? & ? & ?). unfold product_ok; cbn. split; [lia | auto].
    + rewrite lookup_update_ne by exact Hne. apply Hok.
  - apply Hok.
Qed.

Lemma lstep_wf d d' : wf d -> lstep d d' -> wf d'.
Proof.
  intros Hwf Hs. pose proof (lstep_kept _ _ Hs) as Hk. split.
  - destruct Hs; cbn; eauto using wf_keys with ledger.
  - exact (lstep_products_ok _ _ Hwf Hs).
  - assert (Hold : Forall (sale_ok d') (sales d)).
    { eapply Forall_impl; [|exact (wf_sales _ Hwf)]. intros s. apply sale_ok_kept, Hk. }
    destruct Hs as [| | |d s Hs]; cbn; try exact Hold.
    apply Forall_app. split; [exact Hold|]. constructor; [|constructor].
    exact (sale_ok_kept _ _ _ Hk Hs).
Qed.

Lemma lsteps_wf d d' : lsteps d d' -> wf d -> wf d'.
Proof. induction 1; eauto using lstep_wf. Qed.

(** Recorded sales are never edited or deleted: the sequence of sales
    only grows at its end. *)
Lemma lsteps_sales_prefix d d' : lsteps d d' -> exists l, sales d' = sales d ++ l.
Proof.
  induction 1 as [d|d1 d2 d3 Hs _ (l & IH)].
  - exists []. symmetry. apply app_nil_r.
  - destruct Hs; cbn in IH |- *; eauto.
    exists (s :: l). rewrite IH, <- app_assoc. reflexivity.
Qed.

Lemma wf_empty : wf empty_data.
Proof. split; cbn; [constructor | discriminate | constructor]. Qed.

(** ** Soundness of the boolean check *)

Lemma Q_eqb_eq a b : Q_eqb a b = true -> a = b.
Proof.
  destruct a as [n d], b as [n' d']. unfold Q_eqb. cbn.
  intros [Hn Hd]%andb_prop. apply Z.eqb_eq in Hn. apply Pos.eqb_eq in Hd. now subst.
Qed.

Lemma nodupb_NoDup l : nodupb l = true -> NoDup l.
Proof.
  induction l as [|k l IH]; cbn; [constructor|].
  intros [Hk Hl]%andb_prop. constructor; [|exact (IH Hl)].
  intros Hin. apply negb_true_iff in Hk. rewrite (proj2 (existsb_exists _ _)) in Hk; [discriminate|].
  exists k. split; [exact Hin | apply String.eqb_refl].
Qed.

Lemma negb_Qle_bool x : negb (Qle_bool x 0) = true -> (0 < x)%Q.
Proof. intros H. apply negb_true_iff in H. now apply Qle_bool_false. Qed.

Lemma item_okb_ok d i : item_okb d i = true -> item_ok d i.
Proof.
  unfold item_okb. intros [Hq Hp]%andb_prop. split; [lia|].
  destruct (Dict.lookup (item_name i) (products d)) as [p|]; [|discriminate].
  exists p. split; [reflexivity | exact (Q_eqb_eq _ _ Hp)].
Qed.

Lemma sale_okb_ok d s : sale_okb d s = true -> sale_ok d s.
Proof.
  unfold sale_okb. intros [[Hne Hall]%andb_prop Ht]%andb_prop. split; [|split].
  - intros E. rewrite E in Hne. discriminate.
  - apply Forall_forall. intros i Hi. apply item_okb_ok. exact (proj1 (forallb_forall _ _) Hall i Hi).
  - exact (Qeq_bool_eq _ _ Ht).
Qed.

Lemma wfb_wf d : wfb d = true -> wf d.
Proof.
  unfold wfb. intros [[Hk Hp]%andb_prop Hs]%andb_prop. split.
  - exact (nodupb_NoDup _ Hk).
  - intros k p Hl. apply lookup_In in Hl.
    pose proof (proj1 (forallb_forall _ _) Hp _ Hl) as Hok. cbn in Hok.
    unfold product_okb in Hok. apply andb_prop in Hok as [[Hq Hc]%andb_prop Hr].
    split; [lia|]. split; apply negb_Qle_bool; assumption.
  - apply Forall_forall. intros s Hin. apply sale_okb_ok. exact (proj1 (forallb_forall _ _) Hs s Hin).
Qed.

Lemma wf_example : wf example_ledger.
Proof. apply wfb_wf. vm_compute. reflexivity. Qed.
