(* ===== verification/Persistence.v ===== *)
(** * Persistence: [load_data] and [save_data] of src/main.py, typed level

    The file [store_data.json] is modelled here through the typed
    document the program writes: [NoFile] when it does not exist,
    [Corrupt] when [json.load] fails on its text, and [Stored s] for a
    document of the shape [save_data] writes.  In the stored value,
    cost and price are text ([str(x)] on save, [float(s)] on load);
    quantities and sales are stored as they are.  Documents of any
    other shape (a missing key, a value that is not a dict, extra keys)
    are modelled in [Json], which also proves that this file is the
    code on the documents it describes.  The main theorem is the round
    trip: loading what was saved gives back the ledger, for every
    builtins instance with [float(str(x)) == x].  [stored_ok] is the
    typing of a stored document: [load_data] accepts exactly the
    well-typed documents. *)

From S2P Require Import Prelude Builtins Ledger.
Local Open Scope Z_scope.

Record stored_product : Type :=
  mkStored { s_quantity : Z; s_cost : string; s_price : string }.

Record stored : Type :=
  mkStoredData { s_products : Dict.t stored_product; s_sales : list sale }.

Inductive file : Type :=
  | NoFile
  | Corrupt
  | Stored (s : stored).

Section Codec.
Context `{PyText}.

(** [{**product, 'price': str(product['price']), 'cost': str(product['cost'])}] *)
Definition encode_product (p : product) : stored_product :=
  mkStored (quantity p) (py_str (cost p)) (py_str (price p)).

(** The value [save_data] passes to [json.dump]. *)
Definition encode_data (d : data) : stored :=
  mkStoredData (map (fun '(name, p) => (name, encode_product p)) (products d)) (sales d).

(** [{**product, 'price': float(str(product['price'])), 'cost': float(str(product['cost']))}]:
    the price is converted first; a failed conversion raises
    [ValueError], which [load_data] does not catch. *)
Definition decode_product (sp : stored_product) : res product :=
  match py_float (s_price sp) with
  | None => Raise (ValueError (VE_float_literal (s_price sp)))
  | Some pr =>
      match py_float (s_cost sp) with
      | None => Raise (ValueError (VE_float_literal (s_cost sp)))
      | Some c => Ok (mkProduct (s_quantity sp) c pr)
      end
  end.

(** The dict comprehension over [data['products'].items()], in order. *)
Fixpoint decode_products (l : Dict.t stored_product) : res (Dict.t product) :=
  match l with
  | [] => Ok []
  | (name, sp) :: rest =>
      match decode_product sp with
      | Raise e => Raise e
      | Ok p =>
          match decode_products rest with
          | Raise e => Raise e
          | Ok ps => Ok ((name, p) :: ps)
          end
      end
  end.

(** [load_data()]: only [FileNotFoundError] is caught. *)
Definition load_data (f : file) : res data :=
  match f with
  | NoFile => Ok empty_data
  | Corrupt => Raise JSONDecodeError
  | Stored s =>
      match decode_products (s_products s) with
      | Raise e => Raise e
      | Ok ps => Ok (mkData ps (s_sales s))
      end
  end.
(** ** Well-typed documents

    The shape of the document [load_data] expects: every product's
    cost and price are texts that [float] accepts.  The quantities and
    the sales are taken as they are. *)
Definition stored_product_ok (sp : stored_product) : bool :=
  match py_float (s_price sp), py_float (s_cost sp) with
  | Some _, Some _ => true
  | _, _ => false
  end.

Definition stored_ok (s : stored) : bool :=
  forallb (fun '(_, sp) => stored_product_ok sp) (s_products s).
End Codec.

Section RoundTrip.
Context `{PyTextLaws}.

Lemma decode_encode_product p : decode_product (encode_product p) = Ok p.
Proof. unfold decode_product, encode_product. cbn. rewrite !float_str. now destruct p. Qed.

Lemma decode_encode_products ps :
  decode_products (map (fun '(name, p) => (name, encode_product p)) ps) = Ok ps.
Proof.
  induction ps as [|[name p] ps IH]; cbn; [reflexivity|].
  now rewrite decode_encode_product, IH.
Qed.
Lemma load_encode d : load_data (Stored (encode_data d)) = Ok d.
Proof.
  unfold load_data, encode_data. cbn. rewrite decode_encode_products.
  now destruct d.
Qed.
End RoundTrip.

(** ** The round trip *)

(** C3. Loading the file written by [save_data] gives back the ledger
    that was saved: every product with its quantity, cost and price, in
    the same order, and every sale unchanged. *)
Theorem load_save_roundtrip `{PyTextLaws} (d : data) :
  load_data (Stored (encode_data d)) = Ok d.
Proof. apply load_encode. Qed.

Lemma load_save_roundtrip_witness :
  load_data (Stored (encode_data example_ledger)) = Ok example_ledger.
Proof. exact (load_save_roundtrip (H0 := ascii_text_laws) example_ledger). Defined.

(** ** Typing of the stored document *)

Section Typing.
Context `{PyText}.

Lemma decode_product_ok sp : (exists p, decode_product sp = Ok p) <-> stored_product_ok sp = true.
Proof.
  unfold decode_product, stored_product_ok.
  destruct (py_float (s_price sp)), (py_float (s_cost sp)); split; try discriminate;
    try (intros [p [=]]); eauto.
Qed.

Lemma decode_product_error sp e :
  decode_product sp = Raise e -> exists t, e = ValueError (VE_float_literal t) /\ py_float t = None.
Proof.
  unfold decode_product. destruct (py_float (s_price sp)) eqn:Hp; [destruct (py_float (s_cost sp)) eqn:Hc|];
    intros [=<-]; eauto.
Qed.

Lemma decode_products_ok l : (exists ps, decode_products l = Ok ps) <-> forallb (fun '(_, sp) => stored_product_ok sp) l = true.
Proof.
  induction l as [|[name sp] l IH]; cbn; [split; eauto|].
  rewrite andb_true_iff, <- IH, <- decode_product_ok.
  destruct (decode_product sp) as [p|e]; [destruct (decode_products l) as [ps|e]|].
  - split; eauto.
  - split; [intros [? [=]] | intros [_ [? [=]]]].
  - split; [intros [? [=]] | intros [[? [=]] _]].
Qed.

Lemma decode_products_error l e :
  decode_products l = Raise e -> exists t, e = ValueError (VE_float_literal t) /\ py_float t = None.
Proof.
  induction l as [|[name sp] l IH]; cbn; [discriminate|].
  destruct (decode_product sp) as [p|e'] eqn:E; [destruct (decode_products l); [discriminate|]|];
    intros [= <-]; [apply IH; reflexivity | exact (decode_product_error _ _ E)].
Qed.

(** C14. [load_data] accepts exactly the well-typed documents: it
    returns a ledger if and only if every product's cost and price are
    texts that [float] reads; on any other document it raises the
    [ValueError] of a text that [float] rejects. *)
Theorem load_data_typed s :
  ((exists d, load_data (Stored s) = Ok d) <-> stored_ok s = true) /\
  (forall e, load_data (Stored s) = Raise e -> exists t, e = ValueError (VE_float_literal t) /\ py_float t = None).
Proof.
  unfold load_data, stored_ok. rewrite <- decode_products_ok. split.
  - destruct (decode_products (s_products s)) as [ps|e]; split; [eauto | eauto | intros [? [=]] | intros [? [=]]].
  - intros e. destruct (decode_products (s_products s)) as [ps|e'] eqn:E; [discriminate|].
    intros [= <-]. exact (decode_products_error _ _ E).
Qed.
End Typing.

