(* ===== verification/World.v ===== *)
(** * The world a command runs in: ledger, console and file

    [world] is everything the program reads or changes: the ledger
    [data], the console input not read yet, the console output produced
    so far, and the file [store_data.json].  [input] and [print] are the
    console builtins; [save_data] is the function of src/main.py that
    rewrites the file.  The relations at the end ([reads], [writes],
    [file_kept], [ledger_moves]) are preorders on worlds; the statements
    of the program are shown to respect them with the [preserves] library
    of the prelude. *)

From S2P Require Import Prelude Builtins Ledger Persistence.
Local Open Scope Z_scope.

(** One constructor per kind of line the program writes. *)
Inductive msg : Type :=
  | Prompt (p : string)                  (* the prompt written by [input(p)] *)
  | Text (s : string)                    (* [print] of a fixed string *)
  | Added (n : Z) (name : string)        (* [f"AGGIUNTO: {quantity} X {name}"] *)
  | Error (e : value_error)              (* [f"Errore: {str(e)}"] *)
  | Row (name : string) (n : Z) (pr : Q) (* [f"{name}\t{product['quantity']}\t€{product['price']:.2f}"] *)
  | Line (n : Z) (name : string) (pr : Q)(* [f"- {quantity} X {name}: €{price:.2f}"] *)
  | Total (t : Q)                        (* [f"Totale: €{total:.2f}"] *)
  | Profit (gross net : Q).              (* [f"Profitto: lordo=€{gross_profit:.2f} netto=€{net_profit:.2f}"] *)

Record world : Type := mkWorld {
  w_data : data;
  w_stdin : list string;
  w_stdout : list msg;
  w_file : file
}.

Definition print (m : msg) : PyM world unit :=
  modify (fun w => mkWorld (w_data w) (w_stdin w) (w_stdout w ++ [m]) (w_file w)).

(** [input(prompt)]: writes the prompt, then reads a line; at end of
    input it raises [EOFError]. *)
Definition input (prompt : string) : PyM world string :=
  fun w =>
    let out := w_stdout w ++ [Prompt prompt] in
    match w_stdin w with
    | [] => (Raise EOFError, mkWorld (w_data w) [] out (w_file w))
    | l :: rest => (Ok l, mkWorld (w_data w) rest out (w_file w))
    end.

Definition get_data : PyM world data := gets w_data.

Definition modify_data (f : data -> data) : PyM world unit :=
  modify (fun w => mkWorld (f (w_data w)) (w_stdin w) (w_stdout w) (w_file w)).

(** [save_data(data)]: the file is overwritten with the encoded ledger. *)
Definition save_data `{PyText} : PyM world unit :=
  modify (fun w => mkWorld (w_data w) (w_stdin w) (w_stdout w) (Stored (encode_data (w_data w)))).

(** ** Preorders on worlds *)

(** Only a prefix of the input was consumed. *)
Definition reads (w w' : world) : Prop := exists pre, w_stdin w = pre ++ w_stdin w'.
(** Output is only appended to. *)
Definition writes (w w' : world) : Prop := exists out, w_stdout w' = w_stdout w ++ out.
Definition file_kept (w w' : world) : Prop := w_file w' = w_file w.
(** The ledger moved by allowed transitions. *)
Definition ledger_moves (w w' : world) : Prop := lsteps (w_data w) (w_data w').

#[export] Instance reads_preorder : PreOrder reads.
Proof.
  split.
  - intros w. exists []. reflexivity.
  - intros w1 w2 w3 [p1 H1] [p2 H2]. exists (p1 ++ p2). rewrite H1, H2, app_assoc. reflexivity.
Qed.

#[export] Instance writes_preorder : PreOrder writes.
Proof.
  split.
  - intros w. exists []. symmetry. apply app_nil_r.
  - intros w1 w2 w3 [o1 H1] [o2 H2]. exists (o1 ++ o2). rewrite H2, H1, app_assoc. reflexivity.
Qed.

#[export] Instance file_kept_preorder : PreOrder file_kept.
Proof. split; [intros w; reflexivity | intros w1 w2 w3 H1 H2; unfold file_kept; congruence]. Qed.

#[export] Instance ledger_moves_preorder : PreOrder ledger_moves.
Proof. split; [intros w; apply lsteps_refl | intros w1 w2 w3; unfold ledger_moves; apply lsteps_trans]. Qed.

(** ** The console statements and the preorders *)

Lemma input_inv p w r w' :
  input p w = (r, w') ->
  w_data w' = w_data w /\ w_file w' = w_file w /\ w_stdout w' = w_stdout w ++ [Prompt p] /\
  ((w_stdin w = [] /\ w_stdin w' = [] /\ r = Raise EOFError) \/
   (exists l, w_stdin w = l :: w_stdin w' /\ r = Ok l)).
Proof.
  unfold input. destruct (w_stdin w) as [|l rest]; intros [= <- <-]; cbn; eauto 10.
Qed.

Section ConsolePreserves.
Context (R : world -> world -> Prop) `{PreOrder world R}.

(** A relation that ignores the console is respected by [input] and
    [print]. *)
Hypothesis R_console : forall w i o,
  w_stdin w = i ++ [] \/ (exists l, w_stdin w = l :: i) ->
  R w (mkWorld (w_data w) i o (w_file w)).

Lemma input_preserves p : preserves R (input p).
Proof.
  intros w r w' Hrun. unfold input in Hrun. destruct (w_stdin w) as [|l rest] eqn:E;
    inversion Hrun; subst; apply R_console; rewrite E; eauto.
Qed.

Lemma print_preserves m : preserves R (print m).
Proof.
  apply preserves_modify. intros w. apply R_console. left. symmetry. apply app_nil_r.
Qed.
End ConsolePreserves.

Lemma reads_console w i o :
  w_stdin w = i ++ [] \/ (exists l, w_stdin w = l :: i) -> reads w (mkWorld (w_data w) i o (w_file w)).
Proof. intros [E|[l E]]; [exists [] | exists [l]]; cbn; rewrite E; [apply app_nil_r | reflexivity]. Qed.

Lemma file_console w i o : file_kept w (mkWorld (w_data w) i o (w_file w)).
Proof. reflexivity. Qed.

Lemma ledger_console w i o : ledger_moves w (mkWorld (w_data w) i o (w_file w)).
Proof. apply lsteps_refl. Qed.

Lemma input_writes p : preserves writes (input p).
Proof.
  intros w r w' Hrun. apply input_inv in Hrun as (_ & _ & Ho & _). exists [Prompt p]. exact Ho.
Qed.

Lemma print_writes m : preserves writes (print m).
Proof. apply preserves_modify. intros w. exists [m]. reflexivity. Qed.

Lemma modify_data_reads f : preserves reads (modify_data f).
Proof. apply preserves_modify. intros w. exists []. reflexivity. Qed.

Lemma modify_data_writes f : preserves writes (modify_data f).
Proof. apply preserves_modify. intros w. exists []. symmetry. apply app_nil_r. Qed.

Lemma modify_data_file f : preserves file_kept (modify_data f).
Proof. apply preserves_modify. intros w. reflexivity. Qed.

Lemma save_data_reads `{PyText} : preserves reads save_data.
Proof. apply preserves_modify. intros w. exists []. reflexivity. Qed.

Lemma save_data_writes `{PyText} : preserves writes save_data.
Proof. apply preserves_modify. intros w. exists []. symmetry. apply app_nil_r. Qed.

Lemma save_data_ledger `{PyText} : preserves ledger_moves save_data.
Proof. apply preserves_modify. intros w. apply lsteps_refl. Qed.

Lemma int_of_preserves `{PyText} (R : world -> world -> Prop) `{PreOrder world R} s :
  preserves R (int_of s).
Proof. unfold int_of. destruct (py_int s); auto using preserves_ret, preserves_throw. Qed.

Lemma float_of_preserves `{PyText} (R : world -> world -> Prop) `{PreOrder world R} s :
  preserves R (float_of s).
Proof. unfold float_of. destruct (py_float s); auto using preserves_ret, preserves_throw. Qed.

#[export] Hint Resolve input_writes print_writes modify_data_reads modify_data_writes
  modify_data_file save_data_reads save_data_writes save_data_ledger
  reads_console file_console ledger_console : ledger.
#[export] Hint Extern 2 (preserves _ (input _)) => apply input_preserves; eauto with ledger typeclass_instances : ledger.
#[export] Hint Extern 2 (preserves _ (print _)) => apply print_preserves; eauto with ledger typeclass_instances : ledger.
#[export] Hint Extern 2 (preserves _ (int_of _)) => apply int_of_preserves; eauto with typeclass_instances : ledger.
#[export] Hint Extern 2 (preserves _ (float_of _)) => apply float_of_preserves; eauto with typeclass_instances : ledger.
#[export] Hint Extern 2 (preserves _ get_data) => apply preserves_gets; eauto with typeclass_instances : ledger.

Lemma input_reads p : preserves reads (input p).
Proof. exact (input_preserves reads reads_console _). Qed.

Lemma print_reads m : preserves reads (print m).
Proof. exact (print_preserves reads reads_console _). Qed.

Lemma input_file p : preserves file_kept (input p).
Proof. exact (input_preserves file_kept (fun w i o _ => file_console w i o) _). Qed.

Lemma print_file m : preserves file_kept (print m).
Proof. exact (print_preserves file_kept (fun w i o _ => file_console w i o) _). Qed.

Lemma input_ledger p : preserves ledger_moves (input p).
Proof. exact (input_preserves ledger_moves (fun w i o _ => ledger_console w i o) _). Qed.

Lemma print_ledger m : preserves ledger_moves (print m).
Proof. exact (print_preserves ledger_moves (fun w i o _ => ledger_console w i o) _). Qed.

#[export] Hint Resolve input_reads print_reads input_file print_file input_ledger print_ledger : ledger.
#[export] Hint Resolve preserves_modify : ledger.

(** Walk through a statement: binds, handlers, tests and matches, down
    to the console and ledger statements. *)
Ltac preserves_step :=
  match goal with
  | |- forall _, _ => intros ?
  | |- preserves ?R (bind _ _) => apply (preserves_bind R)
  | |- preserves ?R (try_value _ _) => apply (preserves_try_value R)
  | |- preserves ?R (if _ then _ else _) => apply (preserves_if R)
  | |- preserves _ (match ?x with _ => _ end) => destruct x
  | |- preserves _ (let _ := _ in _) => cbv zeta
  | |- preserves ?R (ret _) => apply (preserves_ret R)
  | |- preserves ?R (throw _) => apply (preserves_throw R)
  | |- preserves ?R (gets _) => apply (preserves_gets R)
  | |- preserves ?R get_data => apply (preserves_gets R)
  | |- preserves ?R (int_of _) => apply (int_of_preserves R)
  | |- preserves ?R (float_of _) => apply (float_of_preserves R)
  end.

Ltac preserves_tac := repeat (first [preserves_step | solve [eauto with ledger typeclass_instances]]).

(** A statement that starts by reading a line and then respects
    [reads] has consumed at least one line when it returns. *)
Lemma input_then_reads {A} p (k : string -> PyM world A) w x w' :
  (forall l, preserves reads (k l)) -> bind (input p) k w = (Ok x, w') ->
  (List.length (w_stdin w') < List.length (w_stdin w))%nat.
Proof.
  intros Hk Hrun. apply bind_inv in Hrun as [(e & He & [=])|(l & w1 & Hin & Hk1)].
  apply input_inv in Hin as (_ & _ & _ & [(_ & _ & [=])|(l' & Hs & [= <-])]).
  destruct (Hk _ _ _ _ Hk1) as (pre & Hpre). rewrite Hs, Hpre. cbn [List.length]. rewrite length_app. lia.
Qed.

(** ** Which exceptions the console statements raise *)

Lemma input_raises (P : exc -> Prop) p : P EOFError -> raises_only P (input p).
Proof.
  intros HP w e w' Hrun. apply input_inv in Hrun as (_ & _ & _ & [(_ & _ & [= ->])|(l & _ & [=])]).
  exact HP.
Qed.

Lemma int_of_raises `{PyText} (P : exc -> Prop) s :
  (forall v, P (ValueError v)) -> raises_only (S := world) P (int_of s).
Proof. intros HP. unfold int_of. destruct (py_int s); [apply raises_ret | apply raises_throw, HP]. Qed.

Lemma float_of_raises `{PyText} (P : exc -> Prop) s :
  (forall v, P (ValueError v)) -> raises_only (S := world) P (float_of s).
Proof. intros HP. unfold float_of. destruct (py_float s); [apply raises_ret | apply raises_throw, HP]. Qed.

Ltac raises_step :=
  match goal with
  | |- forall _, _ => intros ?
  | |- raises_only ?P (bind _ _) => apply (raises_bind P)
  | |- raises_only ?P (try_value _ _) => apply (raises_try_value P)
  | |- raises_only ?P (if _ then _ else _) => apply (raises_if P)
  | |- raises_only _ (match ?x with _ => _ end) => destruct x
  | |- raises_only _ (let _ := _ in _) => cbv zeta
  | |- raises_only ?P (ret _) => apply (raises_ret P)
  | |- raises_only ?P (gets _) => apply (raises_gets P)
  | |- raises_only ?P get_data => apply (raises_gets P)
  | |- raises_only ?P (print _) => apply (raises_modify P)
  | |- raises_only ?P (modify_data _) => apply (raises_modify P)
  | |- raises_only ?P save_data => apply (raises_modify P)
  | |- raises_only ?P (throw _) => apply (raises_throw P)
  | |- raises_only ?P (input _) => apply (input_raises P)
  | |- raises_only ?P (int_of _) => apply (int_of_raises P)
  | |- raises_only ?P (float_of _) => apply (float_of_raises P)
  end.

Ltac raises_tac :=
  repeat (first [raises_step | solve [cbv beta; unfold is_value_error; eauto]]).

(** ** Where [EOFError] can happen *)

(** [EOFError] leaves no input unread: it is raised by [input] only. *)
Definition at_end (e : exc) (w : world) : Prop := e = EOFError -> w_stdin w = [].

Lemma input_at_end (Q : exc -> world -> Prop) p :
  (forall w, at_end EOFError w -> Q EOFError w) -> raises_in Q (input p).
Proof.
  intros HQ w e w' Hrun. apply input_inv in Hrun as (_ & _ & _ & [(Hnil & Hw' & [= ->])|(l & _ & [=])]).
  apply HQ. intros _. now rewrite Hw'.
Qed.

Lemma int_of_at_end `{PyText} (Q : exc -> world -> Prop) s :
  (forall v w, Q (ValueError v) w) -> raises_in Q (int_of s).
Proof. intros HQ. unfold int_of. destruct (py_int s); [apply raises_in_ret | apply raises_in_throw; auto]. Qed.

Lemma float_of_at_end `{PyText} (Q : exc -> world -> Prop) s :
  (forall v w, Q (ValueError v) w) -> raises_in Q (float_of s).
Proof. intros HQ. unfold float_of. destruct (py_float s); [apply raises_in_ret | apply raises_in_throw; auto]. Qed.

Ltac at_end_step :=
  match goal with
  | |- forall _, _ => intros ?
  | |- raises_in ?Q (bind _ _) => apply (raises_in_bind Q)
  | |- raises_in ?Q (try_value _ _) => apply (raises_in_try_value Q)
  | |- raises_in ?Q (if _ then _ else _) => apply (raises_in_if Q)
  | |- raises_in _ (match ?x with _ => _ end) => destruct x
  | |- raises_in _ (let _ := _ in _) => cbv zeta
  | |- raises_in ?Q (ret _) => apply (raises_in_ret Q)
  | |- raises_in ?Q (gets _) => apply (raises_in_gets Q)
  | |- raises_in ?Q get_data => apply (raises_in_gets Q)
  | |- raises_in ?Q (print _) => apply (raises_in_modify Q)
  | |- raises_in ?Q (modify_data _) => apply (raises_in_modify Q)
  | |- raises_in ?Q save_data => apply (raises_in_modify Q)
  | |- raises_in ?Q (throw _) => apply (raises_in_throw Q)
  | |- raises_in ?Q (input _) => apply (input_at_end Q)
  | |- raises_in ?Q (int_of _) => apply (int_of_at_end Q)
  | |- raises_in ?Q (float_of _) => apply (float_of_at_end Q)
  end.

(** Side conditions: an exception other than [EOFError] satisfies
    [at_end] trivially, a [ValueError] inside a [try] is caught. *)
Ltac at_end_solve :=
  cbv beta; unfold at_end, is_value_error;
  first [ intros; discriminate
        | intros; right; eexists; reflexivity
        | intros; left; intros; discriminate
        | intros; left; auto
        | auto ].

Ltac at_end_tac := repeat (first [at_end_step | solve [at_end_solve]]).
