(* ===== verification/Inventory.v ===== *)
(** * Inventory: [add_product] and [list_products] of src/main.py

    [add_product] reads a name (lower-cased) outside its [try], then
    inside the [try] a quantity; a non-positive quantity raises
    [ValueError]; an existing product is restocked, a new one needs a cost
    and a price, both read before they are checked.  Every [ValueError]
    is caught and printed; [EOFError] propagates.  [list_products] prints
    a header and one row per product in insertion order.

    The theorems give the result of [add_product] on every branch
    (restock, creation, each rejection), show that any run of it, also
    one that ends in [EOFError], moves the ledger by [lstep]s only, and
    hence preserves the invariant [wf]. *)

From S2P Require Import Prelude Builtins Ledger Persistence World.
From Stdlib Require Import Ascii.
Local Open Scope Z_scope.
Local Open Scope py_scope.
Local Open Scope string_scope.
Local Open Scope list_scope.

Definition msg_quantity : string := "La quantità deve essere un numero positivo.".
Definition msg_prices : string := "I prezzi devono essere numeri positivi.".
Definition tab : string := String (ascii_of_nat 9) EmptyString.
Definition list_header : string :=
  ("PRODOTTO" ++ tab ++ "QUANTITA'" ++ tab ++ "PREZZO")%string.

Section Inventory.
Context `{PyText}.

Definition add_product : PyM world unit :=
  let* raw := input "Nome del prodotto: " in
  let name := py_lower raw in
  try_value
    (let* qs := input "Quantità: " in
     let* quantity := int_of qs in
     if (quantity <=? 0)%Z then throw (ValueError (VE_message msg_quantity)) else
     let* d := get_data in
     if Dict.mem name (products d) then
       modify_data (add_stock name quantity) ;;
       print (Added quantity name)
     else
       let* cs := input "Prezzo di acquisto: " in
       let* c := float_of cs in
       let* ps := input "Prezzo di vendita: " in
       let* pr := float_of ps in
       if (Qle_bool c 0 || Qle_bool pr 0)%bool
       then throw (ValueError (VE_message msg_prices))
       else
         modify_data (put_product name (mkProduct quantity c pr)) ;;
         print (Added quantity name))
    (fun e => print (Error e)).

Fixpoint print_rows (ps : Dict.t product) : PyM world unit :=
  match ps with
  | [] => ret tt
  | (name, p) :: rest => print (Row name (quantity p) (price p)) ;; print_rows rest
  end.

Definition list_products : PyM world unit :=
  print (Text list_header) ;;
  let* d := get_data in
  print_rows (products d).
End Inventory.

(** ** Every run of [add_product] moves the ledger by allowed steps *)

Section InventoryProofs.
Context `{PyText}.

Lemma add_product_moves : preserves ledger_moves add_product.
Proof.
  intros [d inp out f] r w' Hrun. unfold add_product, input, int_of, float_of in Hrun.
  destruct inp as [|raw [|qs [|cs [|ps rest]]]]; py_exec Hrun; inversion Hrun; subst; clear Hrun;
    unfold ledger_moves; cbn; py_bool; eauto with ledger.
Qed.

Lemma print_rows_run ps w :
  print_rows ps w =
  (Ok tt, mkWorld (w_data w) (w_stdin w)
            (w_stdout w ++ map (fun '(name, p) => Row name (quantity p) (price p)) ps) (w_file w)).
Proof.
  revert w. induction ps as [|[name p] ps IH]; intros [d i o f]; cbn.
  - now rewrite app_nil_r.
  - unfold bind, print, modify. rewrite IH. cbn. now rewrite <- app_assoc.
Qed.

(** C31. [list_products] prints the header and then exactly one row per
    product, with its quantity and sale price, in insertion order; it
    changes nothing else. *)
Theorem list_products_rows w :
  list_products w =
  (Ok tt, mkWorld (w_data w) (w_stdin w)
            (w_stdout w ++ Text list_header
               :: map (fun '(name, p) => Row name (quantity p) (price p)) (products (w_data w)))
            (w_file w)).
Proof.
  destruct w as [d i o f]. unfold list_products, bind, print, modify, get_data, gets. cbn.
  rewrite print_rows_run. cbn. now rewrite <- app_assoc.
Qed.

(** C21. Adding [q > 0] units of a product that exists increases its
    quantity by [q] and leaves its cost and price, every other product,
    the order of the products and the sales unchanged; the command
    consumes two input lines and reports [AGGIUNTO: q X name]. *)
Theorem add_product_restock w raw qs rest q p :
  w_stdin w = raw :: qs :: rest -> py_int qs = Some q -> 0 < q ->
  Dict.lookup (py_lower raw) (products (w_data w)) = Some p ->
  exists w', add_product w = (Ok tt, w') /\
    w_stdin w' = rest /\ w_file w' = w_file w /\ sales (w_data w') = sales (w_data w) /\
    Dict.keys (products (w_data w')) = Dict.keys (products (w_data w)) /\
    Dict.lookup (py_lower raw) (products (w_data w')) =
      Some (mkProduct (quantity p + q) (cost p) (price p)) /\
    (forall k, k <> py_lower raw ->
       Dict.lookup k (products (w_data w')) = Dict.lookup k (products (w_data w))) /\
    w_stdout w' = w_stdout w ++ [Prompt "Nome del prodotto: "; Prompt "Quantità: "; Added q (py_lower raw)].
Proof.
  destruct w as [d i o f]; cbn. intros -> Hq Hpos Hp.
  assert (Hmem : Dict.mem (py_lower raw) (products d) = true) by (unfold Dict.mem; now rewrite Hp).
  assert (Hle : (q <=? 0)%Z = false) by (apply Z.leb_gt; exact Hpos).
  exists (mkWorld (add_stock (py_lower raw) q d) rest
            (o ++ [Prompt "Nome del prodotto: "; Prompt "Quantità: "; Added q (py_lower raw)]) f).
  split.
  - unfold add_product, input, int_of, bind, try_value, get_data, gets, modify_data, modify, print.
    cbn -[Z.leb Dict.mem]. rewrite Hq. cbn -[Z.leb Dict.mem]. rewrite Hle.
    cbn -[Z.leb Dict.mem]. rewrite Hmem. cbn. now rewrite <- !app_assoc.
  - cbn [w_data w_stdin w_file w_stdout add_stock products sales].
    rewrite keys_update, lookup_update_eq, Hp. repeat split.
    intros k Hk. apply lookup_update_ne. congruence.
Qed.

(** The whole run of [add_product] that creates a product. *)
Lemma add_product_create_run w raw qs cs ps rest q c pr :
  w_stdin w = raw :: qs :: cs :: ps :: rest -> py_int qs = Some q -> 0 < q ->
  Dict.mem (py_lower raw) (products (w_data w)) = false ->
  py_float cs = Some c -> py_float ps = Some pr -> (0 < c)%Q -> (0 < pr)%Q ->
  add_product w =
    (Ok tt, mkWorld (put_product (py_lower raw) (mkProduct q c pr) (w_data w)) rest
              (w_stdout w ++ [Prompt "Nome del prodotto: "; Prompt "Quantità: ";
                              Prompt "Prezzo di acquisto: "; Prompt "Prezzo di vendita: ";
                              Added q (py_lower raw)]) (w_file w)).
Proof.
  destruct w as [d i o f]; cbn. intros -> Hq Hpos Hmem Hc Hpr Hc0 Hpr0.
  assert (Hle : (q <=? 0)%Z = false) by (apply Z.leb_gt; exact Hpos).
  assert (Hcb : Qle_bool c 0 = false) by (apply not_true_iff_false; rewrite Qle_bool_iff; lra).
  assert (Hpb : Qle_bool pr 0 = false) by (apply not_true_iff_false; rewrite Qle_bool_iff; lra).
  unfold add_product, input, int_of, float_of, bind, try_value, get_data, gets, modify_data, modify, print.
  cbn -[Z.leb Qle_bool Dict.mem]. rewrite Hq. cbn -[Z.leb Qle_bool Dict.mem]. rewrite Hle.
  cbn -[Z.leb Qle_bool Dict.mem]. rewrite Hmem. cbn -[Z.leb Qle_bool Dict.mem]. rewrite Hc.
  cbn -[Z.leb Qle_bool Dict.mem]. rewrite Hpr. cbn -[Z.leb Qle_bool Dict.mem]. rewrite Hcb, Hpb. cbn.
  now rewrite <- !app_assoc.
Qed.

(** C22. Adding a product that does not exist, with a positive quantity
    and positive cost and price, appends it with exactly these values
    at the end of the products (so it is listed last) and leaves the
    sales unchanged; it consumes four input lines. *)
Theorem add_product_create w raw qs cs ps rest q c pr :
  w_stdin w = raw :: qs :: cs :: ps :: rest -> py_int qs = Some q -> 0 < q ->
  Dict.mem (py_lower raw) (products (w_data w)) = false ->
  py_float cs = Some c -> py_float ps = Some pr -> (0 < c)%Q -> (0 < pr)%Q ->
  exists w', add_product w = (Ok tt, w') /\
    w_stdin w' = rest /\ w_file w' = w_file w /\ sales (w_data w') = sales (w_data w) /\
    products (w_data w') = products (w_data w) ++ [(py_lower raw, mkProduct q c pr)] /\
    w_stdout w' = w_stdout w ++ [Prompt "Nome del prodotto: "; Prompt "Quantità: ";
                                 Prompt "Prezzo di acquisto: "; Prompt "Prezzo di vendita: ";
                                 Added q (py_lower raw)].
Proof.
  intros Hin Hq Hpos Hmem Hc Hpr Hc0 Hpr0.
  eexists. split; [exact (add_product_create_run w raw qs cs ps rest q c pr Hin Hq Hpos Hmem Hc Hpr Hc0 Hpr0)|].
  cbn [w_data w_stdin w_file w_stdout put_product products sales].
  unfold Dict.setitem. rewrite Hmem. repeat split.
Qed.


(** C23. An addition with a quantity that is not an integer or not
    positive is rejected: the ledger and the file are unchanged, the
    error is printed, and the command returns normally after reading
    two lines. *)
Theorem add_product_rejects_quantity w raw qs rest :
  w_stdin w = raw :: qs :: rest ->
  (py_int qs = None \/ exists q, py_int qs = Some q /\ q <= 0) ->
  exists e, add_product w =
    (Ok tt, mkWorld (w_data w) rest
              (w_stdout w ++ [Prompt "Nome del prodotto: "; Prompt "Quantità: "; Error e]) (w_file w)).
Proof.
  destruct w as [d i o f]; cbn. intros -> Hq.
  destruct (add_product (mkWorld d (raw :: qs :: rest) o f)) as [r w'] eqn:Hrun.
  unfold add_product, input, int_of, float_of in Hrun. py_exec Hrun; py_bool;
    destruct Hq as [Hq|(q' & Hq & Hle)]; unify_some; try lia.
  all: inversion Hrun; subst; eexists; now rewrite <- !app_assoc.
Qed.

(** C24. Adding a new product with a cost or a price that is not
    positive is rejected after both have been read: the ledger and the
    file are unchanged and the error [I prezzi devono essere numeri
    positivi.] is printed. *)
Theorem add_product_rejects_prices w raw qs cs ps rest q c pr :
  w_stdin w = raw :: qs :: cs :: ps :: rest -> py_int qs = Some q -> 0 < q ->
  Dict.mem (py_lower raw) (products (w_data w)) = false ->
  py_float cs = Some c -> py_float ps = Some pr -> (c <= 0 \/ pr <= 0)%Q ->
  add_product w =
    (Ok tt, mkWorld (w_data w) rest
              (w_stdout w ++ [Prompt "Nome del prodotto: "; Prompt "Quantità: ";
                              Prompt "Prezzo di acquisto: "; Prompt "Prezzo di vendita: ";
                              Error (VE_message msg_prices)]) (w_file w)).
Proof.
  destruct w as [d i o f]; cbn. intros -> Hq Hpos Hmem Hc Hpr Hbad.
  destruct (add_product (mkWorld d (raw :: qs :: cs :: ps :: rest) o f)) as [r w'] eqn:Hrun.
  unfold add_product, input, int_of, float_of in Hrun. py_exec Hrun; py_bool; unify_some;
    try lia; try congruence; try (destruct Hbad; lra).
  all: inversion Hrun; subst; now rewrite <- !app_assoc.
Qed.

(** C30. Every run of [add_product], also one that ends in [EOFError],
    keeps the ledger well formed: quantities non-negative, costs and
    prices positive, names unique, every sale well formed. *)
Theorem add_product_wf w r w' :
  wf (w_data w) -> add_product w = (r, w') -> wf (w_data w').
Proof. intros Hwf Hrun. exact (lsteps_wf _ _ (add_product_moves _ _ _ Hrun) Hwf). Qed.

Lemma add_product_eof : raises_only (fun e => e = EOFError) add_product.
Proof. unfold add_product. raises_tac. Qed.

(** C28. [add_product] lets no [ValueError] escape: a bad quantity,
    cost or price is always reported, and the only exception that can
    end the command is [EOFError]. *)
Theorem add_product_raises : raises_only (fun e => e = EOFError) add_product.
Proof. exact add_product_eof. Qed.

Lemma list_products_raises : raises_only (fun _ => False) list_products.
Proof.
  unfold list_products. raises_tac.
  induction (products _) as [|[name p] ps IH]; cbn; raises_tac.
Qed.
End InventoryProofs.

(** ** Witnesses on the ASCII instance *)

Lemma add_product_restock_witness :
  exists w', add_product (mkWorld example_ledger ["TOFU"; "3"] [] NoFile) = (Ok tt, w') /\
    Dict.lookup "tofu" (products (w_data w')) = Some (mkProduct 6 (2#1) (7#2)).
Proof.
  destruct (@add_product_restock ascii_text (mkWorld example_ledger ["TOFU"; "3"] [] NoFile) "TOFU" "3" []
              3 (mkProduct 3 (2#1) (7#2)) eq_refl eq_refl ltac:(lia) eq_refl)
    as (w' & Hrun & _ & _ & _ & _ & Hl & _).
  exists w'. split; [exact Hrun | exact Hl].
Defined.

Lemma add_product_create_witness :
  exists w', add_product (mkWorld empty_data ["Tofu"; "5"; "2"; "3"] [] NoFile) = (Ok tt, w') /\
    products (w_data w') = [("tofu", mkProduct 5 2 3)].
Proof.
  destruct (@add_product_create ascii_text (mkWorld empty_data ["Tofu"; "5"; "2"; "3"] [] NoFile)
              "Tofu" "5" "2" "3" [] 5 2 3 eq_refl eq_refl ltac:(lia) eq_refl eq_refl eq_refl
              ltac:(reflexivity) ltac:(reflexivity))
    as (w' & Hrun & _ & _ & _ & Hp & _).
  exists w'. split; [exact Hrun | exact Hp].
Defined.

Lemma add_product_rejects_quantity_witness :
  exists e, add_product (mkWorld example_ledger ["Tofu"; "0"] [] NoFile) =
    (Ok tt, mkWorld example_ledger [] [Prompt "Nome del prodotto: "; Prompt "Quantità: "; Error e] NoFile).
Proof.
  apply (add_product_rejects_quantity (mkWorld example_ledger ["Tofu"; "0"] [] NoFile) "Tofu" "0" []).
  - vm_compute. reflexivity.
  - right. exists 0. split; [vm_compute; reflexivity | lia].
Defined.

Lemma add_product_rejects_prices_witness :
  add_product (mkWorld example_ledger ["Tempeh"; "4"; "0"; "3"] [] NoFile) =
    (Ok tt, mkWorld example_ledger []
              [Prompt "Nome del prodotto: "; Prompt "Quantità: "; Prompt "Prezzo di acquisto: ";
               Prompt "Prezzo di vendita: "; Error (VE_message msg_prices)] NoFile).
Proof.
  exact (add_product_rejects_prices (mkWorld example_ledger ["Tempeh"; "4"; "0"; "3"] [] NoFile)
           "Tempeh" "4" "0" "3" [] 4 0 3 ltac:(vm_compute; reflexivity) ltac:(vm_compute; reflexivity) ltac:(lia)
           ltac:(vm_compute; reflexivity) ltac:(vm_compute; reflexivity) ltac:(vm_compute; reflexivity)
           ltac:(left; vm_compute; discriminate)).
Defined.

Lemma add_product_raises_witness :
  exists e w', add_product (mkWorld example_ledger ["Tofu"] [] NoFile) = (Raise e, w') /\ e = EOFError.
Proof.
  exists EOFError, (snd (add_product (mkWorld example_ledger ["Tofu"] [] NoFile))).
  assert (H : add_product (mkWorld example_ledger ["Tofu"] [] NoFile) =
    (Raise EOFError, snd (add_product (mkWorld example_ledger ["Tofu"] [] NoFile)))) by (vm_compute; reflexivity).
  split; [exact H | exact (add_product_raises _ _ _ H)].
Defined.

Lemma add_product_wf_witness :
  wf (w_data (snd (add_product (mkWorld example_ledger ["Tempeh"; "4"; "3/2"; "5/2"] [] NoFile)))).
Proof.
  apply (add_product_wf (mkWorld example_ledger ["Tempeh"; "4"; "3/2"; "5/2"] [] NoFile)
           (fst (add_product (mkWorld example_ledger ["Tempeh"; "4"; "3/2"; "5/2"] [] NoFile)))).
  - apply wfb_wf. vm_compute. reflexivity.
  - vm_compute. reflexivity.
Defined.
