(* ===== verification/Sales.v ===== *)
(** * Sales: [register_sale] of src/main.py

    [register_sale] keeps two local variables, [sale] (the items so far)
    and [total], and runs [while True:] over [sale_step]: read a name; if
    it is not a product, say so and ask whether to search again; else,
    inside a [try], read a quantity, reject a non-positive one
    ([ValueError], caught and printed), skip an unavailable one, and
    otherwise append the item, add the subtotal to [total], take the
    units from the stock at once, and ask whether to add another product.
    After the loop, a non-empty [sale] is appended to [data['sales']].

    The loop is [sale_loop], a [Fixpoint] on fuel; [register_sale] runs it
    with one more unit of fuel than there are input lines, which is enough
    (every iteration reads a line).  The theorems: the fuel never runs
    out and any larger fuel gives the same run; an unavailable quantity
    changes nothing and restarts the loop; a completed sale takes from
    every product exactly the units it records, with
    [total = sum of price * quantity]; every run moves the ledger by
    allowed steps, so the invariant holds after it.  The loop is equal
    to the big-step semantics of [while True] over [sale_step]
    ([Loops.while_sem]); by rule induction on it, no stock grows and none
    becomes negative.  What a completed command prints: one item line
    per recorded item, in order, then [VENDITA REGISTRATA] and the
    total.  Product names are case-insensitive in [add_product] and
    [register_sale]. *)

From S2P Require Import Prelude Loops Builtins Ledger Persistence World Inventory.
Local Open Scope Z_scope.
Local Open Scope py_scope.

Definition msg_not_found : string := "Prodotto non trovato.".
Definition msg_unavailable : string := "Quantità non disponibile.".
Definition msg_registered : string := "VENDITA REGISTRATA".

Section Sales.
Context `{PyText}.

(** [input(prompt).lower() != 'si'] decides to leave the loop. *)
Definition ask_again (prompt : string) (acc : list item * Q) : PyM world (flow * (list item * Q)) :=
  let* ans := input prompt in
  if String.eqb (py_lower ans) "si"%string then ret (Continue, acc) else ret (Break, acc).

(** One iteration of the [while True] loop.  A [ValueError] is raised
    only before [sale] and [total] change, so the handler continues
    with the values they had at the start of the iteration. *)
Definition sale_step (acc : list item * Q) : PyM world (flow * (list item * Q)) :=
  let '(sale, total) := acc in
  let* raw := input "Nome del prodotto: " in
  let name := py_lower raw in
  let* d := get_data in
  if negb (Dict.mem name (products d)) then
    print (Text msg_not_found) ;;
    ask_again "Vuoi cercare un altro prodotto ? (si/no): " acc
  else
    try_value
      (let* qs := input "Quantità: " in
       let* quantity := int_of qs in
       if (quantity <=? 0)%Z then throw (ValueError (VE_message msg_quantity)) else
       let* d := get_data in
       match Dict.lookup name (products d) with
       | None => throw (KeyError name)
       | Some p =>
           if (quantity >? Ledger.quantity p)%Z then
             print (Text msg_unavailable) ;; ret (Continue, acc)
           else
             let pr := price p in
             let subtotal := (pr * inject_Z quantity)%Q in
             let sale' := sale ++ [mkItem name quantity pr] in
             let total' := (total + subtotal)%Q in
             modify_data (take_stock name quantity) ;;
             print (Line quantity name pr) ;;
             ask_again "Aggiungere un altro prodotto ? (si/no): " (sale', total')
       end)
      (fun e => print (Error e) ;; ret (Continue, acc)).

Fixpoint sale_loop (fuel : nat) (acc : list item * Q) : PyM world (list item * Q) :=
  match fuel with
  | O => throw OutOfFuel
  | S n =>
      let* r := sale_step acc in
      match r with
      | (Break, acc') => ret acc'
      | (Continue, acc') => sale_loop n acc'
      end
  end.

(** [if sale: data['sales'].append({'items': sale, 'total': total}); print ...] *)
Definition record_sale (acc : list item * Q) : PyM world unit :=
  let '(sale, total) := acc in
  match sale with
  | [] => ret tt
  | _ :: _ =>
      modify_data (append_sale (mkSale sale total)) ;;
      print (Text msg_registered) ;;
      print (Total total)
  end.

Definition register_sale : PyM world unit :=
  fun w =>
    (let* acc := sale_loop (S (List.length (w_stdin w))) ([], 0%Q) in
     record_sale acc) w.
End Sales.

(** ** Counting units *)

(** The stock of a product, [0] for a name that is not a product. *)
Definition stock (d : data) (k : string) : Z :=
  match Dict.lookup k (products d) with Some p => quantity p | None => 0 end.

(** The units of product [k] that a list of items sells. *)
Definition units (k : string) (l : list item) : Z :=
  fold_right (fun i acc => (if String.eqb (item_name i) k then item_quantity i else 0) + acc) 0 l.

Lemma units_snoc k l i :
  units k (l ++ [i]) = units k l + (if String.eqb (item_name i) k then item_quantity i else 0).
Proof. unfold units. rewrite fold_right_app. cbn. induction l as [|j l IH]; cbn; lia. Qed.

Lemma subtotal_sum_snoc l i :
  subtotal_sum (l ++ [i]) = (subtotal_sum l + item_price i * inject_Z (item_quantity i))%Q.
Proof. unfold subtotal_sum. now rewrite fold_left_app. Qed.

Lemma stock_take d name q k p :
  Dict.lookup name (products d) = Some p ->
  stock (take_stock name q d) k = stock d k - (if String.eqb name k then q else 0).
Proof.
  intros Hp. unfold stock, take_stock. cbn [products].
  destruct (String.eqb_spec name k) as [<-|Hne].
  - rewrite lookup_update_eq, Hp. cbn. lia.
  - rewrite lookup_update_ne by exact Hne. destruct (Dict.lookup k (products d)); lia.
Qed.

(** The units of product [k] that the recorded sales sold. *)
Definition sold (d : data) (k : string) : Z :=
  fold_right (fun s acc => units k (items s) + acc) 0 (sales d).

(** The units of [k] the ledger accounts for: in stock or sold. *)
Definition accounted (d : data) (k : string) : Z := stock d k + sold d k.

Lemma sold_append s d k : sold (append_sale s d) k = sold d k + units k (items s).
Proof. unfold sold. cbn [sales append_sale]. rewrite fold_right_app. cbn. induction (sales d) as [|s' l IH]; cbn; lia. Qed.

Lemma sold_sales d d' k : sales d' = sales d -> sold d' k = sold d k.
Proof. unfold sold. now intros ->. Qed.

Lemma stock_add d name n k :
  Dict.mem name (products d) = true ->
  stock (add_stock name n d) k = stock d k + (if String.eqb name k then n else 0).
Proof.
  unfold Dict.mem. destruct (Dict.lookup name (products d)) as [p|] eqn:Hp; [intros _|discriminate].
  unfold stock, add_stock. cbn [products].
  destruct (String.eqb_spec name k) as [<-|Hne].
  - rewrite lookup_update_eq, Hp. cbn. lia.
  - rewrite lookup_update_ne by exact Hne. destruct (Dict.lookup k (products d)); lia.
Qed.

Lemma stock_put_new d name p k :
  Dict.mem name (products d) = false ->
  stock (put_product name p d) k = stock d k + (if String.eqb name k then quantity p else 0).
Proof.
  unfold Dict.mem. destruct (Dict.lookup name (products d)) eqn:Hp; [discriminate|intros _].
  unfold stock, put_product. cbn [products]. rewrite lookup_setitem.
  destruct (String.eqb_spec name k) as [<-|Hne]; [rewrite Hp|]; lia.
Qed.

Lemma stock_append s d k : stock (append_sale s d) k = stock d k.
Proof. reflexivity. Qed.

(** ** One iteration of the loop *)

Section SaleStep.
Context `{PyText}.

(** Every run of one iteration, also one that raises, either leaves
    the ledger and the loop variables as they were, or takes [q]
    available units ([0 < q <= stock]) of one product and records them
    as a new item at the product's price; it reads at least one line
    when it returns, and never runs out of fuel. *)
Lemma sale_step_run acc w r w' :
  sale_step acc w = (r, w') ->
  (forall e, r = Raise e -> e = EOFError) /\
  (forall x, r = Ok x -> (List.length (w_stdin w') < List.length (w_stdin w))%nat) /\
  ((w_data w' = w_data w /\ forall f acc', r = Ok (f, acc') -> acc' = acc) \/
   (exists name q p,
      Dict.lookup name (products (w_data w)) = Some p /\ 0 < q <= quantity p /\
      w_data w' = take_stock name q (w_data w) /\
      forall f acc', r = Ok (f, acc') ->
        acc' = (fst acc ++ [mkItem name q (price p)], (snd acc + price p * inject_Z q)%Q))).
Proof.
  intros Hrun. destruct acc as [sale total], w as [d inp out fl].
  unfold sale_step, ask_again, input, int_of in Hrun.
  destruct inp as [|raw [|qs [|ans rest]]]; py_exec Hrun; py_bool; unify_some;
    inversion Hrun; subst; clear Hrun; cbn.
  all: split; [intros ? Hr; inversion Hr; reflexivity|]; split; [intros ? Hr; inversion Hr; cbn; lia|].
  all: first [ left; split; [reflexivity | intros ? ? Hr; inversion Hr; reflexivity]
             | right; do 3 eexists; split; [eassumption|];
               split; [|split; [reflexivity | intros ? ? Hr; inversion Hr; reflexivity]]; lia ].
Qed.
End SaleStep.

(** ** The loop invariant *)

(** Between iterations, relative to the ledger [d0] at the start of the
    command: the ledger moved by allowed steps, [total] is the sum of the
    items' subtotals, every item is well formed, the stock of every
    product plus the units of it in [sale] is its stock at the start,
    and nothing else changed. *)
Record sale_inv (d0 : data) (acc : list item * Q) (d : data) : Prop := {
  si_moves : lsteps d0 d;
  si_total : snd acc = subtotal_sum (fst acc);
  si_items : Forall (item_ok d) (fst acc);
  si_stock : forall k, stock d k + units k (fst acc) = stock d0 k;
  si_sales : sales d = sales d0;
  si_keys : Dict.keys (products d) = Dict.keys (products d0);
  si_empty : fst acc = [] -> d = d0
}.

Lemma sale_inv_start d0 : sale_inv d0 ([], 0%Q) d0.
Proof. split; cbn; auto with ledger. intros k. lia. Qed.

Lemma sale_inv_take d0 acc d name q p :
  sale_inv d0 acc d -> Dict.lookup name (products d) = Some p -> 0 < q <= quantity p ->
  sale_inv d0 (fst acc ++ [mkItem name q (price p)], (snd acc + price p * inject_Z q)%Q)
           (take_stock name q d).
Proof.
  intros Hinv Hp Hq. assert (Hs : lstep d (take_stock name q d)) by eauto with ledger.
  split; cbn [fst snd].
  - eauto using si_moves with ledger.
  - rewrite subtotal_sum_snoc, (si_total _ _ _ Hinv). reflexivity.
  - apply Forall_app. split.
    + eapply Forall_impl; [|exact (si_items _ _ _ Hinv)]. intros i. apply item_ok_kept, lstep_kept, Hs.
    + constructor; [|constructor]. split; [cbn; lia|].
      exists (mkProduct (quantity p - q) (cost p) (price p)). split; [|reflexivity].
      unfold take_stock. cbn [products]. now rewrite lookup_update_eq, Hp.
  - intros k. rewrite units_snoc, (stock_take _ _ _ _ _ Hp). cbn.
    pose proof (si_stock _ _ _ Hinv k). destruct (String.eqb name k); lia.
  - exact (si_sales _ _ _ Hinv).
  - unfold take_stock. cbn [products]. rewrite keys_update. exact (si_keys _ _ _ Hinv).
  - intros Hnil. destruct (fst acc); discriminate.
Qed.

Section SaleLoop.
Context `{PyText}.

(** The fuel given to the loop does not matter once it exceeds the
    number of input lines. *)
Lemma sale_loop_fuel n m acc w :
  (List.length (w_stdin w) < n)%nat -> (List.length (w_stdin w) < m)%nat ->
  sale_loop n acc w = sale_loop m acc w.
Proof.
  revert m acc w. induction n as [|n IH]; intros m acc w Hn Hm; [lia|].
  destruct m as [|m]; [lia|]. cbn [sale_loop]. unfold bind.
  destruct (sale_step acc w) as [r w'] eqn:E.
  destruct (sale_step_run _ _ _ _ E) as (_ & Hread & _).
  destruct r as [[[|] acc']|e]; try reflexivity.
  specialize (Hread _ eq_refl). apply IH; lia.
Qed.

(** With enough fuel the loop lets only [EOFError] escape. *)
Lemma sale_loop_raises n acc w e w' :
  (List.length (w_stdin w) < n)%nat -> sale_loop n acc w = (Raise e, w') -> e = EOFError.
Proof.
  revert acc w. induction n as [|n IH]; intros acc w Hn Hrun; [lia|].
  cbn [sale_loop] in Hrun. unfold bind in Hrun.
  destruct (sale_step acc w) as [r1 w1] eqn:E.
  destruct (sale_step_run _ _ _ _ E) as (Hexc & Hread & _).
  destruct r1 as [[[|] acc']|e1]; inversion Hrun; subst.
  - eapply IH; [|exact Hrun]. specialize (Hread _ eq_refl). lia.
  - exact (Hexc _ eq_refl).
Qed.

Lemma sale_loop_inv d0 n acc w r w' :
  sale_loop n acc w = (r, w') -> sale_inv d0 acc (w_data w) ->
  lsteps d0 (w_data w') /\ (forall acc', r = Ok acc' -> sale_inv d0 acc' (w_data w')).
Proof.
  revert acc w. induction n as [|n IH]; intros acc w Hrun Hinv.
  - inversion Hrun; subst. split; [exact (si_moves _ _ _ Hinv) | discriminate].
  - cbn [sale_loop] in Hrun. unfold bind in Hrun.
    destruct (sale_step acc w) as [r1 w1] eqn:E.
    destruct (sale_step_run _ _ _ _ E) as (_ & _ & [[Hd Hacc]|(name & q & p & Hp & Hq & Hd & Hacc)]).
    + assert (Hinv1 : forall f acc', r1 = Ok (f, acc') -> sale_inv d0 acc' (w_data w1)).
      { intros f acc' ->. rewrite (Hacc _ _ eq_refl), Hd. exact Hinv. }
      destruct r1 as [[[|] acc']|e]; inversion Hrun; subst.
      * split; [rewrite Hd; exact (si_moves _ _ _ Hinv)|]. intros ? [= <-]. exact (Hinv1 _ _ eq_refl).
      * exact (IH _ _ Hrun (Hinv1 _ _ eq_refl)).
      * split; [rewrite Hd; exact (si_moves _ _ _ Hinv) | discriminate].
    + pose proof (sale_inv_take _ _ _ _ _ _ Hinv Hp Hq) as Hinv'. rewrite <- Hd in Hinv'.
      destruct r1 as [[[|] acc']|e]; inversion Hrun; subst.
      * rewrite <- (Hacc _ _ eq_refl) in Hinv'. split; [exact (si_moves _ _ _ Hinv')|].
        intros ? [= <-]. exact Hinv'.
      * rewrite <- (Hacc _ _ eq_refl) in Hinv'. exact (IH _ _ Hrun Hinv').
      * split; [exact (si_moves _ _ _ Hinv') | discriminate].
Qed.
End SaleLoop.

(** ** What the loop prints *)

(** The line [- q X name: €price] printed for an accepted item. *)
Definition item_line (i : item) : msg := Line (item_quantity i) (item_name i) (item_price i).

Definition is_line (m : msg) : bool := match m with Line _ _ _ => true | _ => false end.

Section SaleOutput.
Context `{PyText}.

(** One iteration prints one item line for the item it accepts, and no
    other, and never [VENDITA REGISTRATA]. *)
Lemma sale_step_out acc w f acc' w' :
  sale_step acc w = (Ok (f, acc'), w') ->
  exists o, w_stdout w' = w_stdout w ++ o /\ ~ In (Text msg_registered) o /\
    map item_line (fst acc) ++ filter is_line o = map item_line (fst acc').
Proof.
  intros Hrun. destruct acc as [sale total], w as [d inp out fl].
  unfold sale_step, ask_again, input, int_of in Hrun.
  destruct inp as [|raw [|qs [|ans rest]]]; py_exec Hrun; inversion Hrun; subst; clear Hrun;
    cbn [w_stdout fst]; eexists; (split; [rewrite <- !app_assoc; reflexivity|]);
    (split; [cbn; unfold msg_registered, msg_not_found, msg_unavailable; intuition discriminate|]);
    cbn; rewrite ?map_app, ?app_nil_r; reflexivity.
Qed.

Lemma sale_loop_out n acc w acc' w' :
  sale_loop n acc w = (Ok acc', w') ->
  exists o, w_stdout w' = w_stdout w ++ o /\ ~ In (Text msg_registered) o /\
    map item_line (fst acc) ++ filter is_line o = map item_line (fst acc').
Proof.
  revert acc w. induction n as [|n IH]; intros acc w Hrun; [discriminate|].
  cbn [sale_loop] in Hrun. unfold bind in Hrun.
  destruct (sale_step acc w) as [[[[|] acc1]|e] w1] eqn:E; [| |discriminate].
  - injection Hrun as <- <-. exact (sale_step_out _ _ _ _ _ E).
  - destruct (sale_step_out _ _ _ _ _ E) as (o1 & Ho1 & Hr1 & Hl1).
    destruct (IH _ _ Hrun) as (o2 & Ho2 & Hr2 & Hl2).
    exists (o1 ++ o2). rewrite Ho2, Ho1, app_assoc. split; [reflexivity|].
    split; [rewrite in_app_iff; tauto|]. rewrite filter_app, app_assoc, Hl1. exact Hl2.
Qed.

Lemma record_sale_out acc w r w' :
  record_sale acc w = (r, w') ->
  (fst acc = [] /\ w' = w) \/
  (fst acc <> [] /\ w_stdout w' = w_stdout w ++ [Text msg_registered; Total (snd acc)]).
Proof.
  destruct acc as [[|i l] t]; cbn; intros Hrun; inversion Hrun; subst; auto.
  right. split; [discriminate|]. cbn. now rewrite <- app_assoc.
Qed.
End SaleOutput.

(** ** Product names are case-insensitive *)

Section Names.
Context `{PyText}.

Lemma sale_step_lower acc d raw raw' rest out f :
  py_lower raw = py_lower raw' ->
  sale_step acc (mkWorld d (raw :: rest) out f) = sale_step acc (mkWorld d (raw' :: rest) out f).
Proof.
  intros Hl. destruct acc as [sale total]. unfold sale_step, bind at 1, input.
  cbn [w_stdin w_data w_stdout w_file]. cbv beta iota zeta. now rewrite Hl.
Qed.

(** C26. Product names are case-insensitive (lines 25 and 55 lower-case
    the name read): [aggiungi] and [vendita] started on two name lines
    with the same lower-case form run the same way, whatever the ledger
    and the rest of the input. *)
Theorem names_case_insensitive d raw raw' rest out f :
  py_lower raw = py_lower raw' ->
  add_product (mkWorld d (raw :: rest) out f) = add_product (mkWorld d (raw' :: rest) out f) /\
  register_sale (mkWorld d (raw :: rest) out f) = register_sale (mkWorld d (raw' :: rest) out f).
Proof.
  intros Hl. split.
  - unfold add_product, bind at 1, input. cbn [w_stdin w_data w_stdout w_file]. cbv beta iota zeta.
    now rewrite Hl.
  - unfold register_sale. cbn [w_stdin List.length sale_loop]. unfold bind.
    now rewrite (sale_step_lower _ _ _ _ _ _ _ Hl).
Qed.
End Names.

(** ** [register_sale] *)

Section RegisterSale.
Context `{PyText}.

Lemma record_sale_run acc w r w' :
  record_sale acc w = (r, w') ->
  r = Ok tt /\
  ((fst acc = [] /\ w' = w) \/
   (fst acc <> [] /\ w_data w' = append_sale (mkSale (fst acc) (snd acc)) (w_data w))).
Proof.
  destruct acc as [[|i l] t]; cbn; intros Hrun; inversion Hrun; subst; auto.
  split; [reflexivity|]. right. split; [discriminate | reflexivity].
Qed.

(** Running the loop from the start of the command, with its invariant. *)
Lemma register_sale_loop w r w' :
  register_sale w = (r, w') ->
  exists r1 w1, sale_loop (S (List.length (w_stdin w))) ([], 0%Q) w = (r1, w1) /\
    lsteps (w_data w) (w_data w1) /\
    ((exists e, r1 = Raise e /\ r = Raise e /\ w' = w1) \/
     (exists acc, r1 = Ok acc /\ sale_inv (w_data w) acc (w_data w1) /\ record_sale acc w1 = (r, w'))).
Proof.
  unfold register_sale, bind. intros Hrun.
  destruct (sale_loop (S (List.length (w_stdin w))) ([], 0%Q) w) as [r1 w1] eqn:E.
  destruct (sale_loop_inv (w_data w) _ _ _ _ _ E (sale_inv_start _)) as [Hm Hinv].
  exists r1, w1. split; [reflexivity|]. split; [exact Hm|].
  destruct r1 as [acc|e].
  - right. exists acc. auto.
  - left. inversion Hrun; subst. eauto.
Qed.

(** C11. What a completed [register_sale] prints.  Either no sale is
    recorded, and then no item line [- q X name: €price] and no
    [VENDITA REGISTRATA] is printed; or one sale is recorded, and the
    command prints one item line per item of the sale, in the order the
    items were accepted and with no other item line, and ends with
    [VENDITA REGISTRATA] followed by [Totale: ...] with the sale's
    total, [VENDITA REGISTRATA] appearing nowhere before. *)
Theorem register_sale_printed w w' :
  register_sale w = (Ok tt, w') ->
  exists o, w_stdout w' = w_stdout w ++ o /\
    ((sales (w_data w') = sales (w_data w) /\ filter is_line o = [] /\ ~ In (Text msg_registered) o) \/
     (exists s o1, sales (w_data w') = sales (w_data w) ++ [s] /\
        o = o1 ++ [Text msg_registered; Total (total s)] /\
        filter is_line o1 = map item_line (items s) /\ ~ In (Text msg_registered) o1)).
Proof.
  intros Hrun.
  destruct (register_sale_loop _ _ _ Hrun) as (r1 & w1 & Hloop & _ & [(e & _ & [=] & _)|(acc & -> & Hinv & Hrec)]).
  destruct (sale_loop_out _ _ _ _ _ Hloop) as (o & Ho & Hr & Hl). cbn [fst map app] in Hl.
  destruct (record_sale_out _ _ _ _ Hrec) as [[Hnil ->]|[Hne Hout]].
  - exists o. split; [exact Ho|]. left. split; [exact (si_sales _ _ _ Hinv)|].
    rewrite Hl, Hnil. split; [reflexivity | exact Hr].
  - destruct (record_sale_run _ _ _ _ Hrec) as [_ [[Hnil _]|[_ Hd]]]; [contradiction|].
    exists (o ++ [Text msg_registered; Total (snd acc)]). rewrite Hout, Ho, <- app_assoc. split; [reflexivity|].
    right. exists (mkSale (fst acc) (snd acc)), o. rewrite Hd. cbn [sales append_sale items total].
    rewrite (si_sales _ _ _ Hinv). auto.
Qed.

Lemma register_sale_eof : raises_only (fun e => e = EOFError) register_sale.
Proof.
  intros w e w' Hrun.
  destruct (register_sale_loop _ _ _ Hrun) as (r1 & w1 & E & _ & [(e1 & -> & [= ->] & _)|(acc & _ & _ & Hrec)]).
  - eapply sale_loop_raises; [|exact E]. lia.
  - destruct (record_sale_run _ _ _ _ Hrec) as [[=] _].
Qed.

(** C25. The only exception [register_sale] lets escape is
    [EOFError] (end of input): every [ValueError] is caught, the
    [KeyError] of [data['products'][name]] cannot happen because the
    name was found just before, and the loop never runs out of fuel. *)
Theorem register_sale_raises : raises_only (fun e => e = EOFError) register_sale.
Proof. exact register_sale_eof. Qed.

(** C1. A completed [register_sale] either records nothing and leaves
    the ledger as it was (no item was accepted), or appends exactly one
    new sale, well formed ([total = sum of price * quantity] over its
    non-empty list of items, each at its product's price), and takes
    from every product's stock exactly the units the sale records; no
    product is added or removed and no earlier sale is changed. *)
Theorem register_sale_conserves w w' :
  register_sale w = (Ok tt, w') ->
  w_data w' = w_data w \/
  exists s, sales (w_data w') = sales (w_data w) ++ [s] /\ sale_ok (w_data w') s /\
    Dict.keys (products (w_data w')) = Dict.keys (products (w_data w)) /\
    forall k, stock (w_data w') k + units k (items s) = stock (w_data w) k.
Proof.
  intros Hrun.
  destruct (register_sale_loop _ _ _ Hrun) as (r1 & w1 & _ & _ & [(e & _ & [=] & _)|(acc & _ & Hinv & Hrec)]).
  destruct (record_sale_run _ _ _ _ Hrec) as [_ [[Hnil ->]|[Hne Hd]]].
  - left. exact (si_empty _ _ _ Hinv Hnil).
  - right. exists (mkSale (fst acc) (snd acc)). rewrite Hd. cbn.
    split; [now rewrite (si_sales _ _ _ Hinv)|].
    split; [split; [exact Hne|]; split; [exact (si_items _ _ _ Hinv) | rewrite (si_total _ _ _ Hinv); reflexivity]|].
    split; [exact (si_keys _ _ _ Hinv)|]. intros k. exact (si_stock _ _ _ Hinv k).
Qed.

(** A completed [register_sale] accounts for every unit: what left the
    stock is in the recorded sale. *)
Lemma register_sale_accounted w w' :
  register_sale w = (Ok tt, w') -> forall k, accounted (w_data w') k = accounted (w_data w) k.
Proof.
  intros Hrun k. unfold accounted.
  destruct (register_sale_loop _ _ _ Hrun) as (r1 & w1 & _ & _ & [(e & _ & [=] & _)|(acc & _ & Hinv & Hrec)]).
  destruct (record_sale_run _ _ _ _ Hrec) as [_ [[Hnil ->]|[_ ->]]].
  - now rewrite (si_empty _ _ _ Hinv Hnil).
  - rewrite stock_append, sold_append, (sold_sales _ _ _ (si_sales _ _ _ Hinv)).
    pose proof (si_stock _ _ _ Hinv k). cbn [items]. lia.
Qed.

Lemma register_sale_moves : preserves ledger_moves register_sale.
Proof.
  intros w r w' Hrun. unfold ledger_moves.
  destruct (register_sale_loop _ _ _ Hrun) as (r1 & w1 & _ & Hm & [(e & _ & _ & ->)|(acc & _ & Hinv & Hrec)]);
    [exact Hm|].
  destruct (record_sale_run _ _ _ _ Hrec) as [_ [[_ ->]|[Hne ->]]]; [exact Hm|].
  eapply lsteps_trans; [exact Hm|]. apply lsteps_one, lstep_record.
  split; [exact Hne|]. split; [exact (si_items _ _ _ Hinv) | cbn; rewrite (si_total _ _ _ Hinv); reflexivity].
Qed.

(** C29. Every run of [register_sale], also one interrupted by
    [EOFError] after stock was reserved, keeps the ledger well formed:
    no stock becomes negative, prices and costs stay positive, and
    every recorded sale is well formed. *)
Theorem register_sale_wf w r w' :
  wf (w_data w) -> register_sale w = (r, w') -> wf (w_data w').
Proof. intros Hwf Hrun. exact (lsteps_wf _ _ (register_sale_moves _ _ _ Hrun) Hwf). Qed.
End RegisterSale.

Section SaleRuns.
Context `{PyText}.

(** C20. Asking for more units than are in stock changes nothing: the
    ledger, the file and the loop variables are unchanged, [Quantità
    non disponibile.] is printed, and the loop restarts from the
    product name. *)
Theorem sale_step_unavailable acc w raw qs rest q p :
  w_stdin w = raw :: qs :: rest ->
  Dict.lookup (py_lower raw) (products (w_data w)) = Some p ->
  py_int qs = Some q -> 0 < q -> quantity p < q ->
  sale_step acc w =
    (Ok (Continue, acc),
     mkWorld (w_data w) rest
       (w_stdout w ++ [Prompt "Nome del prodotto: "; Prompt "Quantità: "; Text msg_unavailable])
       (w_file w)).
Proof.
  destruct acc as [sale total], w as [d i o f]; cbn [w_stdin w_data w_stdout w_file fst snd]. intros -> Hp Hq Hpos Hgt.
  assert (Hmem : Dict.mem (py_lower raw) (products d) = true) by (unfold Dict.mem; now rewrite Hp).
  destruct (sale_step (sale, total) (mkWorld d (raw :: qs :: rest) o f)) as [r w'] eqn:Hrun.
  unfold sale_step, ask_again, input, int_of in Hrun.
  py_exec Hrun; py_bool; unify_some; try congruence; try lia.
  inversion Hrun; subst. now rewrite <- !app_assoc.
Qed.

Lemma sale_step_take_break acc w raw qs ans rest q p :
  w_stdin w = raw :: qs :: ans :: rest ->
  Dict.lookup (py_lower raw) (products (w_data w)) = Some p ->
  py_int qs = Some q -> 0 < q <= quantity p -> py_lower ans <> "si"%string ->
  sale_step acc w =
    (Ok (Break, (fst acc ++ [mkItem (py_lower raw) q (price p)], (snd acc + price p * inject_Z q)%Q)),
     mkWorld (take_stock (py_lower raw) q (w_data w)) rest
       (w_stdout w ++ [Prompt "Nome del prodotto: "; Prompt "Quantità: "; Line q (py_lower raw) (price p);
                       Prompt "Aggiungere un altro prodotto ? (si/no): "])
       (w_file w)).
Proof.
  destruct acc as [sale total], w as [d i o f]; cbn [w_stdin w_data w_stdout w_file fst snd]. intros -> Hp Hq Hpos Hans.
  assert (Hmem : Dict.mem (py_lower raw) (products d) = true) by (unfold Dict.mem; now rewrite Hp).
  destruct (sale_step (sale, total) (mkWorld d (raw :: qs :: ans :: rest) o f)) as [r w'] eqn:Hrun.
  unfold sale_step, ask_again, input, int_of in Hrun.
  py_exec Hrun; py_bool; unify_some; try congruence; try lia.
  inversion Hrun; subst. now rewrite <- !app_assoc.
Qed.

(** The whole run of [register_sale] that sells one item. *)
Lemma register_sale_one_item_run w raw qs ans rest q p :
  w_stdin w = raw :: qs :: ans :: rest ->
  Dict.lookup (py_lower raw) (products (w_data w)) = Some p ->
  py_int qs = Some q -> 0 < q <= quantity p -> py_lower ans <> "si"%string ->
  register_sale w =
    (Ok tt, mkWorld (append_sale (mkSale [mkItem (py_lower raw) q (price p)] (0 + price p * inject_Z q)%Q)
                                 (take_stock (py_lower raw) q (w_data w))) rest
              (w_stdout w ++ [Prompt "Nome del prodotto: "; Prompt "Quantità: ";
                              Line q (py_lower raw) (price p);
                              Prompt "Aggiungere un altro prodotto ? (si/no): ";
                              Text msg_registered; Total (0 + price p * inject_Z q)%Q])
              (w_file w)).
Proof.
  intros Hin Hp Hq Hpos Hans. unfold register_sale. rewrite Hin. cbn [List.length sale_loop].
  unfold bind at 1. unfold bind at 1.
  rewrite (sale_step_take_break ([], 0%Q) w raw qs ans rest q p Hin Hp Hq Hpos Hans).
  cbn. unfold print, modify. cbn. now rewrite <- !app_assoc.
Qed.

(** C19. Selling [q] units of a product with [q] at most its stock,
    then answering anything but [si], decreases the product's stock by
    [q], keeps its cost and price, appends one sale with the single
    item [(name, q, price)] and total [0 + price * q], and prints the
    line, [VENDITA REGISTRATA] and the total. *)
Theorem register_sale_one_item w raw qs ans rest q p :
  w_stdin w = raw :: qs :: ans :: rest ->
  Dict.lookup (py_lower raw) (products (w_data w)) = Some p ->
  py_int qs = Some q -> 0 < q <= quantity p -> py_lower ans <> "si"%string ->
  exists w', register_sale w = (Ok tt, w') /\ w_stdin w' = rest /\ w_file w' = w_file w /\
    Dict.lookup (py_lower raw) (products (w_data w')) =
      Some (mkProduct (quantity p - q) (cost p) (price p)) /\
    sales (w_data w') =
      sales (w_data w) ++ [mkSale [mkItem (py_lower raw) q (price p)] (0 + price p * inject_Z q)%Q] /\
    w_stdout w' = w_stdout w ++ [Prompt "Nome del prodotto: "; Prompt "Quantità: ";
                                 Line q (py_lower raw) (price p);
                                 Prompt "Aggiungere un altro prodotto ? (si/no): ";
                                 Text msg_registered; Total (0 + price p * inject_Z q)%Q].
Proof.
  intros Hin Hp Hq Hpos Hans.
  eexists. split; [exact (register_sale_one_item_run w raw qs ans rest q p Hin Hp Hq Hpos Hans)|].
  cbn. split; [reflexivity|]. split; [reflexivity|].
  split; [now rewrite lookup_update_eq, Hp|]. split; reflexivity.
Qed.

Lemma sale_step_take_continue acc w raw qs ans rest q p :
  w_stdin w = raw :: qs :: ans :: rest ->
  Dict.lookup (py_lower raw) (products (w_data w)) = Some p ->
  py_int qs = Some q -> 0 < q <= quantity p -> py_lower ans = "si"%string ->
  exists w', sale_step acc w =
    (Ok (Continue, (fst acc ++ [mkItem (py_lower raw) q (price p)], (snd acc + price p * inject_Z q)%Q)), w') /\
    w_data w' = take_stock (py_lower raw) q (w_data w) /\ w_stdin w' = rest.
Proof.
  destruct acc as [sale total], w as [d i o f]; cbn [w_stdin w_data w_stdout w_file fst snd]. intros -> Hp Hq Hpos Hans.
  assert (Hmem : Dict.mem (py_lower raw) (products d) = true) by (unfold Dict.mem; now rewrite Hp).
  destruct (sale_step (sale, total) (mkWorld d (raw :: qs :: ans :: rest) o f)) as [r w'] eqn:Hrun.
  unfold sale_step, ask_again, input, int_of in Hrun.
  py_exec Hrun; py_bool; unify_some; try congruence; try lia.
  inversion Hrun; subst. eexists. split; [reflexivity | split; reflexivity].
Qed.

Lemma sale_step_not_found_break acc w raw ans rest :
  w_stdin w = raw :: ans :: rest ->
  Dict.mem (py_lower raw) (products (w_data w)) = false -> py_lower ans <> "si"%string ->
  exists w', sale_step acc w = (Ok (Break, acc), w') /\ w_data w' = w_data w /\ w_stdin w' = rest.
Proof.
  destruct acc as [sale total], w as [d i o f]; cbn [w_stdin w_data w_stdout w_file fst snd]. intros -> Hmem Hans.
  destruct (sale_step (sale, total) (mkWorld d (raw :: ans :: rest) o f)) as [r w'] eqn:Hrun.
  unfold sale_step, ask_again, input in Hrun.
  py_exec Hrun; py_bool; unify_some; try congruence.
  inversion Hrun; subst. eexists. split; [reflexivity | split; reflexivity].
Qed.

(** C37. Answering anything but [si] after [Prodotto non trovato.]
    ends the loop but does not abandon the sale: the items accepted
    before are recorded as a sale (line 79 runs after the [break]). *)
Theorem register_sale_not_found_keeps_items w raw qs ans raw2 ans2 rest q p :
  w_stdin w = raw :: qs :: ans :: raw2 :: ans2 :: rest ->
  Dict.lookup (py_lower raw) (products (w_data w)) = Some p ->
  py_int qs = Some q -> 0 < q <= quantity p -> py_lower ans = "si"%string ->
  Dict.mem (py_lower raw2) (products (w_data w)) = false -> py_lower ans2 <> "si"%string ->
  exists w', register_sale w = (Ok tt, w') /\
    sales (w_data w') =
      sales (w_data w) ++ [mkSale [mkItem (py_lower raw) q (price p)] (0 + price p * inject_Z q)%Q].
Proof.
  intros Hin Hp Hq Hpos Hans Hm2 Hans2.
  destruct (sale_step_take_continue ([], 0%Q) w raw qs ans (raw2 :: ans2 :: rest) q p Hin Hp Hq Hpos Hans)
    as (w1 & H1 & Hd1 & Hi1).
  cbn [fst snd app] in H1.
  assert (Hm2' : Dict.mem (py_lower raw2) (products (w_data w1)) = false)
    by (rewrite Hd1; cbn [take_stock products]; now rewrite mem_update).
  destruct (sale_step_not_found_break ([mkItem (py_lower raw) q (price p)], (0 + price p * inject_Z q)%Q)
              w1 raw2 ans2 rest Hi1 Hm2' Hans2)
    as (w2 & H2 & Hd2 & _).
  unfold register_sale. rewrite Hin. cbn [List.length sale_loop].
  unfold bind at 1. unfold bind at 1. rewrite H1. cbn [sale_loop].
  unfold bind at 1. rewrite H2. cbn.
  eexists. split; [reflexivity|]. cbn. rewrite Hd2, Hd1. reflexivity.
Qed.

Lemma sale_step_take_eof acc w raw qs q p :
  w_stdin w = [raw; qs] ->
  Dict.lookup (py_lower raw) (products (w_data w)) = Some p ->
  py_int qs = Some q -> 0 < q <= quantity p ->
  exists w', sale_step acc w = (Raise EOFError, w') /\ w_data w' = take_stock (py_lower raw) q (w_data w).
Proof.
  destruct acc as [sale total], w as [d i o f]; cbn [w_stdin w_data w_stdout w_file fst snd]. intros -> Hp Hq Hpos.
  assert (Hmem : Dict.mem (py_lower raw) (products d) = true) by (unfold Dict.mem; now rewrite Hp).
  destruct (sale_step (sale, total) (mkWorld d [raw; qs] o f)) as [r w'] eqn:Hrun.
  unfold sale_step, ask_again, input, int_of in Hrun.
  py_exec Hrun; py_bool; unify_some; try congruence; try lia.
  inversion Hrun; subst. eexists. split; reflexivity.
Qed.

(** C36. When the input ends right after an item was accepted, before
    the answer to [Aggiungere un altro prodotto ?], [register_sale]
    raises [EOFError] with the units already taken from the stock and
    no sale recorded: the ledger in memory no longer satisfies
    "stock + units sold = stock before" (the file is not rewritten,
    see [main_durable]). *)
Theorem register_sale_eof_after_item w raw qs q p :
  w_stdin w = [raw; qs] ->
  Dict.lookup (py_lower raw) (products (w_data w)) = Some p ->
  py_int qs = Some q -> 0 < q <= quantity p ->
  exists w', register_sale w = (Raise EOFError, w') /\
    stock (w_data w') (py_lower raw) = quantity p - q /\ sales (w_data w') = sales (w_data w).
Proof.
  intros Hin Hp Hq Hpos.
  destruct (sale_step_take_eof ([], 0%Q) w raw qs q p Hin Hp Hq Hpos) as (w' & Hrun & Hd).
  exists w'. unfold register_sale. rewrite Hin. cbn [List.length sale_loop].
  unfold bind at 1. unfold bind at 1. rewrite Hrun. split; [reflexivity|].
  rewrite Hd, (stock_take _ _ _ _ _ Hp), String.eqb_refl. unfold stock. rewrite Hp.
  split; [lia | reflexivity].
Qed.
End SaleRuns.

(** ** The loop against the reference semantics of [while True] *)

Section SaleWhile.
Context `{PyText}.

Lemma sale_loop_while_fuel n acc w : sale_loop n acc w = while_fuel sale_step n acc w.
Proof.
  revert acc w. induction n as [|n IH]; intros acc w; [reflexivity|].
  rewrite while_fuel_S. cbn [sale_loop]. unfold bind.
  destruct (sale_step acc w) as [[[[|] acc'] | e] w1]; [reflexivity | apply IH | reflexivity].
Qed.

Lemma sale_step_progress acc w acc' w' :
  sale_step acc w = (Ok (Continue, acc'), w') -> (List.length (w_stdin w') < List.length (w_stdin w))%nat.
Proof. intros E. exact (proj1 (proj2 (sale_step_run _ _ _ _ E)) _ eq_refl). Qed.

(** The loop of [register_sale], with the fuel [register_sale] gives
    it, computes the big-step semantics of [while True] over its body
    [sale_step]. *)
Lemma sale_loop_sem acc w r w' :
  sale_loop (S (List.length (w_stdin w))) acc w = (r, w') <-> while_sem sale_step acc w r w'.
Proof.
  rewrite sale_loop_while_fuel.
  apply (while_fuel_equiv sale_step (fun w => List.length (w_stdin w))); [exact sale_step_progress | lia].
Qed.

End SaleWhile.

(** ** Bounds on the stock *)

Lemma stock_nonneg d k : wf d -> 0 <= stock d k.
Proof.
  intros Hwf. unfold stock. destruct (Dict.lookup k (products d)) as [p|] eqn:Hp; [|lia].
  exact (proj1 (wf_products _ Hwf _ _ Hp)).
Qed.

Section StockBounds.
Context `{PyText}.

Lemma sale_step_stock_le acc w r w' :
  sale_step acc w = (r, w') -> forall k, stock (w_data w') k <= stock (w_data w) k.
Proof.
  intros E k. destruct (sale_step_run _ _ _ _ E) as (_ & _ & [[-> _]|(name & q & p & Hp & Hq & -> & _)]); [lia|].
  rewrite (stock_take _ _ _ _ _ Hp). destruct (String.eqb name k); lia.
Qed.

Lemma sale_loop_stock_le acc w r w' :
  sale_loop (S (List.length (w_stdin w))) acc w = (r, w') ->
  forall k, stock (w_data w') k <= stock (w_data w) k.
Proof.
  intros E k. apply sale_loop_sem in E.
  apply (while_sem_ind_inv sale_step (fun _ w1 => stock (w_data w1) k <= stock (w_data w) k)
                           (fun _ w1 => stock (w_data w1) k <= stock (w_data w) k)) with acc w r;
    [| | | exact E | lia];
    intros ? ? ? ? Hle Hs; pose proof (sale_step_stock_le _ _ _ _ Hs k); lia.
Qed.

(** C12. Stock bounds of [register_sale] on a well-formed ledger, on
    every run, also one interrupted by the end of input: the stock of
    every product stays non-negative and never grows. *)
Theorem register_sale_stock_bounds w r w' :
  wf (w_data w) -> register_sale w = (r, w') ->
  forall k, 0 <= stock (w_data w') k <= stock (w_data w) k.
Proof.
  intros Hwf Hrun k. split; [exact (stock_nonneg _ k (lsteps_wf _ _ (register_sale_moves _ _ _ Hrun) Hwf))|].
  destruct (register_sale_loop _ _ _ Hrun) as (r1 & w1 & E & _ & [(e & _ & _ & ->)|(acc & _ & _ & Hrec)]);
    pose proof (sale_loop_stock_le _ _ _ _ E k); [lia|].
  destruct (record_sale_run _ _ _ _ Hrec) as [_ [[_ ->]|[_ ->]]]; [lia|]. rewrite stock_append. lia.
Qed.
End StockBounds.

(** ** Witnesses on the ASCII instance

    Sales on [example_ledger] (tofu: 3 units at cost 2, price 7/2). *)

Local Open Scope string_scope.
Local Open Scope list_scope.

Lemma register_sale_conserves_witness :
  register_sale (mkWorld example_ledger ["Tofu"; "2"; "no"] [] NoFile) =
    (Ok tt, snd (register_sale (mkWorld example_ledger ["Tofu"; "2"; "no"] [] NoFile))) /\
  (w_data (snd (register_sale (mkWorld example_ledger ["Tofu"; "2"; "no"] [] NoFile))) = example_ledger \/
   exists s,
     sales (w_data (snd (register_sale (mkWorld example_ledger ["Tofu"; "2"; "no"] [] NoFile)))) =
       sales example_ledger ++ [s] /\
     sale_ok (w_data (snd (register_sale (mkWorld example_ledger ["Tofu"; "2"; "no"] [] NoFile)))) s /\
     Dict.keys (products (w_data (snd (register_sale (mkWorld example_ledger ["Tofu"; "2"; "no"] [] NoFile))))) =
       Dict.keys (products example_ledger) /\
     forall k, (stock (w_data (snd (register_sale (mkWorld example_ledger ["Tofu"; "2"; "no"] [] NoFile)))) k
                + units k (items s) = stock example_ledger k)%Z).
Proof.
  assert (H : register_sale (mkWorld example_ledger ["Tofu"; "2"; "no"] [] NoFile) =
    (Ok tt, snd (register_sale (mkWorld example_ledger ["Tofu"; "2"; "no"] [] NoFile)))) by (vm_compute; reflexivity).
  split; [exact H | exact (register_sale_conserves _ _ H)].
Defined.

Lemma register_sale_one_item_witness :
  exists w', register_sale (mkWorld example_ledger ["Tofu"; "2"; "no"] [] NoFile) = (Ok tt, w') /\
    Dict.lookup "tofu" (products (w_data w')) = Some (mkProduct 1 (2#1) (7#2)).
Proof.
  destruct (register_sale_one_item (mkWorld example_ledger ["Tofu"; "2"; "no"] [] NoFile) "Tofu" "2" "no" []
              2 (mkProduct 3 (2#1) (7#2)) ltac:(vm_compute; reflexivity) ltac:(vm_compute; reflexivity) ltac:(vm_compute; reflexivity) ltac:(cbn; lia)
              ltac:(intros Hs; vm_compute in Hs; discriminate Hs))
    as (w' & H1 & _ & _ & H4 & _).
  exists w'. split; [exact H1 | exact H4].
Defined.

Lemma sale_step_unavailable_witness :
  sale_step ([], 0%Q) (mkWorld example_ledger ["Tofu"; "5"] [] NoFile) =
    (Ok (Continue, ([], 0%Q)),
     mkWorld example_ledger [] [Prompt "Nome del prodotto: "; Prompt "Quantità: "; Text msg_unavailable] NoFile).
Proof.
  exact (sale_step_unavailable ([], 0%Q) (mkWorld example_ledger ["Tofu"; "5"] [] NoFile) "Tofu" "5" []
           5 (mkProduct 3 (2#1) (7#2)) ltac:(vm_compute; reflexivity) ltac:(vm_compute; reflexivity) ltac:(vm_compute; reflexivity) ltac:(cbn; lia) ltac:(cbn; lia)).
Defined.

Lemma register_sale_raises_witness :
  exists e w', register_sale (mkWorld example_ledger ["Tofu"; "2"] [] NoFile) = (Raise e, w') /\ e = EOFError.
Proof.
  exists EOFError, (snd (register_sale (mkWorld example_ledger ["Tofu"; "2"] [] NoFile))).
  assert (H : register_sale (mkWorld example_ledger ["Tofu"; "2"] [] NoFile) =
    (Raise EOFError, snd (register_sale (mkWorld example_ledger ["Tofu"; "2"] [] NoFile)))) by (vm_compute; reflexivity).
  split; [exact H | exact (register_sale_raises _ _ _ H)].
Defined.

Lemma register_sale_wf_witness :
  wf (w_data (snd (register_sale (mkWorld example_ledger ["Tofu"; "2"] [] NoFile)))).
Proof.
  apply (register_sale_wf (mkWorld example_ledger ["Tofu"; "2"] [] NoFile)
           (fst (register_sale (mkWorld example_ledger ["Tofu"; "2"] [] NoFile)))).
  - apply wfb_wf. vm_compute. reflexivity.
  - vm_compute. reflexivity.
Defined.

Lemma register_sale_eof_after_item_witness :
  exists w', register_sale (mkWorld example_ledger ["Tofu"; "2"] [] NoFile) = (Raise EOFError, w') /\
    stock (w_data w') "tofu" = 1%Z /\ sales (w_data w') = sales example_ledger.
Proof.
  destruct (register_sale_eof_after_item (mkWorld example_ledger ["Tofu"; "2"] [] NoFile) "Tofu" "2"
              2 (mkProduct 3 (2#1) (7#2)) ltac:(vm_compute; reflexivity) ltac:(vm_compute; reflexivity) ltac:(vm_compute; reflexivity) ltac:(cbn; lia)) as (w' & H1 & H2 & H3).
  exists w'. split; [exact H1|]. split; [exact H2 | exact H3].
Defined.

Lemma register_sale_not_found_keeps_items_witness :
  exists w', register_sale (mkWorld example_ledger ["Tofu"; "1"; "si"; "tempeh"; "no"] [] NoFile) = (Ok tt, w') /\
    sales (w_data w') = sales example_ledger ++ [mkSale [mkItem "tofu" 1 (7#2)] (0 + (7#2) * inject_Z 1)%Q].
Proof.
  destruct (@register_sale_not_found_keeps_items ascii_text (mkWorld example_ledger ["Tofu"; "1"; "si"; "tempeh"; "no"] [] NoFile)
              "Tofu" "1" "si" "tempeh" "no" [] 1 (mkProduct 3 (2#1) (7#2)) eq_refl
              ltac:(vm_compute; reflexivity) ltac:(vm_compute; reflexivity) ltac:(cbn; lia)
              ltac:(vm_compute; reflexivity) ltac:(vm_compute; reflexivity)
              ltac:(intros Hs; vm_compute in Hs; discriminate Hs)) as (w' & H1 & H2).
  exists w'. split; [exact H1|]. rewrite H2. vm_compute. reflexivity.
Defined.

Lemma register_sale_stock_bounds_witness :
  (0 <= stock (w_data (snd (register_sale (mkWorld example_ledger ["Tofu"; "2"; "si"; "Tofu"; "1"] [] NoFile)))) "tofu"
   <= stock example_ledger "tofu")%Z.
Proof.
  assert (Hrun : register_sale (mkWorld example_ledger ["Tofu"; "2"; "si"; "Tofu"; "1"] [] NoFile) =
    (fst (register_sale (mkWorld example_ledger ["Tofu"; "2"; "si"; "Tofu"; "1"] [] NoFile)),
     snd (register_sale (mkWorld example_ledger ["Tofu"; "2"; "si"; "Tofu"; "1"] [] NoFile)))) by (vm_compute; reflexivity).
  assert (Hwf : wf example_ledger) by (apply wfb_wf; vm_compute; reflexivity).
  exact (register_sale_stock_bounds (mkWorld example_ledger ["Tofu"; "2"; "si"; "Tofu"; "1"] [] NoFile) _ _ Hwf Hrun "tofu").
Defined.

Lemma register_sale_printed_witness :
  exists o, w_stdout (snd (register_sale (mkWorld example_ledger ["Tofu"; "1"; "si"; "TOFU"; "1"; "no"] [] NoFile))) = w_stdout (mkWorld example_ledger ["Tofu"; "1"; "si"; "TOFU"; "1"; "no"] [] NoFile) ++ o /\
    ((sales (w_data (snd (register_sale (mkWorld example_ledger ["Tofu"; "1"; "si"; "TOFU"; "1"; "no"] [] NoFile)))) = sales (w_data (mkWorld example_ledger ["Tofu"; "1"; "si"; "TOFU"; "1"; "no"] [] NoFile)) /\ filter is_line o = [] /\ ~ In (Text msg_registered) o) \/
     (exists s o1, sales (w_data (snd (register_sale (mkWorld example_ledger ["Tofu"; "1"; "si"; "TOFU"; "1"; "no"] [] NoFile)))) = sales (w_data (mkWorld example_ledger ["Tofu"; "1"; "si"; "TOFU"; "1"; "no"] [] NoFile)) ++ [s] /\
        o = o1 ++ [Text msg_registered; Total (total s)] /\
        filter is_line o1 = map item_line (items s) /\ ~ In (Text msg_registered) o1)).
Proof.
  assert (Hrun : register_sale (mkWorld example_ledger ["Tofu"; "1"; "si"; "TOFU"; "1"; "no"] [] NoFile) = (Ok tt, (snd (register_sale (mkWorld example_ledger ["Tofu"; "1"; "si"; "TOFU"; "1"; "no"] [] NoFile))))) by (vm_compute; reflexivity).
  exact (register_sale_printed _ _ Hrun).
Defined.

Lemma names_case_insensitive_witness :
  add_product (mkWorld example_ledger ["TOFU"; "2"] [] NoFile) = add_product (mkWorld example_ledger ["Tofu"; "2"] [] NoFile) /\
  register_sale (mkWorld example_ledger ["TOFU"; "2"; "no"] [] NoFile) =
    register_sale (mkWorld example_ledger ["Tofu"; "2"; "no"] [] NoFile).
Proof.
  assert (Hl : py_lower "TOFU" = py_lower "Tofu") by reflexivity.
  split; [apply (proj1 (names_case_insensitive example_ledger "TOFU" "Tofu" ["2"] [] NoFile Hl))
         | apply (proj2 (names_case_insensitive example_ledger "TOFU" "Tofu" ["2"; "no"] [] NoFile Hl))].
Defined.
