(* ===== verification/Profits.v ===== *)
(** * Profits: [show_profits] of src/main.py

    [show_profits] computes [gross_profit = sum(sale['total'] for sale in
    data['sales'])] and subtracts, for every item of every sale, its
    quantity times the {i current} cost of its product, looked up in
    [data['products']] (a [KeyError] if the product is missing).  The
    sums are Python's [sum] over generators: accumulated from [0] in
    order, and stopped by the first exception.

    Theorems: on a well-formed ledger no [KeyError] can occur and the net
    profit is the sum over all sold items of [quantity * (price - cost)];
    on a ledger whose sales name a missing product the command raises
    [KeyError] and prints nothing.  The refinement theorem compares the
    code with the specification that charges each item the cost its
    product had when the sale was recorded (spec, section 9): along every
    run of the ledger's transitions the two agree, because no transition
    changes a cost.  Bounds: the printed gross profit is non-negative
    and the net profit never exceeds it. *)

From S2P Require Import Prelude Builtins Ledger Persistence World.
Local Open Scope Q_scope.
Local Open Scope py_scope.

(** [sum(f(x) for x in l)] on numbers that cannot fail. *)
Definition qsum {A} (f : A -> Q) (l : list A) : Q :=
  fold_left (fun acc x => acc + f x) l 0.

(** [sum(f(x) for x in l)] where computing [f(x)] may raise: the first
    exception, in list order, ends the sum. *)
Definition sum_step {A} (f : A -> res Q) (acc : res Q) (x : A) : res Q :=
  match acc with
  | Raise e => Raise e
  | Ok a => match f x with Ok v => Ok (a + v) | Raise e => Raise e end
  end.

Definition sum_res {A} (f : A -> res Q) (l : list A) : res Q := fold_left (sum_step f) l (Ok 0).

(** [item['quantity'] * data['products'][item['name']]['cost']] *)
Definition item_cost (ps : Dict.t product) (i : item) : res Q :=
  match Dict.lookup (item_name i) ps with
  | Some p => Ok (inject_Z (item_quantity i) * cost p)
  | None => Raise (KeyError (item_name i))
  end.

(** [sum(sale['total'] for sale in data['sales'])] *)
Definition gross_profit (ss : list sale) : Q := qsum total ss.

(** [sum(sum(... for item in sale['items']) for sale in data['sales'])] *)
Definition cost_of_sales (ps : Dict.t product) (ss : list sale) : res Q :=
  sum_res (fun s => sum_res (item_cost ps) (items s)) ss.

Definition show_profits : PyM world unit :=
  let* d := get_data in
  let gross := gross_profit (sales d) in
  match cost_of_sales (products d) (sales d) with
  | Raise e => throw e
  | Ok c => print (Profit gross (gross - c))
  end.

(** ** Sums *)

Lemma qsum_acc {A} (f : A -> Q) l a :
  fold_left (fun acc x => acc + f x) l a == a + qsum f l.
Proof.
  unfold qsum. revert a. induction l as [|x l IH]; intros a; cbn; [ring|].
  rewrite IH, (IH (0 + f x)). ring.
Qed.

Lemma qsum_cons {A} (f : A -> Q) x l : qsum f (x :: l) == f x + qsum f l.
Proof. unfold qsum at 1. cbn. rewrite qsum_acc. ring. Qed.

Lemma qsum_nil {A} (f : A -> Q) : qsum f [] = 0.
Proof. reflexivity. Qed.

#[export] Instance qsum_proper {A} :
  Proper (pointwise_relation A Qeq ==> eq ==> Qeq) (@qsum A).
Proof.
  intros f g Hfg l ? <-. induction l as [|x l IH]; [reflexivity|].
  rewrite !qsum_cons, IH, (Hfg x). reflexivity.
Qed.

Lemma qsum_plus {A} (f g : A -> Q) l : qsum (fun x => f x + g x) l == qsum f l + qsum g l.
Proof. induction l as [|x l IH]; [reflexivity|]. rewrite !qsum_cons, IH. ring. Qed.

Lemma qsum_minus {A} (f g : A -> Q) l : qsum (fun x => f x - g x) l == qsum f l - qsum g l.
Proof. induction l as [|x l IH]; [reflexivity|]. rewrite !qsum_cons, IH. ring. Qed.

Lemma qsum_app {A} (f : A -> Q) l l' : qsum f (l ++ l') == qsum f l + qsum f l'.
Proof. induction l as [|x l IH]; cbn [app]; [rewrite qsum_nil; ring|]. rewrite !qsum_cons, IH. ring. Qed.

Lemma sum_res_ok {A} (f : A -> res Q) (g : A -> Q) l :
  (forall x, In x l -> f x = Ok (g x)) -> sum_res f l = Ok (qsum g l).
Proof.
  unfold sum_res, qsum. generalize 0 as a. induction l as [|x l IH]; intros a Hf; [reflexivity|].
  cbn. rewrite (Hf x (or_introl eq_refl)). apply IH. intros y Hy. apply Hf. now right.
Qed.

Lemma sum_res_raise_acc {A} (f : A -> res Q) l e :
  fold_left (sum_step f) l (Raise e) = Raise e.
Proof. induction l; cbn; auto. Qed.

#[export] Hint Rewrite @qsum_cons @qsum_app @qsum_plus @qsum_minus : ledger_rw.

Lemma qsum_ext_in {A} (f g : A -> Q) l :
  (forall x, In x l -> f x == g x) -> qsum f l == qsum g l.
Proof.
  induction l as [|x l IH]; intros Hfg; [reflexivity|].
  rewrite !qsum_cons, (Hfg x (or_introl eq_refl)), IH; [reflexivity|]. intros y Hy. apply Hfg. now right.
Qed.

Lemma qsum_nonneg {A} (f : A -> Q) l : (forall x, In x l -> 0 <= f x) -> 0 <= qsum f l.
Proof.
  induction l as [|x l IH]; intros Hf; [apply Qle_refl|]. rewrite qsum_cons.
  pose proof (Hf x (or_introl eq_refl)). assert (0 <= qsum f l) by (apply IH; intros y Hy; apply Hf; now right).
  lra.
Qed.

Lemma qsum_pos {A} (f : A -> Q) l : l <> [] -> (forall x, In x l -> 0 < f x) -> 0 < qsum f l.
Proof.
  destruct l as [|x l]; [congruence|]. intros _ Hf. rewrite qsum_cons.
  assert (0 <= qsum f l) by (apply qsum_nonneg; intros y Hy; apply Qlt_le_weak, Hf; now right).
  pose proof (Hf x (or_introl eq_refl)). lra.
Qed.

(** The current cost of the product an item sells ([0] if none). *)
Definition cost_of (d : data) (i : item) : Q :=
  match Dict.lookup (item_name i) (products d) with Some p => cost p | None => 0 end.

(** The cost of all sold items at the current costs. *)
Definition sold_cost (d : data) : Q :=
  qsum (fun s => qsum (fun i => inject_Z (item_quantity i) * cost_of d i) (items s)) (sales d).

Lemma item_cost_ok d i :
  item_ok d i -> item_cost (products d) i = Ok (inject_Z (item_quantity i) * cost_of d i).
Proof. intros [_ (p & Hp & _)]. unfold item_cost, cost_of. now rewrite Hp. Qed.

(** On a well-formed ledger the cost of all sales is computed without
    error. *)
Lemma cost_of_sales_ok d :
  wf d -> cost_of_sales (products d) (sales d) =
          Ok (qsum (fun s => qsum (fun i => inject_Z (item_quantity i) * cost_of d i) (items s)) (sales d)).
Proof.
  intros Hwf. apply sum_res_ok. intros s Hs. apply sum_res_ok. intros i Hi.
  apply item_cost_ok. pose proof (proj1 (Forall_forall _ _) (wf_sales d Hwf) s Hs) as (_ & Hall & _).
  exact (proj1 (Forall_forall _ _) Hall i Hi).
Qed.

(** The whole run of [show_profits] on a well-formed ledger. *)
Lemma show_profits_run w :
  wf (w_data w) ->
  show_profits w =
    (Ok tt, mkWorld (w_data w) (w_stdin w)
              (w_stdout w ++ [Profit (gross_profit (sales (w_data w)))
                                     (gross_profit (sales (w_data w)) - sold_cost (w_data w))])
              (w_file w)).
Proof. intros Hwf. unfold show_profits, bind, get_data, gets. cbn [fst snd]. now rewrite (cost_of_sales_ok _ Hwf). Qed.

Lemma gross_profit_snoc l s : gross_profit (l ++ [s]) == gross_profit l + total s.
Proof. unfold gross_profit. rewrite qsum_app, qsum_cons, qsum_nil. ring. Qed.

(** C7. On a well-formed ledger [show_profits] never raises: it prints
    the gross profit, equal to the sum of [price * quantity] over all
    sold items, and the net profit, equal to the sum over all sold items
    of [quantity * (price - current cost)]; nothing else changes. *)
Theorem show_profits_net w :
  wf (w_data w) ->
  exists gross net,
    show_profits w = (Ok tt, mkWorld (w_data w) (w_stdin w) (w_stdout w ++ [Profit gross net]) (w_file w)) /\
    gross == qsum (fun s => qsum (fun i => item_price i * inject_Z (item_quantity i)) (items s)) (sales (w_data w)) /\
    net == qsum (fun s => qsum (fun i => inject_Z (item_quantity i) * (item_price i - cost_of (w_data w) i))
                              (items s)) (sales (w_data w)).
Proof.
  intros Hwf. unfold show_profits, bind, get_data, gets. cbn [fst snd].
  rewrite (cost_of_sales_ok _ Hwf). unfold print, modify.
  assert (Hg : gross_profit (sales (w_data w)) ==
               qsum (fun s => qsum (fun i => item_price i * inject_Z (item_quantity i)) (items s)) (sales (w_data w))).
  { apply qsum_ext_in. intros s Hs.
    destruct (proj1 (Forall_forall _ _) (wf_sales _ Hwf) s Hs) as (_ & _ & Ht). exact Ht. }
  do 2 eexists. split; [reflexivity|]. split; [exact Hg|].
  rewrite Hg, <- qsum_minus. apply qsum_ext_in. intros s _.
  rewrite <- qsum_minus. apply qsum_ext_in. intros i _. ring.
Qed.

Lemma inject_Z_pos z : (0 < z)%Z -> 0 < inject_Z z.
Proof. intros Hz. change 0 with (inject_Z 0). rewrite <- Zlt_Qlt. exact Hz. Qed.

(** On a well-formed ledger every sold item has a positive subtotal and
    a positive cost. *)
Lemma item_ok_pos d i :
  wf d -> item_ok d i ->
  0 < item_price i * inject_Z (item_quantity i) /\ 0 < inject_Z (item_quantity i) * cost_of d i.
Proof.
  intros Hwf [Hq (p & Hp & Hpr)]. destruct (wf_products _ Hwf _ _ Hp) as (_ & Hc & Hr).
  pose proof (inject_Z_pos _ Hq) as HqQ. unfold cost_of. rewrite Hp, Hpr.
  split; apply Qmult_lt_0_compat; assumption.
Qed.

Lemma sale_ok_pos d s :
  wf d -> sale_ok d s ->
  0 < total s /\ 0 < qsum (fun i => inject_Z (item_quantity i) * cost_of d i) (items s).
Proof.
  intros Hwf (Hne & Hall & Ht). rewrite Ht.
  change (0 < qsum (fun i => item_price i * inject_Z (item_quantity i)) (items s) /\
          0 < qsum (fun i => inject_Z (item_quantity i) * cost_of d i) (items s)).
  split; apply qsum_pos; try exact Hne; intros i Hi;
    apply (item_ok_pos d i Hwf (proj1 (Forall_forall _ _) Hall i Hi)).
Qed.

(** C13. Bounds of the report on a well-formed ledger: the gross profit
    is never negative and the net profit never exceeds it; once a sale
    is recorded the gross profit is positive and the net profit is
    strictly below it (every sold unit has a positive cost). *)
Theorem show_profits_bounds w :
  wf (w_data w) ->
  exists gross net,
    show_profits w = (Ok tt, mkWorld (w_data w) (w_stdin w) (w_stdout w ++ [Profit gross net]) (w_file w)) /\
    0 <= gross /\ net <= gross /\ (sales (w_data w) <> [] -> 0 < gross /\ net < gross).
Proof.
  intros Hwf. pose proof (fun s Hs => sale_ok_pos _ s Hwf (proj1 (Forall_forall _ _) (wf_sales _ Hwf) s Hs)) as Hpos.
  unfold show_profits, bind, get_data, gets. cbn [fst snd]. rewrite (cost_of_sales_ok _ Hwf). unfold print, modify.
  do 2 eexists. split; [reflexivity|]. unfold gross_profit.
  assert (Hg : 0 <= qsum total (sales (w_data w)))
    by (apply qsum_nonneg; intros s Hs; apply Qlt_le_weak, (Hpos s Hs)).
  assert (Hc : 0 <= qsum (fun s => qsum (fun i => inject_Z (item_quantity i) * cost_of (w_data w) i) (items s))
                         (sales (w_data w)))
    by (apply qsum_nonneg; intros s Hs; apply Qlt_le_weak, (Hpos s Hs)).
  split; [exact Hg|]. split; [lra|]. intros Hne.
  assert (0 < qsum total (sales (w_data w))) by (apply qsum_pos; [exact Hne | intros s Hs; apply (Hpos s Hs)]).
  assert (0 < qsum (fun s => qsum (fun i => inject_Z (item_quantity i) * cost_of (w_data w) i) (items s))
                   (sales (w_data w)))
    by (apply qsum_pos; [exact Hne | intros s Hs; apply (Hpos s Hs)]).
  split; lra.
Qed.

(** ** A sale that names a missing product *)

Section SumRes.
Context {A : Type} (f : A -> res Q) (P : exc -> Prop).

Lemma sum_res_acc_cases l acc :
  (forall x, In x l -> (exists v, f x = Ok v) \/ (exists e, f x = Raise e /\ P e)) ->
  (exists a, acc = Ok a) \/ (exists e, acc = Raise e /\ P e) ->
  (exists v, fold_left (sum_step f) l acc = Ok v) \/ (exists e, fold_left (sum_step f) l acc = Raise e /\ P e).
Proof.
  revert acc. induction l as [|x l IH]; intros acc Hf Hacc; [exact Hacc|].
  cbn. apply IH; [intros y Hy; apply Hf; now right|]. unfold sum_step.
  destruct Hacc as [(a & ->)|(e & -> & He)]; [|right; eauto].
  destruct (Hf x (or_introl eq_refl)) as [(v & ->)|(e & -> & He)]; eauto.
Qed.

Lemma sum_res_cases l :
  (forall x, In x l -> (exists v, f x = Ok v) \/ (exists e, f x = Raise e /\ P e)) ->
  (exists v, sum_res f l = Ok v) \/ (exists e, sum_res f l = Raise e /\ P e).
Proof. intros Hf. apply sum_res_acc_cases; eauto. Qed.

Lemma sum_res_acc_ok_all l acc v :
  fold_left (sum_step f) l acc = Ok v -> forall x, In x l -> exists v', f x = Ok v'.
Proof.
  revert acc. induction l as [|x l IH]; intros acc Hrun y Hy; [destruct Hy|].
  change (fold_left (sum_step f) l (sum_step f acc x) = Ok v) in Hrun.
  destruct Hy as [<-|Hy]; [|exact (IH _ Hrun y Hy)].
  destruct (sum_step f acc x) as [b|e] eqn:E.
  - unfold sum_step in E. destruct acc; [|discriminate]. destruct (f x); [eauto|discriminate].
  - rewrite sum_res_raise_acc in Hrun. discriminate.
Qed.

Lemma sum_res_ok_all l v : sum_res f l = Ok v -> forall x, In x l -> exists v', f x = Ok v'.
Proof. apply sum_res_acc_ok_all. Qed.
End SumRes.

Definition missing_key (ps : Dict.t product) (e : exc) : Prop :=
  exists k, e = KeyError k /\ Dict.lookup k ps = None.

Lemma item_cost_cases ps i :
  (exists v, item_cost ps i = Ok v) \/ (exists e, item_cost ps i = Raise e /\ missing_key ps e).
Proof.
  unfold item_cost, missing_key. destruct (Dict.lookup (item_name i) ps) eqn:E; eauto 6.
Qed.

(** The cost of sales is computed, or it raises the [KeyError] of a
    product that is not in the ledger. *)
Lemma cost_of_sales_cases ps ss :
  (exists v, cost_of_sales ps ss = Ok v) \/ (exists e, cost_of_sales ps ss = Raise e /\ missing_key ps e).
Proof.
  apply sum_res_cases. intros s _. apply sum_res_cases. intros i _. apply item_cost_cases.
Qed.

(** C32. If a recorded sale names a product that is not in the ledger
    (possible only for a file written by hand), [show_profits] raises
    [KeyError] for a missing product name, prints nothing, and changes
    nothing: the program stops there, since the exception is not
    caught. *)
Theorem show_profits_missing_product w s i :
  In s (sales (w_data w)) -> In i (items s) -> Dict.lookup (item_name i) (products (w_data w)) = None ->
  exists k, show_profits w = (Raise (KeyError k), w) /\ Dict.lookup k (products (w_data w)) = None.
Proof.
  intros Hs Hi Hmiss. set (ps := products (w_data w)).
  destruct (cost_of_sales_cases ps (sales (w_data w))) as [(v & Hv)|(e & He & (k & -> & Hk))].
  - destruct (sum_res_ok_all _ _ _ Hv s Hs) as (v' & Hv').
    destruct (sum_res_ok_all _ _ _ Hv' i Hi) as (v'' & Hv'').
    unfold item_cost in Hv''. fold ps in Hmiss. rewrite Hmiss in Hv''. discriminate.
  - exists k. split; [|exact Hk]. unfold show_profits, bind, get_data, gets. cbn [fst snd].
    fold ps. rewrite He. reflexivity.
Qed.

(** ** Refinement: current cost against cost at the time of sale *)

(** The specification's ledger: the ledger with, for every recorded sale,
    the cost each of its items had when the sale was recorded. *)
Record hledger : Type := mkH { h_data : data; h_costs : list (list Q) }.

Inductive hstep : hledger -> hledger -> Prop :=
  | hstep_stock h d' :
      lstep (h_data h) d' -> sales d' = sales (h_data h) -> hstep h (mkH d' (h_costs h))
  | hstep_record h s :
      sale_ok (h_data h) s ->
      hstep h (mkH (append_sale s (h_data h)) (h_costs h ++ [map (cost_of (h_data h)) (items s)])).

Inductive hsteps : hledger -> hledger -> Prop :=
  | hsteps_refl h : hsteps h h
  | hsteps_step h1 h2 h3 : hstep h1 h2 -> hsteps h2 h3 -> hsteps h1 h3.

(** The specification's net profit: each item is charged the cost
    recorded with its sale. *)
Definition spec_cost (ss : list sale) (cs : list (list Q)) : Q :=
  qsum (fun sc => qsum (fun ic => inject_Z (item_quantity (fst ic)) * snd ic) (combine (items (fst sc)) (snd sc)))
       (combine ss cs).

Definition spec_net (h : hledger) : Q := gross_profit (sales (h_data h)) - spec_cost (sales (h_data h)) (h_costs h).

(** The recorded costs are the current costs. *)
Definition costs_current (h : hledger) : Prop :=
  Forall2 (fun s cs => cs = map (cost_of (h_data h)) (items s)) (sales (h_data h)) (h_costs h).

Lemma cost_of_kept d d' i : products_kept d d' -> item_ok d i -> cost_of d' i = cost_of d i.
Proof.
  intros Hk [_ (p & Hp & _)]. destruct (Hk _ _ Hp) as (p' & Hp' & [Hc _]).
  unfold cost_of. now rewrite Hp, Hp'.
Qed.

(** Appending a sale to a ledger whose products keep their costs adds
    the cost of its items to the cost of sales. *)
Lemma sold_cost_append d0 d s :
  wf d0 -> products_kept d0 d -> sales d = sales d0 ++ [s] ->
  sold_cost d == sold_cost d0 + qsum (fun i => inject_Z (item_quantity i) * cost_of d i) (items s).
Proof.
  intros Hwf Hk Hs. unfold sold_cost. rewrite Hs, qsum_app, qsum_cons, qsum_nil.
  apply Qplus_comp; [|ring]. apply qsum_ext_in. intros s' Hs'. apply qsum_ext_in. intros i Hi.
  destruct (proj1 (Forall_forall _ _) (wf_sales _ Hwf) s' Hs') as (_ & Hall & _).
  now rewrite (cost_of_kept _ _ _ Hk (proj1 (Forall_forall _ _) Hall i Hi)).
Qed.

Lemma costs_current_kept d d' ss cs :
  products_kept d d' -> Forall (sale_ok d) ss ->
  Forall2 (fun s c => c = map (cost_of d) (items s)) ss cs ->
  Forall2 (fun s c => c = map (cost_of d') (items s)) ss cs.
Proof.
  intros Hk Hok H2. induction H2 as [|s c ss cs Hc _ IH]; constructor; inversion Hok as [|? ? (_ & Hall & _) Hok']; subst.
  - apply map_ext_in. intros i Hi. symmetry. apply cost_of_kept; [exact Hk|].
    exact (proj1 (Forall_forall _ _) Hall i Hi).
  - exact (IH Hok').
Qed.

Lemma hstep_inv h h' : hstep h h' -> wf (h_data h) -> costs_current h -> wf (h_data h') /\ costs_current h'.
Proof.
  intros Hs Hwf Hc. destruct Hs as [h d' Hl Hsales|h s Hs]; cbn.
  - split; [exact (lstep_wf _ _ Hwf Hl)|]. unfold costs_current. cbn. rewrite Hsales.
    exact (costs_current_kept _ _ _ _ (lstep_kept _ _ Hl) (wf_sales _ Hwf) Hc).
  - split; [exact (lstep_wf _ _ Hwf (lstep_record _ _ Hs))|]. unfold costs_current. cbn.
    apply Forall2_app; [exact Hc|]. constructor; [reflexivity | constructor].
Qed.

Lemma hsteps_inv h h' : hsteps h h' -> wf (h_data h) -> costs_current h -> wf (h_data h') /\ costs_current h'.
Proof. induction 1; [auto|]. intros Hwf Hc. destruct (hstep_inv _ _ H Hwf Hc). auto. Qed.

Lemma spec_cost_current (g : item -> Q) ss cs :
  Forall2 (fun s c => c = map g (items s)) ss cs ->
  spec_cost ss cs == qsum (fun s => qsum (fun i => inject_Z (item_quantity i) * g i) (items s)) ss.
Proof.
  unfold spec_cost. induction 1 as [|s c ss cs -> _ IH]; [reflexivity|]. cbn [combine].
  rewrite !qsum_cons, IH. cbn [fst snd]. apply Qplus_comp; [|reflexivity].
  induction (items s) as [|i l IHl]; [reflexivity|]. cbn [combine map]. rewrite !qsum_cons, IHl. reflexivity.
Qed.

(** C6. Refinement of the specification that charges each sold item
    the cost it had when the sale was recorded: along every run of the
    specification's transitions from a well-formed ledger whose recorded
    costs are the current ones, [show_profits] (which reads the current
    costs) prints exactly the specification's gross and net profit.  The
    possible bug of spec section 9 cannot be observed through the
    program's own operations. *)
Theorem show_profits_refines h0 h w :
  hsteps h0 h -> wf (h_data h0) -> costs_current h0 -> w_data w = h_data h ->
  exists gross net,
    show_profits w = (Ok tt, mkWorld (w_data w) (w_stdin w) (w_stdout w ++ [Profit gross net]) (w_file w)) /\
    gross == gross_profit (sales (h_data h)) /\ net == spec_net h.
Proof.
  intros Hrun Hwf0 Hc0 Hw. destruct (hsteps_inv _ _ Hrun Hwf0 Hc0) as [Hwf Hc].
  destruct w as [d i o f]. cbn in Hw. subst d. unfold costs_current in Hc.
  unfold show_profits, bind, get_data, gets. cbn [fst snd w_data].
  rewrite (cost_of_sales_ok _ Hwf). unfold print, modify.
  do 2 eexists. split; [reflexivity|]. split; [reflexivity|].
  unfold spec_net, Qminus. apply Qplus_comp; [reflexivity|]. apply Qopp_comp.
  symmetry. exact (spec_cost_current _ _ _ Hc).
Qed.

(** Every run of the ledger's transitions is a run of the
    specification's, which records the costs current at each sale. *)
Lemma lsteps_lift d d' cs : lsteps d d' -> exists cs', hsteps (mkH d cs) (mkH d' cs').
Proof.
  intros Hs. revert cs. induction Hs as [d|d1 d2 d3 Hs _ IH]; intros cs; [eexists; constructor|].
  destruct Hs as [d k n Hm Hn|d k p Hm Hq Hc Hp|d k n p Hp Hn|d s Hs].
  - destruct (IH cs) as (cs' & H'). exists cs'. eapply hsteps_step; [|exact H'].
    exact (hstep_stock (mkH d cs) _ (lstep_restock _ _ _ Hm Hn) eq_refl).
  - destruct (IH cs) as (cs' & H'). exists cs'. eapply hsteps_step; [|exact H'].
    exact (hstep_stock (mkH d cs) _ (lstep_create _ _ _ Hm Hq Hc Hp) eq_refl).
  - destruct (IH cs) as (cs' & H'). exists cs'. eapply hsteps_step; [|exact H'].
    exact (hstep_stock (mkH d cs) _ (lstep_take _ _ _ _ Hp Hn) eq_refl).
  - destruct (IH (cs ++ [map (cost_of d) (items s)])) as (cs' & H'). exists cs'.
    eapply hsteps_step; [|exact H']. exact (hstep_record (mkH d cs) s Hs).
Qed.

(** ** Witnesses on [example_ledger] *)

Lemma show_profits_net_witness :
  exists gross net,
    show_profits (mkWorld example_ledger [] [] NoFile) =
      (Ok tt, mkWorld example_ledger [] [Profit gross net] NoFile) /\ gross == 7 /\ net == 3.
Proof.
  destruct (show_profits_net (mkWorld example_ledger [] [] NoFile)
              ltac:(apply wfb_wf; vm_compute; reflexivity)) as (g & n & H & Hg & Hn).
  exists g, n. split; [exact H|]. split.
  - eapply Qeq_trans; [exact Hg | vm_compute; reflexivity].
  - eapply Qeq_trans; [exact Hn | vm_compute; reflexivity].
Defined.

Lemma show_profits_missing_product_witness :
  exists k,
    show_profits (mkWorld (mkData [] [mkSale [mkItem "tempeh"%string 1 1] 1]) [] [] NoFile) =
      (Raise (KeyError k), mkWorld (mkData [] [mkSale [mkItem "tempeh"%string 1 1] 1]) [] [] NoFile) /\
    Dict.lookup k ([] : Dict.t product) = None.
Proof.
  exact (show_profits_missing_product (mkWorld (mkData [] [mkSale [mkItem "tempeh"%string 1 1] 1]) [] [] NoFile)
           (mkSale [mkItem "tempeh"%string 1 1] 1) (mkItem "tempeh"%string 1 1)
           (or_introl eq_refl) (or_introl eq_refl) ltac:(vm_compute; reflexivity)).
Defined.

(** A second sale of one tofu, recorded by the specification with the
    cost [2] the tofu had then. *)
Lemma show_profits_refines_witness :
  exists gross net,
    show_profits (mkWorld (append_sale (mkSale [mkItem "tofu"%string 1 (7#2)] (7#2)) example_ledger) [] [] NoFile) =
      (Ok tt, mkWorld (append_sale (mkSale [mkItem "tofu"%string 1 (7#2)] (7#2)) example_ledger) [] [Profit gross net] NoFile) /\
    gross == 21#2 /\ net == 9#2.
Proof.
  destruct (show_profits_refines (mkH example_ledger [[2]])
              (mkH (append_sale (mkSale [mkItem "tofu"%string 1 (7#2)] (7#2)) example_ledger)
                   ([[2]] ++ [map (cost_of example_ledger) [mkItem "tofu"%string 1 (7#2)]]))
              (mkWorld (append_sale (mkSale [mkItem "tofu"%string 1 (7#2)] (7#2)) example_ledger) [] [] NoFile)
              (hsteps_step _ _ _
                 (hstep_record (mkH example_ledger [[2]]) (mkSale [mkItem "tofu"%string 1 (7#2)] (7#2))
                    (sale_okb_ok example_ledger (mkSale [mkItem "tofu"%string 1 (7#2)] (7#2)) ltac:(vm_compute; reflexivity)))
                 (hsteps_refl _))
              ltac:(apply wfb_wf; vm_compute; reflexivity)
              ltac:(constructor; [vm_compute; reflexivity | constructor])
              eq_refl) as (g & n & H & Hg & Hn).
  exists g, n. split; [exact H|]. split.
  - eapply Qeq_trans; [exact Hg | vm_compute; reflexivity].
  - eapply Qeq_trans; [exact Hn | vm_compute; reflexivity].
Defined.

Lemma show_profits_bounds_witness :
  exists gross net,
    show_profits (mkWorld example_ledger [] [] NoFile) =
      (Ok tt, mkWorld example_ledger [] [Profit gross net] NoFile) /\
    0 <= gross /\ net <= gross /\ (sales example_ledger <> [] -> 0 < gross /\ net < gross).
Proof.
  exact (show_profits_bounds (mkWorld example_ledger [] [] NoFile) ltac:(apply wfb_wf; vm_compute; reflexivity)).
Defined.
