(* ===== verification/Main.v ===== *)
(** * The program: [show_help], the command loop and [main] of src/main.py

    [main] loads the ledger ([load_data]), then repeats [main_step]: read
    a command and lower-case it; [chiudi] prints [Bye bye] and leaves the
    loop without saving; a command of the dict [commands] runs its
    handler; any other text prints [Comando non valido] and the help;
    after every command but [chiudi] the whole ledger is saved.  An
    exception of a handler ([EOFError], [KeyError]) is not caught: the
    program stops before the save.

    Theorems: each iteration of the loop moves the ledger by allowed
    steps only (so the invariant holds after every command); after each
    completed command the file loads back to exactly the ledger in
    memory; a command that raises leaves the file as it was; [chiudi]
    saves nothing; an unknown command changes nothing but prints the
    help; the loop never runs out of fuel.  [reachable] is the step
    relation of the program between commands; the invariant and the
    agreement of file and memory hold on every reachable world (rule
    induction).  Further: the loop is equal to the big-step semantics of
    [while True]; [EOFError] is raised only with all input read, so the
    program stops only after [Bye bye] or at the end of the input; a
    stored document that [load_data] rejects stops [main] before its
    first prompt; a whole session add / sell / report / close is
    computed from the handlers' lemmas; over a completed command the
    units of each product in stock or sold are kept, and only
    [aggiungi] adds to them; commands are case-insensitive.  [script]
    is the module's entry point. *)

From S2P Require Import Prelude Loops Builtins Ledger Persistence World Inventory Sales Profits.
Local Open Scope Z_scope.
Local Open Scope py_scope.
Local Open Scope string_scope.
Local Open Scope list_scope.

Definition help_lines : list string :=
  ["I comandi disponibili sono i seguenti:";
   "aggiungi: aggiungi un prodotto al magazzino";
   "elenca: elenca i prodotto in magazzino";
   "vendita: registra una vendita effettuata";
   "profitti: mostra i profitti totali";
   "aiuto: mostra i possibili comandi";
   "chiudi: esci dal programma"].

Definition msg_invalid : string := "Comando non valido".
Definition msg_bye : string := "Bye bye".
Definition cmd_prompt : string := "Inserisci un comando: ".

(** The handlers of the dict [commands]. *)
Inductive command : Type := Aggiungi | Elenca | Vendita | Profitti | Aiuto.

Definition commands : Dict.t command :=
  [("aggiungi", Aggiungi); ("elenca", Elenca); ("vendita", Vendita);
   ("profitti", Profitti); ("aiuto", Aiuto)].

Fixpoint print_lines (l : list string) : PyM world unit :=
  match l with
  | [] => ret tt
  | s :: rest => print (Text s) ;; print_lines rest
  end.

Definition show_help : PyM world unit := print_lines help_lines.

Section Main.
Context `{PyText}.

(** [commands[command](data)], or [commands[command]()] for [aiuto]. *)
Definition run_command (c : command) : PyM world unit :=
  match c with
  | Aggiungi => add_product
  | Elenca => list_products
  | Vendita => register_sale
  | Profitti => show_profits
  | Aiuto => show_help
  end.

(** [elif command in commands: ... else: print(...); show_help()] *)
Definition dispatch (command : string) : PyM world unit :=
  match Dict.lookup command commands with
  | Some c => run_command c
  | None => print (Text msg_invalid) ;; show_help
  end.

(** One iteration of [while True] in [main]. *)
Definition main_step : PyM world flow :=
  let* raw := input cmd_prompt in
  let command := py_lower raw in
  if String.eqb command "chiudi" then
    print (Text msg_bye) ;; ret Break
  else
    dispatch command ;;
    save_data ;;
    ret Continue.

Fixpoint main_loop (fuel : nat) : PyM world unit :=
  match fuel with
  | O => throw OutOfFuel
  | S n =>
      let* f := main_step in
      match f with
      | Break => ret tt
      | Continue => main_loop n
      end
  end.

(** [data = load_data()], then the loop. *)
Definition main : PyM world unit :=
  fun w =>
    (match load_data (w_file w) with
     | Raise e => throw e
     | Ok d => modify_data (fun _ => d) ;; main_loop (S (List.length (w_stdin w)))
     end) w.
(** The body of the [while True] of [main] as a loop body that carries
    no variables. *)
Definition main_body (_ : unit) : PyM world (flow * unit) :=
  let* f := main_step in ret (f, tt).

(** [if __name__ == "__main__": main()]: run as a script the module
    runs [main]; imported under another name it only defines its
    functions and leaves the world as it is. *)
Definition script (module_name : string) : PyM world unit :=
  if String.eqb module_name "__main__" then main else ret tt.
End Main.

(** ** What each handler touches *)

Section Handlers.
Context `{PyText} (R : world -> world -> Prop) `{PreOrder world R}.
Hypothesis R_input : forall p, preserves R (input p).
Hypothesis R_print : forall m, preserves R (print m).

Lemma print_lines_preserves l : preserves R (print_lines l).
Proof. induction l; cbn; auto with ledger. Qed.

Lemma print_rows_preserves ps : preserves R (print_rows ps).
Proof. induction ps as [|[name p] ps IH]; cbn; auto with ledger. Qed.

Lemma list_products_preserves : preserves R list_products.
Proof.
  unfold list_products. apply (preserves_bind R); [apply R_print|]. intros _.
  apply (preserves_bind R); [apply (preserves_gets R)|]. intros d. apply print_rows_preserves.
Qed.

Lemma show_help_preserves : preserves R show_help.
Proof. apply print_lines_preserves. Qed.

Lemma show_profits_preserves : preserves R show_profits.
Proof. unfold show_profits. preserves_tac. Qed.

(** With statements that change the ledger too. *)
Hypothesis R_modify : forall f, preserves R (modify_data f).

Lemma add_product_preserves : preserves R add_product.
Proof. unfold add_product. preserves_tac. Qed.

Lemma sale_step_preserves acc : preserves R (sale_step acc).
Proof. unfold sale_step, ask_again. preserves_tac. Qed.

Lemma sale_loop_preserves n acc : preserves R (sale_loop n acc).
Proof.
  revert acc. induction n as [|n IH]; intros acc; cbn [sale_loop]; [apply (preserves_throw R)|].
  apply (preserves_bind R); [apply sale_step_preserves|]. intros [[|] acc']; [apply (preserves_ret R)|apply IH].
Qed.

Lemma register_sale_preserves : preserves R register_sale.
Proof.
  intros w r w' Hrun. unfold register_sale in Hrun. revert Hrun. apply (preserves_bind R).
  - apply sale_loop_preserves.
  - intros [sale total]. unfold record_sale. preserves_tac.
Qed.

Lemma run_command_preserves c : preserves R (run_command c).
Proof.
  destruct c; cbn; auto using add_product_preserves, list_products_preserves,
    register_sale_preserves, show_profits_preserves, show_help_preserves.
Qed.
End Handlers.

Section HandlerFacts.
Context `{PyText}.

Lemma run_command_file c : preserves file_kept (run_command c).
Proof. apply run_command_preserves; auto with ledger typeclass_instances. Qed.

Lemma run_command_reads c : preserves reads (run_command c).
Proof. apply run_command_preserves; auto with ledger typeclass_instances. Qed.

Lemma run_command_moves c : preserves ledger_moves (run_command c).
Proof.
  destruct c; cbn.
  - exact add_product_moves.
  - apply list_products_preserves; auto with ledger typeclass_instances.
  - exact register_sale_moves.
  - apply show_profits_preserves; auto with ledger typeclass_instances.
  - apply show_help_preserves; auto with ledger typeclass_instances.
Qed.

Lemma dispatch_preserves (R : world -> world -> Prop) `{PreOrder world R} command :
  (forall m, preserves R (print m)) -> (forall c, preserves R (run_command c)) ->
  preserves R (dispatch command).
Proof.
  intros Hp Hc. unfold dispatch. destruct (Dict.lookup command commands); [apply Hc|].
  apply (preserves_bind R); [apply Hp | intros _; apply show_help_preserves; auto].
Qed.

Lemma main_body_reads l :
  preserves reads (if String.eqb (py_lower l) "chiudi" then print (Text msg_bye) ;; ret Break
                   else dispatch (py_lower l) ;; save_data ;; ret Continue).
Proof.
  apply (preserves_if reads).
  - apply (preserves_bind reads); [auto with ledger|]. intros _. apply (preserves_ret reads).
  - apply (preserves_bind reads); [apply (dispatch_preserves reads); auto with ledger; apply run_command_reads|].
    intros _. apply (preserves_bind reads); [auto with ledger|]. intros _. apply (preserves_ret reads).
Qed.
End HandlerFacts.

(** ** One iteration of the command loop *)

Section MainStep.
Context `{PyText}.

(** Every run of one iteration: it either stops at [chiudi] with the
    ledger and the file as they were, or raises with the file as it
    was, or completes a command and saves the ledger; in every case
    the ledger moved by allowed steps only. *)
Lemma main_step_run w r w' :
  main_step w = (r, w') ->
  lsteps (w_data w) (w_data w') /\
  (r = Ok Break -> w_data w' = w_data w /\ w_file w' = w_file w) /\
  (forall e, r = Raise e -> w_file w' = w_file w) /\
  (r = Ok Continue -> w_file w' = Stored (encode_data (w_data w'))) /\
  (forall f, r = Ok f -> (List.length (w_stdin w') < List.length (w_stdin w))%nat).
Proof.
  intros Hrun. pose proof Hrun as Hrun'.
  assert (Hcons : forall f, r = Ok f -> (List.length (w_stdin w') < List.length (w_stdin w))%nat).
  { intros f ->. eapply input_then_reads; [|exact Hrun']. exact main_body_reads. }
  apply bind_inv in Hrun as [(e & Hin & ->)|(raw & w1 & Hin & Hk)].
  { apply input_inv in Hin as (Hd & Hf & _). rewrite Hd, Hf.
    repeat split; try discriminate; auto with ledger. }
  apply input_inv in Hin as (Hd1 & Hf1 & _ & _). rewrite <- Hd1, <- Hf1.
  cbv zeta in Hk. destruct (String.eqb (py_lower raw) "chiudi").
  - unfold print, bind, ret, modify in Hk. inversion Hk; subst. cbn.
    repeat split; try discriminate; auto with ledger.
  - apply bind_inv in Hk as [(e & Hc & ->)|(u & w2 & Hc & Hk)].
    + repeat split; try discriminate.
      * revert Hc. apply (dispatch_preserves ledger_moves); auto with ledger. apply run_command_moves.
      * intros ? _. revert Hc. apply (dispatch_preserves file_kept); auto with ledger. apply run_command_file.
    + unfold save_data, bind, modify, ret in Hk. inversion Hk; subst. cbn.
      repeat split; try discriminate.
      * revert Hc. apply (dispatch_preserves ledger_moves); auto with ledger. apply run_command_moves.
      * exact Hcons.
Qed.
End MainStep.

(** ** The command loop and [main] *)

(** ** Single iterations of the command loop *)

Section MainSteps.
Context `{PyText}.

Lemma main_step_close_run w raw rest :
  w_stdin w = raw :: rest -> py_lower raw = "chiudi" ->
  main_step w = (Ok Break, mkWorld (w_data w) rest (w_stdout w ++ [Prompt cmd_prompt; Text msg_bye]) (w_file w)).
Proof.
  destruct w as [d i o f]; cbn. intros -> Hc.
  unfold main_step, input, bind, print, modify, ret. cbn -[String.eqb]. rewrite Hc. cbn.
  now rewrite <- app_assoc.
Qed.

(** A command of [commands] runs its handler after the prompt, then the
    ledger is saved. *)
Lemma main_step_command w raw rest c w1 :
  w_stdin w = raw :: rest -> py_lower raw <> "chiudi" -> Dict.lookup (py_lower raw) commands = Some c ->
  run_command c (mkWorld (w_data w) rest (w_stdout w ++ [Prompt cmd_prompt]) (w_file w)) = (Ok tt, w1) ->
  main_step w = (Ok Continue, mkWorld (w_data w1) (w_stdin w1) (w_stdout w1) (Stored (encode_data (w_data w1)))).
Proof.
  destruct w as [d i o f]; cbn [w_stdin w_data w_stdout w_file]. intros -> Hc Hl Hrun.
  apply String.eqb_neq in Hc.
  unfold main_step, input. unfold bind at 1. cbn -[String.eqb dispatch]. rewrite Hc.
  unfold dispatch. rewrite Hl. unfold bind. rewrite Hrun. reflexivity.
Qed.

Lemma main_loop_continue n w w1 :
  main_step w = (Ok Continue, w1) -> main_loop (S n) w = main_loop n w1.
Proof. intros Hs. cbn [main_loop]. unfold bind. now rewrite Hs. Qed.

Lemma main_loop_break n w w1 :
  main_step w = (Ok Break, w1) -> main_loop (S n) w = (Ok tt, w1).
Proof. intros Hs. cbn [main_loop]. unfold bind. now rewrite Hs. Qed.

(** C10. Commands are case-insensitive (line 114 lower-cases the line
    read): two command lines with the same lower-case form give the same
    run of an iteration, whatever the command, the ledger, the rest of
    the input and the file. *)
Theorem main_step_case_insensitive d raw raw' rest out f :
  py_lower raw = py_lower raw' ->
  main_step (mkWorld d (raw :: rest) out f) = main_step (mkWorld d (raw' :: rest) out f).
Proof.
  intros Hl. unfold main_step, bind at 1, input. cbn [w_stdin w_data w_stdout w_file].
  cbv beta iota zeta. now rewrite Hl.
Qed.
End MainSteps.

Section MainLoop.
Context `{PyText}.

(** C16. Every iteration of the command loop, whatever the command and
    also when it raises, keeps the ledger well formed. *)
Theorem main_step_wf w r w' : wf (w_data w) -> main_step w = (r, w') -> wf (w_data w').
Proof. intros Hwf Hrun. exact (lsteps_wf _ _ (proj1 (main_step_run _ _ _ Hrun)) Hwf). Qed.

(** C35. An unknown command leaves the ledger unchanged, prints
    [Comando non valido] followed by the seven lines of help, and the
    ledger is saved. *)
Theorem main_step_invalid w raw rest :
  w_stdin w = raw :: rest -> py_lower raw <> "chiudi" -> Dict.lookup (py_lower raw) commands = None ->
  main_step w =
    (Ok Continue, mkWorld (w_data w) rest
                    (w_stdout w ++ Prompt cmd_prompt :: Text msg_invalid :: map Text help_lines)
                    (Stored (encode_data (w_data w)))).
Proof.
  destruct w as [d i o f]; cbn [w_stdin w_data w_stdout w_file]. intros -> Hc Hl.
  apply String.eqb_neq in Hc.
  unfold main_step, input, bind, print, modify, ret. cbn -[String.eqb dispatch].
  rewrite Hc. unfold dispatch. rewrite Hl. cbn. now rewrite <- !app_assoc.
Qed.


(** C17. No command removes a product or changes the cost or the
    price of a product, also when it raises: the cost used by
    [show_profits] is the cost the product had when it was sold. *)
Theorem main_step_keeps_products w r w' :
  main_step w = (r, w') ->
  forall k p, Dict.lookup k (products (w_data w)) = Some p ->
  exists p', Dict.lookup k (products (w_data w')) = Some p' /\ cost p' = cost p /\ price p' = price p.
Proof. intros Hrun. exact (lsteps_kept _ _ (proj1 (main_step_run _ _ _ Hrun))). Qed.

(** C18. Sales are append-only: no command edits or deletes a
    recorded sale, also when it raises. *)
Theorem main_step_sales_append_only w r w' :
  main_step w = (r, w') -> exists l, sales (w_data w') = sales (w_data w) ++ l.
Proof. intros Hrun. exact (lsteps_sales_prefix _ _ (proj1 (main_step_run _ _ _ Hrun))). Qed.

Lemma show_help_raises : raises_only (fun _ => False) show_help.
Proof. unfold show_help, help_lines. cbn. raises_tac. Qed.

(** On a well-formed ledger a command lets only [EOFError] escape. *)
Lemma dispatch_raises command w e w' :
  wf (w_data w) -> dispatch command w = (Raise e, w') -> e = EOFError.
Proof.
  intros Hwf Hrun. unfold dispatch in Hrun.
  destruct (Dict.lookup command commands) as [[]|]; cbn [run_command] in Hrun.
  - exact (add_product_eof _ _ _ Hrun).
  - destruct (list_products_raises _ _ _ Hrun).
  - exact (register_sale_eof _ _ _ Hrun).
  - unfold show_profits, bind, get_data, gets in Hrun. cbn [fst snd] in Hrun.
    rewrite (cost_of_sales_ok _ Hwf) in Hrun. discriminate.
  - destruct (show_help_raises _ _ _ Hrun).
  - apply bind_inv in Hrun as [(e' & Hp & _)|(u & w1 & _ & Hh)]; [discriminate|].
    destruct (show_help_raises _ _ _ Hh).
Qed.

Lemma main_step_raises w e w' : wf (w_data w) -> main_step w = (Raise e, w') -> e = EOFError.
Proof.
  intros Hwf Hrun. apply bind_inv in Hrun as [(e' & Hin & [= ->])|(raw & w1 & Hin & Hk)].
  { exact (input_raises (fun e => e = EOFError) _ eq_refl _ _ _ Hin). }
  apply input_inv in Hin as (Hd1 & _). cbv zeta in Hk.
  destruct (String.eqb (py_lower raw) "chiudi").
  - unfold print, bind, ret, modify in Hk. discriminate.
  - apply bind_inv in Hk as [(e' & Hc & [= ->])|(u & w2 & _ & Hk)].
    + rewrite <- Hd1 in Hwf. exact (dispatch_raises _ _ _ _ Hwf Hc).
    + unfold save_data, bind, modify, ret in Hk. discriminate.
Qed.

(** The loop with enough fuel, from a well-formed ledger: the ledger
    stays well formed and only [EOFError] can escape. *)
Lemma main_loop_raises n w r w' :
  main_loop n w = (r, w') -> (List.length (w_stdin w) < n)%nat -> wf (w_data w) ->
  wf (w_data w') /\ (forall e, r = Raise e -> e = EOFError).
Proof.
  revert w. induction n as [|n IH]; intros w Hrun Hn Hwf; [lia|].
  cbn [main_loop] in Hrun. apply bind_inv in Hrun as [(e & Hs & ->)|(f & w1 & Hs & Hk)].
  - split; [exact (lsteps_wf _ _ (proj1 (main_step_run _ _ _ Hs)) Hwf)|]. intros e' [= <-]. exact (main_step_raises _ _ _ Hwf Hs).
  - pose proof (lsteps_wf _ _ (proj1 (main_step_run _ _ _ Hs)) Hwf) as Hwf1.
    destruct (main_step_run _ _ _ Hs) as (_ & _ & _ & _ & Hread). specialize (Hread _ eq_refl).
    destruct f; [inversion Hk; subst; split; [exact Hwf1 | discriminate]|].
    apply (IH _ Hk); [lia | exact Hwf1].
Qed.
End MainLoop.

(** ** Every unit is accounted for *)

Section Accounting.
Context `{PyText}.

Definition data_kept (w w' : world) : Prop := w_data w' = w_data w.

#[local] Instance data_kept_preorder : PreOrder data_kept.
Proof. split; [intros w; reflexivity | intros w1 w2 w3 H1 H2; unfold data_kept; congruence]. Qed.

Lemma data_kept_console w i o : w_stdin w = i ++ [] \/ (exists l, w_stdin w = l :: i) ->
  data_kept w (mkWorld (w_data w) i o (w_file w)).
Proof. intros _. reflexivity. Qed.

Lemma print_data_kept m : preserves data_kept (print m).
Proof. apply print_preserves, data_kept_console. Qed.

Lemma input_data_kept p : preserves data_kept (input p).
Proof. apply input_preserves, data_kept_console. Qed.

#[local] Hint Resolve print_data_kept input_data_kept : ledger.

Lemma add_product_grows w r w' :
  add_product w = (r, w') -> forall k, accounted (w_data w) k <= accounted (w_data w') k.
Proof.
  intros Hrun k. destruct w as [d inp out f]. unfold add_product, input, int_of, float_of in Hrun.
  destruct inp as [|raw [|qs [|cs [|ps rest]]]]; py_exec Hrun; inversion Hrun; subst; clear Hrun;
    cbn [w_data]; py_bool; unfold accounted; try lia.
  all: first [rewrite stock_add by assumption | rewrite stock_put_new by assumption];
    unfold sold; cbn [sales add_stock put_product]; destruct (String.eqb _ k); cbn [quantity]; lia.
Qed.

Lemma commands_aggiungi command : Dict.lookup command commands = Some Aggiungi -> command = "aggiungi".
Proof.
  unfold commands. cbn [Dict.lookup].
  repeat match goal with |- context [String.eqb ?a ?b] => destruct (String.eqb_spec a b) end; congruence.
Qed.

Lemma data_kept_accounted w w' : data_kept w w' -> forall k, accounted (w_data w') k = accounted (w_data w) k.
Proof. unfold data_kept. now intros ->. Qed.

(** A completed command changes no count, but [aggiungi], which only
    adds units. *)
Lemma dispatch_accounted command w w' :
  dispatch command w = (Ok tt, w') ->
  forall k, accounted (w_data w) k <= accounted (w_data w') k /\
    (command <> "aggiungi" -> accounted (w_data w') k = accounted (w_data w) k).
Proof.
  intros Hrun k. unfold dispatch in Hrun.
  destruct (Dict.lookup command commands) as [c|] eqn:Hc; [destruct c; cbn [run_command] in Hrun|].
  - split; [exact (add_product_grows _ _ _ Hrun k)|]. intros Hne. exfalso. exact (Hne (commands_aggiungi _ Hc)).
  - assert (E : data_kept w w') by (revert Hrun; apply (list_products_preserves data_kept); auto with ledger).
    rewrite (data_kept_accounted _ _ E). split; [lia | reflexivity].
  - rewrite (register_sale_accounted _ _ Hrun). split; [lia | reflexivity].
  - assert (E : data_kept w w') by (revert Hrun; apply (show_profits_preserves data_kept); auto with ledger).
    rewrite (data_kept_accounted _ _ E). split; [lia | reflexivity].
  - assert (E : data_kept w w') by (revert Hrun; apply (show_help_preserves data_kept); auto with ledger).
    rewrite (data_kept_accounted _ _ E). split; [lia | reflexivity].
  - assert (E : data_kept w w').
    { revert Hrun. apply (preserves_bind data_kept); [auto with ledger|]. intros _.
      apply (show_help_preserves data_kept); auto with ledger. }
    rewrite (data_kept_accounted _ _ E). split; [lia | reflexivity].
Qed.

(** C39. No unit of a product is lost or created by a completed
    command (also [chiudi] or an unknown command): for every product,
    the units in stock plus the units the recorded sales sold are at
    least what they were, and exactly what they were unless the command
    is [aggiungi]; a sale moves units from the stock into the sale. *)
Theorem main_step_accounted w raw rest f w' :
  w_stdin w = raw :: rest -> main_step w = (Ok f, w') ->
  forall k, accounted (w_data w) k <= accounted (w_data w') k /\
    (py_lower raw <> "aggiungi" -> accounted (w_data w') k = accounted (w_data w) k).
Proof.
  intros Hin Hrun k. unfold main_step in Hrun.
  apply bind_inv in Hrun as [(e & _ & [=])|(raw' & w1 & Hin' & Hk)].
  apply input_inv in Hin' as (Hd1 & _ & _ & [(Hnil & _)|(l & Hl & [= <-])]); [congruence|].
  rewrite Hin in Hl. injection Hl as <- _. rewrite <- Hd1. cbv zeta in Hk.
  destruct (String.eqb (py_lower raw) "chiudi").
  - unfold print, bind, ret, modify in Hk. inversion Hk; subst. cbn [w_data]. split; [lia | reflexivity].
  - apply bind_inv in Hk as [(e & _ & [=])|([] & w2 & Hc & Hk)].
    unfold save_data, bind, modify, ret in Hk. inversion Hk; subst. cbn [w_data].
    exact (dispatch_accounted _ _ _ Hc k).
Qed.
End Accounting.

Section MainWhile.
Context `{PyText}.

Lemma main_loop_while_fuel n w : main_loop n w = while_fuel main_body n tt w.
Proof.
  revert w. induction n as [|n IH]; intros w; [reflexivity|].
  rewrite while_fuel_S. cbn [main_loop]. unfold main_body, bind, ret.
  destruct (main_step w) as [[[|]|e] w1]; [reflexivity | apply IH | reflexivity].
Qed.

Lemma main_body_progress w w' :
  main_body tt w = (Ok (Continue, tt), w') -> (List.length (w_stdin w') < List.length (w_stdin w))%nat.
Proof.
  unfold main_body, bind, ret. destruct (main_step w) as [[f|e] w1] eqn:E; intros Hrun; inversion Hrun; subst.
  exact (proj2 (proj2 (proj2 (proj2 (main_step_run _ _ _ E)))) _ eq_refl).
Qed.

(** The command loop of [main], with the fuel [main] gives it,
    computes exactly the big-step semantics of [while True] over one
    iteration [main_step]. *)
Lemma main_loop_while w r w' :
  main_loop (S (List.length (w_stdin w))) w = (r, w') <-> while_sem main_body tt w r w'.
Proof.
  rewrite main_loop_while_fuel.
  apply (while_fuel_equiv main_body (fun w => List.length (w_stdin w))); [|lia].
  intros [] s [] s'. apply main_body_progress.
Qed.
End MainWhile.

(** ** [EOFError] happens only at the end of the input *)

Section EndOfInput.
Context `{PyText}.

Lemma add_product_at_end : raises_in at_end add_product.
Proof. unfold add_product. at_end_tac. Qed.

Lemma print_rows_at_end ps : raises_in at_end (print_rows ps).
Proof. induction ps as [|[name p] ps IH]; cbn; at_end_tac. Qed.

Lemma list_products_at_end : raises_in at_end list_products.
Proof. unfold list_products. at_end_tac. apply print_rows_at_end. Qed.

Lemma print_lines_at_end l : raises_in at_end (print_lines l).
Proof. induction l; cbn; at_end_tac. Qed.

Lemma show_profits_at_end : raises_in at_end show_profits.
Proof.
  intros w e w' Hrun. unfold show_profits, bind, get_data, gets in Hrun. cbn [fst snd] in Hrun.
  destruct (cost_of_sales_cases (products (w_data w)) (sales (w_data w))) as [(v & Hv)|(e' & He & (k & -> & _))];
    rewrite ?Hv, ?He in Hrun; [discriminate|]. injection Hrun as <- _. discriminate.
Qed.

Lemma sale_step_at_end acc : raises_in at_end (sale_step acc).
Proof. unfold sale_step, ask_again. at_end_tac. Qed.

Lemma sale_loop_at_end n acc : raises_in at_end (sale_loop n acc).
Proof.
  revert acc. induction n as [|n IH]; intros acc; cbn [sale_loop]; at_end_tac;
    first [apply sale_step_at_end | apply IH].
Qed.

Lemma record_sale_at_end acc : raises_in at_end (record_sale acc).
Proof. unfold record_sale. at_end_tac. Qed.

Lemma register_sale_at_end : raises_in at_end register_sale.
Proof.
  intros w e w' Hrun. unfold register_sale in Hrun. revert Hrun. apply raises_in_bind.
  - apply sale_loop_at_end.
  - apply record_sale_at_end.
Qed.

Lemma dispatch_at_end command : raises_in at_end (dispatch command).
Proof.
  unfold dispatch. destruct (Dict.lookup command commands) as [[]|]; cbn [run_command].
  - apply add_product_at_end.
  - apply list_products_at_end.
  - apply register_sale_at_end.
  - apply show_profits_at_end.
  - apply print_lines_at_end.
  - at_end_tac; apply print_lines_at_end.
Qed.

Lemma main_step_at_end : raises_in at_end main_step.
Proof. unfold main_step. at_end_tac. apply dispatch_at_end. Qed.

Lemma main_loop_at_end n : raises_in at_end (main_loop n).
Proof. induction n as [|n IH]; cbn [main_loop]; at_end_tac;
  first [apply main_step_at_end | apply IH]. Qed.

(** The loop is left normally only through [chiudi], after [Bye bye]. *)
Lemma main_step_break w w' :
  main_step w = (Ok Break, w') -> exists out, w_stdout w' = out ++ [Text msg_bye].
Proof.
  intros Hrun. apply bind_inv in Hrun as [(e & _ & [=])|(raw & w1 & _ & Hk)]. cbv zeta in Hk.
  destruct (String.eqb (py_lower raw) "chiudi").
  - unfold print, bind, modify, ret in Hk. injection Hk as <-. cbn. eauto.
  - apply bind_inv in Hk as [(e & _ & [=])|(u & w2 & _ & Hk)].
    unfold save_data, bind, modify, ret in Hk. discriminate.
Qed.

Lemma main_loop_ok n w w' :
  main_loop n w = (Ok tt, w') -> exists out, w_stdout w' = out ++ [Text msg_bye].
Proof.
  revert w. induction n as [|n IH]; intros w Hrun; cbn [main_loop] in Hrun; [discriminate|].
  apply bind_inv in Hrun as [(e & _ & [=])|([|] & w1 & Hs & Hk)].
  - inversion Hk; subst. exact (main_step_break _ _ Hs).
  - exact (IH _ Hk).
Qed.
End EndOfInput.

Section Durability.
Context `{PyTextLaws}.

(** After a completed command the file holds exactly the ledger. *)
Lemma main_step_saved w w' :
  main_step w = (Ok Continue, w') -> load_data (w_file w') = Ok (w_data w').
Proof.
  intros Hrun. destruct (main_step_run _ _ _ Hrun) as (_ & _ & _ & Hsave & _).
  rewrite (Hsave eq_refl). apply load_encode.
Qed.

Lemma main_loop_file n w r w' :
  main_loop n w = (r, w') -> wf (w_data w) -> load_data (w_file w) = Ok (w_data w) ->
  exists d, load_data (w_file w') = Ok d /\ wf d /\ (r = Ok tt -> d = w_data w').
Proof.
  revert w. induction n as [|n IH]; intros w Hrun Hwf Hfile.
  - inversion Hrun; subst. exists (w_data w'). split; [exact Hfile|]. split; [exact Hwf | intros [=]].
  - cbn [main_loop] in Hrun. apply bind_inv in Hrun as [(e & Hs & ->)|(f & w1 & Hs & Hk)].
    + destruct (main_step_run _ _ _ Hs) as (_ & _ & Hraise & _).
      exists (w_data w). rewrite (Hraise e eq_refl). split; [exact Hfile|]. split; [exact Hwf | intros [=]].
    + pose proof (lsteps_wf _ _ (proj1 (main_step_run _ _ _ Hs)) Hwf) as Hwf1.
      destruct f.
      * inversion Hk; subst. destruct (main_step_run _ _ _ Hs) as (_ & Hbrk & _).
        destruct (Hbrk eq_refl) as [Hd Hf]. exists (w_data w').
        rewrite Hf, Hfile, Hd. split; [reflexivity|]. split; [exact Hwf | reflexivity].
      * exact (IH _ Hk Hwf1 (main_step_saved _ _ Hs)).
Qed.
End Durability.

(** ** [main] *)

Section MainTheorems.
Context `{PyText}.

Lemma main_run w0 r w' :
  main w0 = (r, w') ->
  (exists e, load_data (w_file w0) = Raise e /\ r = Raise e /\ w' = w0) \/
  (exists d, load_data (w_file w0) = Ok d /\
     main_loop (S (List.length (w_stdin w0))) (mkWorld d (w_stdin w0) (w_stdout w0) (w_file w0)) = (r, w')).
Proof.
  unfold main. destruct (load_data (w_file w0)) as [d|e]; intros Hrun.
  - right. exists d. split; [reflexivity | exact Hrun].
  - left. inversion Hrun; subst. eauto.
Qed.

(** C5. Started on a file that holds a well-formed ledger (or on no
    file), the program ends only through [chiudi] or at the end of the
    input: it terminates (no [OutOfFuel]), no [ValueError] and no
    [KeyError] escapes, and the ledger in memory stays well formed. *)
Theorem main_ends_cleanly w0 d0 r w' :
  load_data (w_file w0) = Ok d0 -> wf d0 -> main w0 = (r, w') ->
  wf (w_data w') /\ (forall e, r = Raise e -> e = EOFError).
Proof.
  intros Hload Hwf Hrun. destruct (main_run _ _ _ Hrun) as [(e & He & _)|(d & Hd & Hloop)]; [congruence|].
  rewrite Hload in Hd. injection Hd as <-. eapply main_loop_raises; [exact Hloop | cbn; lia | exact Hwf].
Qed.
End MainTheorems.

Section MainLiveness.
Context `{PyText}.

(** C9. Started on a file that holds a well-formed ledger (or on no
    file), the program keeps serving commands as long as input remains:
    it ends either normally, right after printing [Bye bye] (the command
    [chiudi]), or by [EOFError] with every input line read. *)
Theorem main_stops_only_at_chiudi_or_eof w0 d0 r w' :
  load_data (w_file w0) = Ok d0 -> wf d0 -> main w0 = (r, w') ->
  (r = Ok tt /\ exists out, w_stdout w' = out ++ [Text msg_bye]) \/
  (r = Raise EOFError /\ w_stdin w' = []).
Proof.
  intros Hload Hwf Hrun. destruct (main_run _ _ _ Hrun) as [(e & He & _)|(d & Hd & Hloop)]; [congruence|].
  rewrite Hload in Hd. injection Hd as <-.
  destruct r as [[]|e]; [left; split; [reflexivity | exact (main_loop_ok _ _ _ Hloop)]|right].
  assert (He : e = EOFError) by (apply (proj2 (main_loop_raises _ _ _ _ Hloop ltac:(cbn; lia) Hwf)); reflexivity).
  subst e. split; [reflexivity|]. exact (main_loop_at_end _ _ _ _ Hloop eq_refl).
Qed.

(** C38. Started on a document whose costs and prices are not all
    texts that [float] reads, the program raises the [ValueError] of such
    a text before it prompts for a command: nothing is printed, nothing
    is read, the file is left as it is. *)
Theorem main_ill_typed_file w0 s :
  w_file w0 = Stored s -> stored_ok s = false ->
  exists t, main w0 = (Raise (ValueError (VE_float_literal t)), w0) /\ py_float t = None.
Proof.
  intros Hf Hs. unfold main. rewrite Hf. cbn [load_data].
  destruct (decode_products (s_products s)) as [ps|e] eqn:E.
  - assert (Hok : stored_ok s = true) by (apply decode_products_ok; eauto). congruence.
  - destruct (decode_products_error _ _ E) as (t & -> & Ht). exists t. split; [reflexivity | exact Ht].
Qed.
End MainLiveness.

Section MainDurable.
Context `{PyTextLaws}.

(** C4. Whatever happens after a successful start (exit by
    [chiudi], end of input in the middle of a command), the file left
    on disk loads to a well-formed ledger; after [chiudi] it is exactly
    the ledger in memory.  In particular stock reserved by a sale that
    was interrupted by the end of input never reaches the file. *)
Theorem main_durable w0 d0 r w' :
  load_data (w_file w0) = Ok d0 -> wf d0 -> main w0 = (r, w') ->
  exists d, load_data (w_file w') = Ok d /\ wf d /\ (r = Ok tt -> d = w_data w').
Proof.
  intros Hload Hwf Hrun. destruct (main_run _ _ _ Hrun) as [(e & He & _)|(d & Hd & Hloop)]; [congruence|].
  rewrite Hload in Hd. injection Hd as <-. exact (main_loop_file _ _ _ _ Hloop Hwf Hload).
Qed.
End MainDurable.

(** ** A session: add a product, sell it, report, close *)

Section Session.
Context `{PyTextLaws}.

(** Names the world an iteration ends in. *)
Local Ltac next_world H W := match type of H with _ = (_, ?x) => set (W := x) in * end.

(** The ledger after adding [q] units of a new product [name] at cost
    [c] and price [p], then selling [k] of them. *)
Definition after_add_sell (d0 : data) (name : string) (q : Z) (c p : Q) (k : Z) : data :=
  append_sale (mkSale [mkItem name k p] (0 + p * inject_Z k)%Q)
              (take_stock name k (put_product name (mkProduct q c p) d0)).

Lemma session_run w0 d0 a raw qs cs ps v qs' ans pf ch q c p k :
  load_data (w_file w0) = Ok d0 -> wf d0 ->
  w_stdin w0 = [a; raw; qs; cs; ps; v; raw; qs'; ans; pf; ch] ->
  py_lower a = "aggiungi" -> py_lower v = "vendita" -> py_lower pf = "profitti" -> py_lower ch = "chiudi" ->
  Dict.mem (py_lower raw) (products d0) = false ->
  py_int qs = Some q -> 0 < q -> py_float cs = Some c -> py_float ps = Some p -> (0 < c)%Q -> (0 < p)%Q ->
  py_int qs' = Some k -> 0 < k <= q -> py_lower ans <> "si" ->
  exists out,
    main w0 = (Ok tt, mkWorld (after_add_sell d0 (py_lower raw) q c p k) []
                        (out ++ [Profit (gross_profit (sales (after_add_sell d0 (py_lower raw) q c p k)))
                                        (gross_profit (sales (after_add_sell d0 (py_lower raw) q c p k)) -
                                         sold_cost (after_add_sell d0 (py_lower raw) q c p k));
                                 Prompt cmd_prompt; Text msg_bye])
                        (Stored (encode_data (after_add_sell d0 (py_lower raw) q c p k)))) /\
    lsteps d0 (after_add_sell d0 (py_lower raw) q c p k).
Proof.
  intros Hload Hwf Hin Ha Hv Hpf Hch Hnew Hq Hq0 Hc Hp Hc0 Hp0 Hk Hk0 Hans.
  destruct w0 as [d i o f]; cbn in Hin, Hload |- *. subst i.
  pose proof (add_product_create_run (mkWorld d0 [raw; qs; cs; ps; v; raw; qs'; ans; pf; ch] (o ++ [Prompt cmd_prompt]) f)
                raw qs cs ps _ q c p eq_refl Hq Hq0 Hnew Hc Hp Hc0 Hp0) as R1.
  pose proof (main_step_command (mkWorld d0 [a; raw; qs; cs; ps; v; raw; qs'; ans; pf; ch] o f) a _ Aggiungi _ eq_refl
                ltac:(rewrite Ha; discriminate) ltac:(rewrite Ha; reflexivity) R1) as S1.
  cbn [w_data w_stdin w_stdout w_file] in S1. next_world S1 W1.
  assert (Hl1 : Dict.lookup (py_lower raw) (products (w_data W1)) = Some (mkProduct q c p))
    by (subst W1; cbn; now rewrite lookup_setitem, String.eqb_refl).
  pose proof (register_sale_one_item_run (mkWorld (w_data W1) (List.tl (w_stdin W1)) (w_stdout W1 ++ [Prompt cmd_prompt])
                (w_file W1)) raw qs' ans _ k _ (ltac:(subst W1; reflexivity)) Hl1 Hk Hk0 Hans) as R2.
  pose proof (main_step_command W1 v _ Vendita _ (ltac:(subst W1; reflexivity)) ltac:(rewrite Hv; discriminate)
                ltac:(rewrite Hv; reflexivity) R2) as S2.
  cbn [w_data w_stdin w_stdout w_file] in S2. next_world S2 W2.
  assert (Hsteps : lsteps d0 (w_data W2)).
  { pose proof (proj1 (main_step_run _ _ _ S1)) as L1. pose proof (proj1 (main_step_run _ _ _ S2)) as L2.
    exact (lsteps_trans _ _ _ L1 L2). }
  pose proof (show_profits_run (mkWorld (w_data W2) (List.tl (w_stdin W2)) (w_stdout W2 ++ [Prompt cmd_prompt])
                (w_file W2)) (lsteps_wf _ _ Hsteps Hwf)) as R3.
  pose proof (main_step_command W2 pf _ Profitti _ (ltac:(subst W1 W2; reflexivity)) ltac:(rewrite Hpf; discriminate)
                ltac:(rewrite Hpf; reflexivity) R3) as S3.
  cbn [w_data w_stdin w_stdout w_file] in S3. next_world S3 W3.
  pose proof (main_step_close_run W3 ch [] (ltac:(subst W1 W2 W3; reflexivity)) Hch) as S4.
  unfold main. cbn [w_file w_stdin]. rewrite Hload. unfold bind, modify_data, modify. cbn -[main_loop].
  rewrite (main_loop_continue _ _ _ S1), (main_loop_continue _ _ _ S2), (main_loop_continue _ _ _ S3),
    (main_loop_break _ _ _ S4).
  exists (w_stdout W2 ++ [Prompt cmd_prompt]). split; [|exact Hsteps].
  unfold W3 at 2. cbn [w_stdout]. rewrite <- app_assoc. reflexivity.
Qed.
(** C8. The scenario of the specification's examples, on any
    well-formed ledger [d0] loaded at start: [aggiungi] a new product
    with [q] units at cost [c] and price [p], [vendita] of [k <= q]
    units answering no more, [profitti], [chiudi].  The program ends
    normally with the product appended last with [q - k] units and
    unchanged cost and price, one new sale [(name, k, p)] of total
    [0 + p * k], the file holding exactly that ledger, and the report
    printing a gross profit grown by [p * k] and a cost of sales (gross
    minus net) grown by [k * c]. *)
Theorem main_add_sell_report w0 d0 a raw qs cs ps v qs' ans pf ch q c p k :
  load_data (w_file w0) = Ok d0 -> wf d0 ->
  w_stdin w0 = [a; raw; qs; cs; ps; v; raw; qs'; ans; pf; ch] ->
  py_lower a = "aggiungi" -> py_lower v = "vendita" -> py_lower pf = "profitti" -> py_lower ch = "chiudi" ->
  Dict.mem (py_lower raw) (products d0) = false ->
  py_int qs = Some q -> 0 < q -> py_float cs = Some c -> py_float ps = Some p -> (0 < c)%Q -> (0 < p)%Q ->
  py_int qs' = Some k -> 0 < k <= q -> py_lower ans <> "si" ->
  exists w', main w0 = (Ok tt, w') /\
    products (w_data w') = products d0 ++ [(py_lower raw, mkProduct (q - k) c p)] /\
    sales (w_data w') = sales d0 ++ [mkSale [mkItem (py_lower raw) k p] (0 + p * inject_Z k)%Q] /\
    load_data (w_file w') = Ok (w_data w') /\
    exists g n, In (Profit g n) (w_stdout w') /\
      (g == gross_profit (sales d0) + p * inject_Z k)%Q /\ (g - n == sold_cost d0 + inject_Z k * c)%Q.
Proof.
  intros Hload Hwf Hin Ha Hv Hpf Hch Hnew Hq Hq0 Hc Hp Hc0 Hp0 Hk Hk0 Hans.
  destruct (session_run w0 d0 a raw qs cs ps v qs' ans pf ch q c p k Hload Hwf Hin Ha Hv Hpf Hch Hnew
              Hq Hq0 Hc Hp Hc0 Hp0 Hk Hk0 Hans) as (out & Hrun & Hsteps).
  eexists. split; [exact Hrun|]. cbn [w_data w_file w_stdout].
  assert (Hnone : Dict.lookup (py_lower raw) (products d0) = None)
    by (apply lookup_None; rewrite <- mem_keys; congruence).
  assert (Hprod : products (after_add_sell d0 (py_lower raw) q c p k) =
                  products d0 ++ [(py_lower raw, mkProduct (q - k) c p)]).
  { unfold after_add_sell. cbn [append_sale take_stock put_product products]. unfold Dict.setitem.
    rewrite Hnew, update_app_new; [reflexivity|]. apply lookup_None, Hnone. }
  split; [exact Hprod|]. split; [reflexivity|]. split; [apply load_encode|].
  do 2 eexists. split; [apply in_or_app; right; now left|].
  change (sales (after_add_sell d0 (py_lower raw) q c p k))
    with (sales d0 ++ [mkSale [mkItem (py_lower raw) k p] (0 + p * inject_Z k)%Q]).
  split; [rewrite gross_profit_snoc; cbn [total]; ring|].
  rewrite (sold_cost_append d0 _ _ Hwf (lsteps_kept _ _ Hsteps) eq_refl).
  cbn [items]. rewrite qsum_cons, qsum_nil.
  unfold cost_of. cbn [item_name]. rewrite Hprod, (lookup_app_r _ _ _ Hnone). cbn. rewrite String.eqb_refl.
  cbn [cost]. ring.
Qed.
End Session.

(** ** The program as a transition system *)

(** The worlds the program is in between two commands: the world after
    a successful [load_data], and every world a completed command leads
    to. *)
Inductive reachable `{PyText} (w0 : world) : world -> Prop :=
  | reach_start d :
      load_data (w_file w0) = Ok d -> reachable w0 (mkWorld d (w_stdin w0) (w_stdout w0) (w_file w0))
  | reach_step w w' :
      reachable w0 w -> main_step w = (Ok Continue, w') -> reachable w0 w'.

Section Reachable.
Context `{PyTextLaws}.

(** C2. Between any two commands, if the program started on a file
    holding a well-formed ledger (or on no file), the ledger in memory
    is well formed and the file loads back to exactly that ledger: the
    file always reflects the latest state of memory. *)
Theorem reachable_consistent w0 w :
  reachable w0 w -> (forall d, load_data (w_file w0) = Ok d -> wf d) ->
  wf (w_data w) /\ load_data (w_file w) = Ok (w_data w).
Proof.
  intros Hr Hwf0. induction Hr as [d Hd|w w' _ IH Hs]; cbn.
  - split; [exact (Hwf0 _ Hd) | exact Hd].
  - split; [exact (lsteps_wf _ _ (proj1 (main_step_run _ _ _ Hs)) (proj1 IH)) | exact (main_step_saved _ _ Hs)].
Qed.
End Reachable.

(** ** Witnesses on the ASCII instance

    A session that adds five tofu, sells two and closes, started without
    a file. *)

Definition session : world :=
  mkWorld empty_data ["aggiungi"; "Tofu"; "5"; "2"; "3"; "vendita"; "tofu"; "2"; "no"; "chiudi"] [] NoFile.

Lemma main_durable_witness :
  exists d, load_data (w_file (snd (main session))) = Ok d /\ wf d /\
    (fst (main session) = Ok tt -> d = w_data (snd (main session))).
Proof.
  apply (main_durable session empty_data).
  - vm_compute. reflexivity.
  - apply wfb_wf. vm_compute. reflexivity.
  - vm_compute. reflexivity.
Defined.

Lemma main_ends_cleanly_witness :
  wf (w_data (snd (main session))) /\ (forall e, fst (main session) = Raise e -> e = EOFError).
Proof.
  apply (main_ends_cleanly session empty_data).
  - vm_compute. reflexivity.
  - apply wfb_wf. vm_compute. reflexivity.
  - vm_compute. reflexivity.
Defined.

Lemma reachable_consistent_witness :
  wf (w_data (snd (main_step (mkWorld empty_data ["aggiungi"; "Tofu"; "5"; "2"; "3"] [] NoFile)))) /\
  load_data (w_file (snd (main_step (mkWorld empty_data ["aggiungi"; "Tofu"; "5"; "2"; "3"] [] NoFile)))) =
    Ok (w_data (snd (main_step (mkWorld empty_data ["aggiungi"; "Tofu"; "5"; "2"; "3"] [] NoFile)))).
Proof.
  apply (reachable_consistent (mkWorld empty_data ["aggiungi"; "Tofu"; "5"; "2"; "3"] [] NoFile)).
  - apply (reach_step _ (mkWorld empty_data ["aggiungi"; "Tofu"; "5"; "2"; "3"] [] NoFile)).
    + apply (reach_start (mkWorld empty_data ["aggiungi"; "Tofu"; "5"; "2"; "3"] [] NoFile) empty_data). vm_compute. reflexivity.
    + vm_compute. reflexivity.
  - intros d Hd. vm_compute in Hd. injection Hd as <-. apply wfb_wf. vm_compute. reflexivity.
Defined.

Lemma main_step_wf_witness :
  wf (w_data (snd (main_step (mkWorld example_ledger ["vendita"; "tofu"; "3"; "no"] [] NoFile)))).
Proof.
  apply (main_step_wf (mkWorld example_ledger ["vendita"; "tofu"; "3"; "no"] [] NoFile)
           (fst (main_step (mkWorld example_ledger ["vendita"; "tofu"; "3"; "no"] [] NoFile)))).
  - apply wfb_wf. vm_compute. reflexivity.
  - vm_compute. reflexivity.
Defined.

Lemma main_step_keeps_products_witness :
  exists p', Dict.lookup "tofu" (products (w_data (snd (main_step (mkWorld example_ledger ["aggiungi"; "TOFU"; "4"] [] NoFile))))) = Some p' /\
    cost p' = 2 # 1 /\ price p' = 7 # 2.
Proof.
  assert (Hrun : main_step (mkWorld example_ledger ["aggiungi"; "TOFU"; "4"] [] NoFile) =
    (fst (main_step (mkWorld example_ledger ["aggiungi"; "TOFU"; "4"] [] NoFile)),
     snd (main_step (mkWorld example_ledger ["aggiungi"; "TOFU"; "4"] [] NoFile)))) by (vm_compute; reflexivity).
  assert (Hl : Dict.lookup "tofu" (products example_ledger) = Some (mkProduct 3 (2 # 1) (7 # 2))) by reflexivity.
  exact (main_step_keeps_products _ _ _ Hrun "tofu" _ Hl).
Defined.

Lemma main_step_sales_append_only_witness :
  exists l, sales (w_data (snd (main_step (mkWorld example_ledger ["vendita"; "seitan"; "1"] [] NoFile)))) =
    sales example_ledger ++ l.
Proof.
  assert (Hrun : main_step (mkWorld example_ledger ["vendita"; "seitan"; "1"] [] NoFile) =
    (fst (main_step (mkWorld example_ledger ["vendita"; "seitan"; "1"] [] NoFile)),
     snd (main_step (mkWorld example_ledger ["vendita"; "seitan"; "1"] [] NoFile)))) by (vm_compute; reflexivity).
  exact (main_step_sales_append_only _ _ _ Hrun).
Defined.

Lemma main_step_invalid_witness :
  main_step (mkWorld example_ledger ["vola"] [] NoFile) =
    (Ok Continue, mkWorld example_ledger [] (Prompt cmd_prompt :: Text msg_invalid :: map Text help_lines)
                    (Stored (encode_data example_ledger))).
Proof.
  assert (Hc : py_lower "vola" <> "chiudi") by (vm_compute; discriminate).
  assert (Hl : Dict.lookup (py_lower "vola") commands = None) by (vm_compute; reflexivity).
  exact (main_step_invalid (mkWorld example_ledger ["vola"] [] NoFile) "vola" [] eq_refl Hc Hl).
Defined.

Lemma main_stops_only_at_chiudi_or_eof_witness :
  (fst (main session) = Ok tt /\ exists out, w_stdout (snd (main session)) = out ++ [Text msg_bye]) \/
  (fst (main session) = Raise EOFError /\ w_stdin (snd (main session)) = []).
Proof.
  apply (main_stops_only_at_chiudi_or_eof session empty_data).
  - vm_compute. reflexivity.
  - apply wfb_wf. vm_compute. reflexivity.
  - vm_compute. reflexivity.
Defined.

Lemma main_ill_typed_file_witness :
  exists t, main (mkWorld empty_data ["elenca"] [] (Stored (mkStoredData [("tofu", mkStored 3 "due" "7/2")] []))) =
    (Raise (ValueError (VE_float_literal t)),
     mkWorld empty_data ["elenca"] [] (Stored (mkStoredData [("tofu", mkStored 3 "due" "7/2")] []))) /\
    py_float t = None.
Proof.
  apply (main_ill_typed_file _ (mkStoredData [("tofu", mkStored 3 "due" "7/2")] [])).
  - reflexivity.
  - vm_compute. reflexivity.
Defined.

Lemma main_add_sell_report_witness :
  exists w', main (mkWorld example_ledger ["aggiungi"; "Tempeh"; "5"; "2"; "3"; "vendita"; "Tempeh"; "2"; "no";
                                          "profitti"; "chiudi"] [] (Stored (encode_data example_ledger))) = (Ok tt, w') /\
    products (w_data w') = products example_ledger ++ [("tempeh", mkProduct 3 2 3)].
Proof.
  destruct (@main_add_sell_report ascii_text ascii_text_laws
              (mkWorld example_ledger ["aggiungi"; "Tempeh"; "5"; "2"; "3"; "vendita"; "Tempeh"; "2"; "no";
                                       "profitti"; "chiudi"] [] (Stored (encode_data example_ledger)))
              example_ledger "aggiungi" "Tempeh" "5" "2" "3" "vendita" "2" "no" "profitti" "chiudi" 5 2 3 2)
    as (w' & Hrun & Hprod & _).
  - vm_compute. reflexivity.
  - apply wfb_wf. vm_compute. reflexivity.
  - reflexivity.
  - vm_compute. reflexivity.
  - vm_compute. reflexivity.
  - vm_compute. reflexivity.
  - vm_compute. reflexivity.
  - vm_compute. reflexivity.
  - vm_compute. reflexivity.
  - lia.
  - vm_compute. reflexivity.
  - vm_compute. reflexivity.
  - vm_compute. reflexivity.
  - vm_compute. reflexivity.
  - vm_compute. reflexivity.
  - lia.
  - intros Hs. vm_compute in Hs. discriminate Hs.
  - exists w'. split; [exact Hrun|]. rewrite Hprod. vm_compute. reflexivity.
Defined.

Lemma main_step_accounted_witness :
  accounted (w_data (snd (main_step (mkWorld example_ledger ["vendita"; "Tofu"; "1"; "no"] [] NoFile)))) "tofu" =
  accounted example_ledger "tofu".
Proof.
  assert (Hrun : main_step (mkWorld example_ledger ["vendita"; "Tofu"; "1"; "no"] [] NoFile) =
    (Ok Continue, snd (main_step (mkWorld example_ledger ["vendita"; "Tofu"; "1"; "no"] [] NoFile))))
    by (vm_compute; reflexivity).
  apply (proj2 (@main_step_accounted ascii_text (mkWorld example_ledger ["vendita"; "Tofu"; "1"; "no"] [] NoFile)
                  "vendita" ["Tofu"; "1"; "no"] Continue _ eq_refl Hrun "tofu")).
  discriminate.
Defined.

Lemma main_step_case_insensitive_witness :
  main_step (mkWorld example_ledger ["ELENCA"] [] NoFile) = main_step (mkWorld example_ledger ["Elenca"] [] NoFile).
Proof. apply (@main_step_case_insensitive ascii_text). reflexivity. Defined.
