(* ===== verification/Render.v ===== *)
(** * The text on the terminal: f-strings, [:.2f] and [str(e)]

    The model of the console records one message per [print] and per
    prompt of [input] (World.msg).  This file gives each message the text
    src/main.py writes for it: the f-strings of lines 33, 40, 42, 48, 73,
    82 and 91, the fixed lines, and the prompts (written without a line
    break by [input]).  [format_2f] is the format spec [:.2f] on the
    exact value: rounding half to even to two decimals, a minus sign
    for a negative value even when it rounds to zero ([-0.00]).
    [str_value_error] is [str(e)] of the three kinds of [ValueError] the
    program prints: those of [int(s)] and [float(s)], which quote the
    text with [repr], and those raised by the code with a message.

    Theorems: the line [Totale: ...] of [register_sale] shows the
    total rounded to the cent as [:.2f] does, to the nearest cent with
    ties to the even one, in a text that reads back as a decimal with
    two digits after the point ([read_2f]); the two digits are checked
    on all hundred values by evaluation. *)

From S2P Require Import Prelude Builtins Ledger Persistence World Inventory.
From Stdlib Require Import Ascii Qround Qabs DecimalString.
Local Open Scope string_scope.

(** [str(n)] of a Python [int]. *)
Definition str_int (n : Z) : string := AsciiText.string_of_Z n.

(** ** [:.2f] *)

(** Rounding half to even of a rational to an integer. *)
Definition round_half_even (x : Q) : Z :=
  let f := Qfloor x in
  match (x - inject_Z f ?= 1 # 2)%Q with
  | Lt => f
  | Gt => (f + 1)%Z
  | Eq => if Z.even f then f else (f + 1)%Z
  end.

(** The two digits after the point. *)
Definition two_digits (k : Z) : string := (if (k <? 10)%Z then "0" else EmptyString) ++ str_int k.

Definition format_2f (q : Q) : string :=
  let n := round_half_even (Qabs q * 100) in
  (if Qle_bool 0 q then EmptyString else "-") ++ str_int (n / 100) ++ "." ++ two_digits (n mod 100).

(** ** [repr] of a string and [str(e)] *)

Definition squote : ascii := ascii_of_nat 39.
Definition dquote : ascii := ascii_of_nat 34.
Definition bslash : ascii := ascii_of_nat 92.

Definition hex_digit (n : nat) : ascii :=
  if (n <? 10)%nat then ascii_of_nat (48 + n) else ascii_of_nat (87 + n).

(** One character inside the quotes [qu] of a [repr]. *)
Definition escape_char (qu c : ascii) : string :=
  let n := nat_of_ascii c in
  if Ascii.eqb c bslash then String bslash (String bslash EmptyString)
  else if Ascii.eqb c qu then String bslash (String qu EmptyString)
  else if (n =? 9)%nat then String bslash "t"
  else if (n =? 10)%nat then String bslash "n"
  else if (n =? 13)%nat then String bslash "r"
  else if (n <? 32)%nat || (n =? 127)%nat
  then String bslash (String "x" (String (hex_digit (n / 16)) (String (hex_digit (n mod 16)) EmptyString)))
  else String c EmptyString.

Fixpoint escape (qu : ascii) (s : string) : string :=
  match s with
  | EmptyString => EmptyString
  | String c s' => escape_char qu c ++ escape qu s'
  end.

Fixpoint has_char (c : ascii) (s : string) : bool :=
  match s with
  | EmptyString => false
  | String c' s' => Ascii.eqb c c' || has_char c s'
  end.

(** [repr(s)]: single quotes, unless the text has a single quote and no
    double quote. *)
Definition py_repr (s : string) : string :=
  let qu := if has_char squote s && negb (has_char dquote s) then dquote else squote in
  String qu (escape qu s ++ String qu EmptyString).

Definition str_value_error (e : value_error) : string :=
  match e with
  | VE_int_literal s => "invalid literal for int() with base 10: " ++ py_repr s
  | VE_float_literal s => "could not convert string to float: " ++ py_repr s
  | VE_message m => m
  end.

(** ** The lines *)

Definition render_line (m : msg) : string :=
  match m with
  | Prompt p => p
  | Text s => s
  | Added n name => "AGGIUNTO: " ++ str_int n ++ " X " ++ name
  | Error e => "Errore: " ++ str_value_error e
  | Row name n pr => name ++ tab ++ str_int n ++ tab ++ "€" ++ format_2f pr
  | Line n name pr => "- " ++ str_int n ++ " X " ++ name ++ ": €" ++ format_2f pr
  | Total t => "Totale: €" ++ format_2f t
  | Profit g n => "Profitto: lordo=€" ++ format_2f g ++ " netto=€" ++ format_2f n
  end.

Definition newline : string := String (ascii_of_nat 10) EmptyString.

(** [print] ends the line; the prompt of [input] does not. *)
Definition render (m : msg) : string :=
  match m with
  | Prompt p => p
  | _ => render_line m ++ newline
  end.

Fixpoint transcript (l : list msg) : string :=
  match l with
  | [] => EmptyString
  | m :: l' => render m ++ transcript l'
  end.

(** ** Reading a decimal with two digits after the point *)

(** An optional leading minus sign. *)
Definition strip_minus (s : string) : bool * string :=
  match s with
  | String c s' => if Ascii.eqb c "-" then (true, s') else (false, s)
  | EmptyString => (false, s)
  end.

Definition read_2f (s : string) : option Q :=
  let '(neg, body) := strip_minus s in
  match AsciiText.split_at "." body with
  | Some (i, f) =>
      match AsciiText.Z_of_string i, AsciiText.Z_of_string f with
      | Some a, Some b =>
          if (String.length f =? 2)%nat && (0 <=? a)%Z && (0 <=? b)%Z
          then Some ((if neg then -1 else 1) * (inject_Z a + inject_Z b / 100))%Q
          else None
      | _, _ => None
      end
  | None => None
  end.

(** ** Rounding *)

Lemma round_half_even_bound x : (Qabs (x - inject_Z (round_half_even x)) <= 1 # 2)%Q.
Proof.
  pose proof (Qfloor_le x) as H1. pose proof (Qlt_floor x) as H2.
  rewrite inject_Z_plus in H2. change (inject_Z 1) with 1%Q in H2. unfold round_half_even.
  apply Qabs_Qle_condition.
  destruct (Qcompare_spec (x - inject_Z (Qfloor x)) (1 # 2)) as [E|E|E];
    [destruct (Z.even (Qfloor x))|..]; rewrite ?inject_Z_plus; try change (inject_Z 1) with 1%Q; split; lra.
Qed.

Lemma round_half_even_nonneg x : (0 <= x)%Q -> (0 <= round_half_even x)%Z.
Proof.
  intros Hx. assert (Hf : (0 <= Qfloor x)%Z).
  { pose proof (Qlt_floor x) as H2. rewrite inject_Z_plus in H2.
    destruct (Z_lt_le_dec (Qfloor x) 0) as [Hlt|]; [|assumption]. exfalso.
    assert (Hle : (Qfloor x + 1 <= 0)%Z) by lia. rewrite Zle_Qle, inject_Z_plus in Hle.
    change (inject_Z 1) with 1%Q in H2, Hle. change (inject_Z 0) with 0%Q in Hle. lra. }
  unfold round_half_even. destruct (_ ?= _)%Q; [destruct (Z.even _)|..]; lia.
Qed.

(** The two digits after the point, checked on all hundred values. *)
Definition two_digits_ok (k : Z) : bool :=
  (String.length (two_digits k) =? 2)%nat &&
  match AsciiText.Z_of_string (two_digits k) with Some k' => (k' =? k)%Z | None => false end.

Lemma two_digits_all : forallb (fun i => two_digits_ok (Z.of_nat i)) (seq 0 100) = true.
Proof. vm_compute. reflexivity. Qed.

Lemma two_digits_read k :
  (0 <= k < 100)%Z ->
  String.length (two_digits k) = 2%nat /\ AsciiText.Z_of_string (two_digits k) = Some k.
Proof.
  intros Hk. pose proof (proj1 (forallb_forall _ _) two_digits_all (Z.to_nat k)) as H.
  cbv beta in H. rewrite Z2Nat.id in H by lia. unfold two_digits_ok in H.
  apply andb_prop in H as [Hl Hz]; [|apply in_seq; lia].
  split; [now apply Nat.eqb_eq|]. destruct (AsciiText.Z_of_string (two_digits k)); [|discriminate].
  apply Z.eqb_eq in Hz. now subst.
Qed.

(** [str(n)] of [n >= 0] is non-empty and starts with a digit. *)
Lemma str_int_head a :
  (0 <= a)%Z -> exists c t, str_int a = String c t /\ Ascii.eqb c "-" = false.
Proof.
  intros Ha. destruct (str_int a) as [|c t] eqn:E.
  - pose proof (AsciiText.Z_of_to_string a) as H. unfold str_int in E. rewrite E in H. discriminate.
  - exists c, t. split; [reflexivity|].
    assert (Hd : AsciiText.is_digit c = true).
    { unfold str_int, AsciiText.string_of_Z, NilZero.string_of_int in E.
      destruct a as [|p|p]; [| |lia]; cbn [Z.to_int] in E.
      - injection E as <- _. reflexivity.
      - apply (AsciiText.nz_uint_chars (Pos.to_uint p) c). rewrite E. now left. }
    destruct (Ascii.eqb_spec c "-") as [->|]; [discriminate | reflexivity].
Qed.

Lemma strip_minus_minus x : strip_minus ("-" ++ x) = (true, x).
Proof. reflexivity. Qed.

Lemma strip_minus_nonneg a r : (0 <= a)%Z -> strip_minus (str_int a ++ r) = (false, str_int a ++ r).
Proof.
  intros Ha. destruct (str_int_head _ Ha) as (c & t & Ht & Hc). rewrite Ht. cbn. now rewrite Hc.
Qed.

Lemma read_2f_body (neg : bool) (n : Z) :
  (0 <= n)%Z ->
  read_2f ((if neg then "-" else EmptyString) ++ str_int (n / 100) ++ "." ++ two_digits (n mod 100)) =
  Some ((if neg then -1 else 1) * (inject_Z (n / 100) + inject_Z (n mod 100) / 100))%Q.
Proof.
  intros Hn. assert (Hm : (0 <= n mod 100 < 100)%Z) by (apply Z.mod_pos_bound; lia).
  assert (Hd : (0 <= n / 100)%Z) by (apply Z.div_pos; lia).
  destruct (two_digits_read _ Hm) as [Hlen Hz].
  assert (Hb1 : (0 <=? n / 100)%Z = true) by (apply Z.leb_le; lia).
  assert (Hb2 : (0 <=? n mod 100)%Z = true) by (apply Z.leb_le; lia).
  assert (Hsplit : AsciiText.split_at "." (str_int (n / 100) ++ "." ++ two_digits (n mod 100)) =
                   Some (str_int (n / 100), two_digits (n mod 100)))
    by (apply AsciiText.split_at_app, AsciiText.string_of_Z_no_sep; [discriminate | reflexivity]).
  unfold read_2f. destruct neg.
  - rewrite strip_minus_minus. cbv iota beta.
    rewrite Hsplit. unfold str_int. rewrite AsciiText.Z_of_to_string, Hz, Hlen, Hb1, Hb2. reflexivity.
  - change (strip_minus (EmptyString ++ ?x)) with (strip_minus x). rewrite (strip_minus_nonneg _ _ Hd). cbv iota beta.
    rewrite Hsplit. unfold str_int. rewrite AsciiText.Z_of_to_string, Hz, Hlen, Hb1, Hb2. reflexivity.
Qed.

Lemma div_mod_100 n : (inject_Z (n / 100) + inject_Z (n mod 100) / 100 == inject_Z n * (1 # 100))%Q.
Proof.
  rewrite (Z.div_mod n 100) at 3 by lia. rewrite inject_Z_plus, inject_Z_mult. field.
Qed.

Lemma round_half_even_tie x :
  ((x - inject_Z (round_half_even x) == 1 # 2) \/ (x - inject_Z (round_half_even x) == -(1 # 2)))%Q ->
  Z.even (round_half_even x) = true.
Proof.
  pose proof (Qfloor_le x) as H1. pose proof (Qlt_floor x) as H2.
  rewrite inject_Z_plus in H2. change (inject_Z 1) with 1%Q in H2. unfold round_half_even.
  destruct (Qcompare_spec (x - inject_Z (Qfloor x)) (1 # 2)) as [E|E|E].
  - intros _. destruct (Z.even (Qfloor x)) eqn:Ev; [exact Ev|]. rewrite Z.even_add, Ev. reflexivity.
  - intros [Ht|Ht]; lra.
  - rewrite inject_Z_plus. change (inject_Z 1) with 1%Q. intros [Ht|Ht]; lra.
Qed.

Lemma Qabs_eq_half y : (Qabs y == 1 # 2)%Q -> (y == 1 # 2)%Q \/ (y == -(1 # 2))%Q.
Proof.
  destruct (Qlt_le_dec y 0) as [Hy|Hy]; [rewrite Qabs_neg by lra | rewrite Qabs_pos by exact Hy];
    intros Ht; [right | left]; lra.
Qed.

(** [:.2f] of [q] reads back as [n / 100], where [n] is the integer
    nearest to [100 * q], ties to even. *)
Lemma format_2f_cents q :
  exists n v, read_2f (format_2f q) = Some v /\ (v == inject_Z n * (1 # 100))%Q /\
    (Qabs (inject_Z n - q * 100) <= 1 # 2)%Q /\
    ((Qabs (inject_Z n - q * 100) == 1 # 2)%Q -> Z.even n = true).
Proof.
  unfold format_2f. set (m := round_half_even (Qabs q * 100)).
  assert (Hn : (0 <= m)%Z) by (apply round_half_even_nonneg; pose proof (Qabs_nonneg q); lra).
  pose proof (round_half_even_bound (Qabs q * 100)) as Hb. fold m in Hb.
  pose proof (round_half_even_tie (Qabs q * 100)) as Htie. fold m in Htie.
  apply Qabs_Qle_condition in Hb.
  destruct (Qle_bool 0 q) eqn:E; [apply Qle_bool_iff in E | apply Qle_bool_false in E].
  - rewrite Qabs_pos in Hb, Htie by exact E. exists m. eexists. split; [exact (read_2f_body false m Hn)|].
    cbv iota. rewrite div_mod_100. destruct Hb. split; [ring|]. split.
    + apply Qabs_Qle_condition. split; lra.
    + intros Ht. apply Htie. destruct (Qabs_eq_half _ Ht); [right | left]; lra.
  - rewrite Qabs_neg in Hb, Htie by lra. exists (- m)%Z. eexists. split; [exact (read_2f_body true m Hn)|].
    cbv iota. rewrite div_mod_100, inject_Z_opp. destruct Hb. split; [ring|]. split.
    + apply Qabs_Qle_condition. split; lra.
    + intros Ht. rewrite Z.even_opp. apply Htie. destruct (Qabs_eq_half _ Ht); [left | right]; lra.
Qed.

(** C27. The line [Totale: €{total:.2f}] that [register_sale] prints
    (line 82) shows the total rounded to the cent as [:.2f] rounds:
    the text after the currency sign reads back as [n / 100] for the
    integer [n] nearest to [100 * total], and when [100 * total] lies
    exactly halfway between two integers, [n] is the even one. *)
Theorem total_line_rounding t :
  exists s n v, render_line (Total t) = "Totale: €" ++ s /\ read_2f s = Some v /\
    (v == inject_Z n * (1 # 100))%Q /\ (Qabs (inject_Z n - t * 100) <= 1 # 2)%Q /\
    ((Qabs (inject_Z n - t * 100) == 1 # 2)%Q -> Z.even n = true).
Proof.
  destruct (format_2f_cents t) as (n & v & Hr & Hv & Hb & Ht).
  exists (format_2f t), n, v. split; [reflexivity|]. auto.
Qed.

