(* ===== verification/Json.v ===== *)
(** * The stored document as a JSON value: [load_data] and [save_data]

    [Persistence] models the file through the typed document [stored]
    that the program writes.  This file models the code of [load_data]
    and [save_data] on any value [json.load] can return, as Python runs
    it: the dict [data], [data['products'].items()], the dict display
    [{**product, 'price': ..., 'cost': ...}] and [data['sales']], with
    the [KeyError], [TypeError] and [AttributeError] a value of another
    shape raises, in the order Python evaluates them.  The two functions
    share their shape (lines 7-11 and 17-21): [convert_data conv]
    rebuilds the document with [conv] applied to every price and cost,
    [float(str(x))] on load ([float_conv]) and [str(x)] on save
    ([str_conv]).

    The JSON text ([json.dump] with [indent=2], [json.load]) is library
    code: a [Parsed] file holds the value that was dumped.

    Theorems: the typed model of [Persistence] is this code on the
    documents it describes ([json_refines_persistence]); saving then
    loading gives back the in-memory value, other keys of a product and
    any sales included ([save_load_value]); and the errors a stored
    document can raise are exactly those of a missing key, a value of
    the wrong type and a text [float] rejects ([load_value_errors]). *)

From S2P Require Import Prelude Builtins Ledger Persistence Render.
Local Open Scope string_scope.
Local Open Scope py_scope.

(** The values [json.load] returns: [None], [bool], [int], [float],
    [str], [list] and [dict] (keys in the order of the text). *)
Inductive json : Type :=
  | JNull
  | JBool (b : bool)
  | JInt (z : Z)
  | JFloat (q : Q)
  | JStr (s : string)
  | JList (l : list json)
  | JDict (l : list (string * json)).

Definition type_name (v : json) : string :=
  match v with
  | JNull => "NoneType"
  | JBool _ => "bool"
  | JInt _ => "int"
  | JFloat _ => "float"
  | JStr _ => "str"
  | JList _ => "list"
  | JDict _ => "dict"
  end.

Section Values.
Context `{PyText}.

(** [repr(v)] and [str(v)]. *)
Fixpoint repr_value (v : json) : string :=
  match v with
  | JNull => "None"
  | JBool b => if b then "True" else "False"
  | JInt z => str_int z
  | JFloat q => py_str q
  | JStr s => py_repr s
  | JList l => "[" ++ String.concat ", " (map repr_value l) ++ "]"
  | JDict l => "{" ++ String.concat ", " (map (fun '(k, x) => py_repr k ++ ": " ++ repr_value x) l) ++ "}"
  end.

Definition str_value (v : json) : string :=
  match v with
  | JStr s => s
  | _ => repr_value v
  end.

(** [v[k]] for a key [k] of type [str]. *)
Definition getitem (v : json) (k : string) : res json :=
  match v with
  | JDict l =>
      match Dict.lookup k l with
      | Some x => Ok x
      | None => Raise (KeyError k)
      end
  | _ => Raise (TypeError (type_name v))
  end.

(** [v.items()] *)
Definition py_items (v : json) : res (list (string * json)) :=
  match v with
  | JDict l => Ok l
  | _ => Raise (AttributeError (type_name v))
  end.

(** [**v] in a dict display. *)
Definition as_mapping (v : json) : res (list (string * json)) :=
  match v with
  | JDict l => Ok l
  | _ => Raise (TypeError (type_name v))
  end.

(** [float(str(x))] on load, [str(x)] on save. *)
Definition float_conv (x : json) : res json :=
  match py_float (str_value x) with
  | Some q => Ok (JFloat q)
  | None => Raise (ValueError (VE_float_literal (str_value x)))
  end.

Definition str_conv (x : json) : res json := Ok (JStr (str_value x)).

Section Convert.
Variable conv : json -> res json.

(** [{**product, 'price': conv(product['price']), 'cost': conv(product['cost'])}]:
    the mapping is unpacked first, then the price and the cost are
    computed, and the two keys are set in that order. *)
Definition convert_product (product : json) : res json :=
  let? fields := as_mapping product in
  let? price := getitem product "price" in
  let? price' := conv price in
  let? cost := getitem product "cost" in
  let? cost' := conv cost in
  Ok (JDict (Dict.setitem "cost" cost' (Dict.setitem "price" price' fields))).

(** The comprehension [{name: ... for name, product in ....items()}]. *)
Fixpoint convert_products (l : list (string * json)) : res (list (string * json)) :=
  match l with
  | [] => Ok []
  | (name, product) :: rest =>
      let? p := convert_product product in
      let? ps := convert_products rest in
      Ok ((name, p) :: ps)
  end.

(** [{'products': {...}, 'sales': data['sales']}] *)
Definition convert_data (data : json) : res json :=
  let? products := getitem data "products" in
  let? l := py_items products in
  let? ps := convert_products l in
  let? sales := getitem data "sales" in
  Ok (JDict [("products", JDict ps); ("sales", sales)]).
End Convert.

(** The body of [load_data] after [json.load], and the value
    [save_data] passes to [json.dump]. *)
Definition load_value (v : json) : res json := convert_data float_conv v.
Definition save_value (v : json) : res json := convert_data str_conv v.

(** The file [store_data.json]. *)
Inductive document : Type :=
  | Missing
  | Unparsable
  | Parsed (v : json).

(** [load_data()]: only [FileNotFoundError] is caught. *)
Definition load_document (f : document) : res json :=
  match f with
  | Missing => Ok (JDict [("products", JDict []); ("sales", JList [])])
  | Unparsable => Raise JSONDecodeError
  | Parsed v => load_value v
  end.

(** [save_data(data)]: the file then holds the dumped value. *)
Definition save_document (v : json) : res document := res_map Parsed (save_value v).

(** ** The typed ledger as a JSON value *)

(** [{'quantity': quantity, 'cost': cost, 'price': price}] of line 39. *)
Definition json_of_product (p : product) : json :=
  JDict [("quantity", JInt (quantity p)); ("cost", JFloat (cost p)); ("price", JFloat (price p))].

(** [{'name': name, 'quantity': quantity, 'price': price}] of line 70. *)
Definition json_of_item (i : item) : json :=
  JDict [("name", JStr (item_name i)); ("quantity", JInt (item_quantity i)); ("price", JFloat (item_price i))].

(** [{'items': sale, 'total': total}] of line 80. *)
Definition json_of_sale (s : sale) : json :=
  JDict [("items", JList (map json_of_item (items s))); ("total", JFloat (total s))].

Definition json_of_data (d : data) : json :=
  JDict [("products", JDict (map (fun '(name, p) => (name, json_of_product p)) (products d)));
         ("sales", JList (map json_of_sale (sales d)))].

(** The typed document of [Persistence] as the value in the file. *)
Definition json_of_stored_product (sp : stored_product) : json :=
  JDict [("quantity", JInt (s_quantity sp)); ("cost", JStr (s_cost sp)); ("price", JStr (s_price sp))].

Definition json_of_stored (s : stored) : json :=
  JDict [("products", JDict (map (fun '(name, sp) => (name, json_of_stored_product sp)) (s_products s)));
         ("sales", JList (map json_of_sale (s_sales s)))].

Definition document_of_file (f : file) : document :=
  match f with
  | NoFile => Missing
  | Corrupt => Unparsable
  | Stored s => Parsed (json_of_stored s)
  end.
End Values.

(** ** The typed model is the code on the documents it describes *)

Section Refinement.
Context `{PyText}.

Lemma load_stored_product sp :
  convert_product float_conv (json_of_stored_product sp) = res_map json_of_product (decode_product sp).
Proof.
  unfold convert_product, json_of_stored_product, decode_product, float_conv. cbn.
  destruct (py_float (s_price sp)), (py_float (s_cost sp)); reflexivity.
Qed.

Lemma load_stored_products l :
  convert_products float_conv (map (fun '(name, sp) => (name, json_of_stored_product sp)) l) =
  res_map (map (fun '(name, p) => (name, json_of_product p))) (decode_products l).
Proof.
  induction l as [|[name sp] l IH]; [reflexivity|]. cbn [map convert_products decode_products].
  rewrite load_stored_product, IH.
  destruct (decode_product sp), (decode_products l); reflexivity.
Qed.

Lemma save_product p :
  convert_product str_conv (json_of_product p) = Ok (json_of_stored_product (encode_product p)).
Proof. reflexivity. Qed.

Lemma save_products ps :
  convert_products str_conv (map (fun '(name, p) => (name, json_of_product p)) ps) =
  Ok (map (fun '(name, sp) => (name, json_of_stored_product sp))
          (map (fun '(name, p) => (name, encode_product p)) ps)).
Proof.
  induction ps as [|[name p] ps IH]; [reflexivity|]. cbn [map convert_products].
  rewrite save_product, IH. reflexivity.
Qed.
End Refinement.

(** C15. The typed model of the file in [Persistence] is the code of
    [load_data] and [save_data] run on the JSON value: loading the value
    of a typed document gives the JSON form of the ledger [load_data]
    returns, or raises the same exception (also for a missing or
    unreadable file), and the value [save_data] dumps is the typed
    document [encode_data] of the ledger. *)
Theorem json_refines_persistence `{PyText} f d :
  load_document (document_of_file f) = res_map json_of_data (load_data f) /\
  save_document (json_of_data d) = Ok (document_of_file (Stored (encode_data d))).
Proof.
  split.
  - destruct f as [| |s]; [reflexivity | reflexivity |].
    cbn -[convert_products decode_products]. rewrite load_stored_products.
    destruct (decode_products (s_products s)); reflexivity.
  - unfold save_document, save_value, convert_data. cbn -[convert_products].
    rewrite save_products. reflexivity.
Qed.

(** ** Saving then loading *)

(** A product of the dict in memory: its price and its cost are
    floats; other keys may be there and are carried along. *)
Definition product_floats (p : json) : bool :=
  match p with
  | JDict l =>
      match Dict.lookup "price" l, Dict.lookup "cost" l with
      | Some (JFloat _), Some (JFloat _) => true
      | _, _ => false
      end
  | _ => false
  end.

Lemma lookup_price_cost {V} (l : Dict.t V) a b :
  Dict.lookup "price" (Dict.setitem "cost" a (Dict.setitem "price" b l)) = Some b /\
  Dict.lookup "cost" (Dict.setitem "cost" a (Dict.setitem "price" b l)) = Some a.
Proof. rewrite !lookup_setitem. split; reflexivity. Qed.

(** Setting price and cost back to the values they had restores the
    product dict, key order included. *)
Lemma setitem_price_cost_back {V} (l : Dict.t V) a b a' b' :
  Dict.lookup "price" l = Some b' -> Dict.lookup "cost" l = Some a' ->
  Dict.setitem "cost" a' (Dict.setitem "price" b' (Dict.setitem "cost" a (Dict.setitem "price" b l))) = l.
Proof.
  intros Hp Hc. rewrite (setitem_comm "price" "cost");
    [|discriminate | unfold Dict.mem; rewrite lookup_setitem, ?Hc; reflexivity ..].
  rewrite !setitem_setitem, (setitem_lookup "price" b' l Hp). exact (setitem_lookup _ _ _ Hc).
Qed.

Section RoundTrip.
Context `{PyTextLaws}.

Lemma float_conv_str q : res_bind (str_conv (JFloat q)) float_conv = Ok (JFloat q).
Proof. unfold str_conv, float_conv. cbn [res_bind str_value repr_value]. now rewrite float_str. Qed.

Lemma product_roundtrip p :
  product_floats p = true -> res_bind (convert_product str_conv p) (convert_product float_conv) = Ok p.
Proof.
  destruct p as [| | | | | |l]; try discriminate. unfold product_floats.
  destruct (Dict.lookup "price" l) as [[| | |q| | |]|] eqn:Hp; try discriminate.
  destruct (Dict.lookup "cost" l) as [[| | |c| | |]|] eqn:Hc; try discriminate. intros _.
  unfold convert_product. cbn [as_mapping getitem res_bind]. rewrite Hp, Hc. cbn [res_bind str_conv].
  cbn [as_mapping getitem res_bind].
  destruct (lookup_price_cost l (JStr (str_value (JFloat c))) (JStr (str_value (JFloat q)))) as [-> ->].
  cbn [res_bind]. unfold float_conv. cbn [str_value repr_value]. rewrite !float_str. cbn [res_bind].
  now rewrite setitem_price_cost_back.
Qed.
End RoundTrip.

Section RoundTripList.
Context `{PyTextLaws}.

Lemma products_roundtrip ps :
  forallb (fun '(_, p) => product_floats p) ps = true ->
  exists ps', convert_products str_conv ps = Ok ps' /\ convert_products float_conv ps' = Ok ps.
Proof.
  induction ps as [|[name p] ps IH]; cbn [forallb convert_products]; [eauto|].
  intros [Hp Hps]%andb_prop. destruct (IH Hps) as (ps' & E1 & E2).
  pose proof (product_roundtrip p Hp) as Hr.
  destruct (convert_product str_conv p) as [p'|e] eqn:Ep; [|discriminate]. cbn [res_bind] in Hr.
  exists ((name, p') :: ps'). cbn [res_bind convert_products]. rewrite E1, Hr. cbn [res_bind]. rewrite E2. split; reflexivity.
Qed.
End RoundTripList.

(** C33. Saving the data dict and loading the saved value gives it
    back, for any data dict whose products have float prices and costs:
    every product keeps its other keys and their order, and the sales
    are carried unchanged, whatever they hold. *)
Theorem save_load_value `{PyTextLaws} data ps sales :
  getitem data "products" = Ok (JDict ps) -> getitem data "sales" = Ok sales ->
  forallb (fun '(_, p) => product_floats p) ps = true ->
  res_bind (save_value data) load_value = Ok (JDict [("products", JDict ps); ("sales", sales)]).
Proof.
  intros Hp Hs Hf. destruct (products_roundtrip ps Hf) as (ps' & E1 & E2).
  unfold save_value, convert_data. rewrite Hp. cbn [res_bind py_items]. rewrite E1. cbn [res_bind].
  rewrite Hs. cbn [res_bind]. unfold load_value, convert_data. cbn -[convert_products]. rewrite E2. reflexivity.
Qed.

(** ** What a stored document can raise *)

Section Errors.
Context `{PyText}.

(** A missing key, a value of the wrong type, or a text [float]
    rejects. *)
Definition load_exc (e : exc) : Prop :=
  (exists k, e = KeyError k /\ In k ["products"; "price"; "cost"; "sales"]) \/
  (exists t, e = TypeError t \/ e = AttributeError t) \/
  (exists t, e = ValueError (VE_float_literal t) /\ py_float t = None).

Lemma getitem_exc v k e : In k ["products"; "price"; "cost"; "sales"] -> getitem v k = Raise e -> load_exc e.
Proof.
  intros Hk. unfold getitem, load_exc. destruct v; try (intros [= <-]; eauto 6; fail).
  destruct (Dict.lookup k l); intros [= <-]; eauto.
Qed.

Lemma float_conv_exc x e : float_conv x = Raise e -> load_exc e.
Proof.
  unfold float_conv, load_exc. destruct (py_float (str_value x)) eqn:E; intros [= <-]; eauto 6.
Qed.

Lemma mapping_exc v e : (as_mapping v = Raise e \/ py_items v = Raise e) -> load_exc e.
Proof. unfold load_exc. destruct v; intros [Hr|Hr]; cbn in Hr; try discriminate; injection Hr as <-; eauto 6. Qed.

Lemma convert_product_exc p e : convert_product float_conv p = Raise e -> load_exc e.
Proof.
  unfold convert_product. intros Hr.
  apply res_bind_raise in Hr as [Hr|(l & _ & Hr)].
  { apply (mapping_exc p). now left. }
  repeat match type of Hr with
  | res_bind _ _ = Raise _ => apply res_bind_raise in Hr as [Hr|(? & _ & Hr)]
  end; try discriminate;
    first [exact (float_conv_exc _ _ Hr) | eapply getitem_exc; [|exact Hr]; cbn; tauto].
Qed.

Lemma convert_products_exc l e : convert_products float_conv l = Raise e -> load_exc e.
Proof.
  induction l as [|[name p] l IH]; cbn [convert_products]; [discriminate|]. intros Hr.
  apply res_bind_raise in Hr as [Hr|(? & _ & Hr)]; [exact (convert_product_exc _ _ Hr)|].
  apply res_bind_raise in Hr as [Hr|(? & _ & Hr)]; [exact (IH Hr) | discriminate].
Qed.
End Errors.

(** C34. Loading a stored value raises only what its shape explains:
    the [KeyError] of one of the keys the code reads ([products], then
    for each product [price] and [cost], then [sales]), the [TypeError]
    or [AttributeError] of a value that is not a dict, or the
    [ValueError] of a price or cost whose text [float] rejects. *)
Theorem load_value_errors `{PyText} v e :
  load_value v = Raise e ->
  (exists k, e = KeyError k /\ In k ["products"; "price"; "cost"; "sales"]) \/
  (exists t, e = TypeError t \/ e = AttributeError t) \/
  (exists t, e = ValueError (VE_float_literal t) /\ py_float t = None).
Proof.
  unfold load_value, convert_data. intros Hr. change (load_exc e).
  apply res_bind_raise in Hr as [Hr|(ps & _ & Hr)]; [eapply getitem_exc; [|exact Hr]; cbn; tauto|].
  apply res_bind_raise in Hr as [Hr|(l & _ & Hr)]; [apply (mapping_exc ps); now right|].
  apply res_bind_raise in Hr as [Hr|(? & _ & Hr)]; [exact (convert_products_exc _ _ Hr)|].
  apply res_bind_raise in Hr as [Hr|(? & _ & Hr)]; [eapply getitem_exc; [|exact Hr]; cbn; tauto | discriminate].
Qed.


(** ** Examples *)

Lemma save_load_value_witness :
  res_bind (save_value (JDict [("products", JDict [("tofu", JDict [("quantity", JInt 3); ("cost", JFloat 2);
                                                                  ("price", JFloat (7 # 2)); ("vegan", JBool true)])]);
                               ("sales", JList [])]))
           load_value =
  Ok (JDict [("products", JDict [("tofu", JDict [("quantity", JInt 3); ("cost", JFloat 2);
                                                ("price", JFloat (7 # 2)); ("vegan", JBool true)])]);
             ("sales", JList [])]).
Proof.
  apply (@save_load_value ascii_text ascii_text_laws
           (JDict [("products", JDict [("tofu", JDict [("quantity", JInt 3); ("cost", JFloat 2);
                                                      ("price", JFloat (7 # 2)); ("vegan", JBool true)])]);
                   ("sales", JList [])])
           [("tofu", JDict [("quantity", JInt 3); ("cost", JFloat 2); ("price", JFloat (7 # 2)); ("vegan", JBool true)])]
           (JList [])); reflexivity.
Defined.

(** A product with neither price nor cost: the price is read first. *)
Lemma load_value_errors_witness :
  load_value (JDict [("products", JDict [("tofu", JDict [("quantity", JInt 3)])]); ("sales", JList [])]) =
    Raise (KeyError "price") /\
  In "price" ["products"; "price"; "cost"; "sales"].
Proof.
  assert (Hr : load_value (JDict [("products", JDict [("tofu", JDict [("quantity", JInt 3)])]); ("sales", JList [])]) =
               Raise (KeyError "price")) by reflexivity.
  destruct (@load_value_errors ascii_text _ _ Hr) as [(k & [= <-] & Hk)|[(t & [[=]|[=]])|(t & [=] & _)]].
  split; [exact Hr | exact Hk].
Defined.

(** [load_data] reads only the price and the cost of a product: a
    product without a quantity, or with a quantity that is text, loads
    without error. *)
Example load_value_unchecked_quantity :
  load_value (JDict [("products", JDict [("tofu", JDict [("cost", JStr "2"); ("price", JStr "7/2")]);
                                         ("seitan", JDict [("quantity", JStr "tre"); ("cost", JStr "1"); ("price", JStr "2")])]);
                     ("sales", JList [])]) =
  Ok (JDict [("products", JDict [("tofu", JDict [("cost", JFloat 2); ("price", JFloat (7 # 2))]);
                                 ("seitan", JDict [("quantity", JStr "tre"); ("cost", JFloat 1); ("price", JFloat 2)])]);
             ("sales", JList [])]).
Proof. reflexivity. Qed.
